(** * nd_image.c: the adapter layer between the host interpreter and the
    n-dimensional image engine

    A shallow embedding of [scipy/ndimage/src/nd_image.c]: the array
    adapters ([satisfies], [NA_InputArray], [NA_OutputArray], [NA_IoArray]),
    the array constructor ([NA_NewArray]), the converters of the argument
    parser, the sequence adapter ([NI_ObjectToLongSequenceAndLength]), the
    callback trampolines ([Py_Filter1DFunc], [Py_FilterFunc], [Py_Map]) and
    the wrappers [Py_GeometricTransform], [Py_FindObjects],
    [Py_DistanceTransformBruteForce], [Py_BinaryErosion] and
    [Py_BinaryErosion2].

    C functions become functions of an explicit [World]: the store of array
    objects, the interpreter's error indicator, the outcomes of the
    allocation requests to come, the trace of the calls that leave the file
    and the state of the engine.  A C function that returns [NULL] and sets
    the error indicator returns [None] and sets [err]; a dereference of
    [NULL] or a read outside a buffer is the outcome [Crash].  What the
    file takes from NumPy, from the interpreter and from the kernels is a
    parameter or a model of its documented behaviour, marked as such.
    Reference counts are not modelled: an object stays in the store for
    the whole run, and the write-back NumPy performs when a shadow array is
    released is represented by what schedules it, the base pointer and the
    [NPY_ARRAY_UPDATEIFCOPY] flag. *)

From Stdlib Require Import ZArith Bool List Lia.
From Stdlib Require Import Floats.PrimFloat Floats.SpecFloat Floats.FloatOps.
From stdpp Require Import gmap strings list.

Set Warnings "-register-all".
Local Open Scope Z_scope.

(** ** NumPy's array flags and type numbers *)

Module Flags.

(** Modelled from the spec: the flag bits of numpy/ndarraytypes.h, which
    nd_image.c uses but does not define; the spec's property set
    {contiguous, aligned, native-byte-order, writable, force-copy}. *)
Definition NPY_ARRAY_C_CONTIGUOUS : Z := 0x0001.
Definition NPY_ARRAY_F_CONTIGUOUS : Z := 0x0002.
Definition NPY_ARRAY_OWNDATA : Z := 0x0004.
Definition NPY_ARRAY_FORCECAST : Z := 0x0010.
Definition NPY_ARRAY_ENSURECOPY : Z := 0x0020.
Definition NPY_ARRAY_ALIGNED : Z := 0x0100.
Definition NPY_ARRAY_NOTSWAPPED : Z := 0x0200.
Definition NPY_ARRAY_WRITEABLE : Z := 0x0400.
Definition NPY_ARRAY_UPDATEIFCOPY : Z := 0x1000.

Definition NPY_ARRAY_BEHAVED : Z :=
  Z.lor NPY_ARRAY_ALIGNED NPY_ARRAY_WRITEABLE.
Definition NPY_ARRAY_CARRAY : Z :=
  Z.lor NPY_ARRAY_C_CONTIGUOUS NPY_ARRAY_BEHAVED.

(** Type numbers of [enum NPY_TYPES] on an LP64 platform. *)
Definition NPY_LONG : Z := 7.
Definition NPY_LONGLONG : Z := 9.
Definition NPY_DOUBLE : Z := 12.
Definition NPY_NOTYPE : Z := 25.
Definition NPY_INTP : Z := NPY_LONG.

(** [x & bit] used as a C condition. *)
Definition has (x bit : Z) : bool := negb (Z.land x bit =? 0).

(** [(x & mask) == mask]. *)
Definition has_all (x mask : Z) : bool := Z.land x mask =? mask.

End Flags.
Export Flags.

(** ** Objects of the host interpreter *)

Definition double : Type := float.

(** A pointer to an array object. *)
Abbreviation loc := positive.

(** An element of an array buffer: [npy_intp] and the other integer types,
    or [double]. *)
Inductive scalar : Type :=
| SLong (z : Z)
| SDouble (d : double).

Record PyArray_Descr : Type := {
  type_num : Z;
  (* PyArray_ISNBO (byteorder) *)
  native_order : bool
}.

(** [PyArrayObject]: [data] is the logical sequence of elements in C order;
    strides and raw bytes are not represented, the layout is what [flags]
    says about it. *)
Record PyArrayObject : Type := {
  descr : PyArray_Descr;
  dimensions : list Z;
  data : list scalar;
  flags : Z;
  base : option loc
}.

(** [PyObject *]: immutable host values by value, arrays by reference. *)
Inductive PyObject : Type :=
| Py_None
| PyLong (z : Z)
| PyFloat (d : double)
| PyStr (s : string)
| PyTuple (items : list PyObject)
| PyList (items : list PyObject)
| PyDict (items : list (string * PyObject))
| PySlice (start stop step : PyObject)
| PyCapsule (name : option string) (pointer : loc)
| PyArrayRef (p : loc).

Inductive PyExc : Type :=
| PyExc_TypeError
| PyExc_ValueError
| PyExc_RuntimeError
| PyExc_MemoryError
| PyExc_IndexError
| PyExc_SystemError
| PyExc_OverflowError
| PyExc_Exception.

(** ** Array macros *)

Definition PyArray_TYPE (a : PyArrayObject) : Z := type_num (descr a).
Definition PyArray_NDIM (a : PyArrayObject) : Z := Z.of_nat (length (dimensions a)).
Definition PyArray_CHKFLAGS (a : PyArrayObject) (f : Z) : bool := has_all (flags a) f.
Definition PyArray_ISNOTSWAPPED (a : PyArrayObject) : bool := native_order (descr a).
Definition PyArray_ISBYTESWAPPED (a : PyArrayObject) : bool := negb (PyArray_ISNOTSWAPPED a).
Definition PyArray_ISCARRAY (a : PyArrayObject) : bool :=
  PyArray_CHKFLAGS a NPY_ARRAY_CARRAY && PyArray_ISNOTSWAPPED a.
Definition PyArray_ISALIGNED (a : PyArrayObject) : bool := PyArray_CHKFLAGS a NPY_ARRAY_ALIGNED.
Definition PyArray_ISCONTIGUOUS (a : PyArrayObject) : bool := PyArray_CHKFLAGS a NPY_ARRAY_C_CONTIGUOUS.
Definition PyArray_ISWRITEABLE (a : PyArrayObject) : bool := PyArray_CHKFLAGS a NPY_ARRAY_WRITEABLE.

Definition PyArray_ENABLEFLAGS (a : PyArrayObject) (f : Z) : PyArrayObject :=
  {| descr := descr a; dimensions := dimensions a; data := data a;
     flags := Z.lor (flags a) f; base := base a |}.
Definition PyArray_CLEARFLAGS (a : PyArrayObject) (f : Z) : PyArrayObject :=
  {| descr := descr a; dimensions := dimensions a; data := data a;
     flags := Z.land (flags a) (Z.lnot f); base := base a |}.
(** The store of [b] into the [base] field. *)
Definition set_base (b : loc) (a : PyArrayObject) : PyArrayObject :=
  {| descr := descr a; dimensions := dimensions a; data := data a;
     flags := flags a; base := Some b |}.

(** ** The part of NumPy the file relies on *)

(** The NumPy runtime the adapters call into and that nd_image.c does not
    contain: type equivalence, casting of a buffer to another element type
    ([None] when the cast is refused) and the array constructor for a host
    value that is not an array ([None] when the value cannot be
    converted; the argument is the requested element type, if any). *)
Class NumPy : Type := {
  PyArray_EquivTypenums : Z -> Z -> bool;
  PyArray_CastTo : Z -> Z -> list scalar -> option (list scalar);
  PyArray_FromObject : PyObject -> option Z -> option (Z * list Z * list scalar)
}.

Section Compliance.

Context {np : NumPy}.

Definition type_ok (a : PyArrayObject) (t : Z) : bool :=
  (t =? NPY_NOTYPE) || PyArray_EquivTypenums (PyArray_TYPE a) t.

(** [satisfies] of nd_image.c. *)
Definition satisfies (a : PyArrayObject) (requirements : Z) (t : Z) : bool :=
  if PyArray_ISCARRAY a then type_ok a t
  else if PyArray_ISBYTESWAPPED a && has requirements NPY_ARRAY_NOTSWAPPED then false
  else if negb (PyArray_ISALIGNED a) && has requirements NPY_ARRAY_ALIGNED then false
  else if negb (PyArray_ISCONTIGUOUS a) && has requirements NPY_ARRAY_C_CONTIGUOUS then false
  else if negb (PyArray_ISWRITEABLE a) && has requirements NPY_ARRAY_WRITEABLE then false
  else if has requirements NPY_ARRAY_ENSURECOPY then false
  else type_ok a t.

(** Every flag requested among {no-byteswap, aligned, contiguous, writable}
    already holds on the value. *)
Definition requested_flags_hold (a : PyArrayObject) (requirements : Z) : bool :=
  implb (has requirements NPY_ARRAY_NOTSWAPPED) (PyArray_ISNOTSWAPPED a)
  && implb (has requirements NPY_ARRAY_ALIGNED) (PyArray_ISALIGNED a)
  && implb (has requirements NPY_ARRAY_C_CONTIGUOUS) (PyArray_ISCONTIGUOUS a)
  && implb (has requirements NPY_ARRAY_WRITEABLE) (PyArray_ISWRITEABLE a).

(** The compliance predicate in the words of the specification, without
    the short-circuit: type, requested flags, no forced copy. *)
Definition compliant_spec (a : PyArrayObject) (requirements : Z) (t : Z) : bool :=
  type_ok a t && requested_flags_hold a requirements
  && negb (has requirements NPY_ARRAY_ENSURECOPY).

End Compliance.

(** ** The world a call runs in *)

(** Calls that leave the file: the host callable behind a trampoline, with
    the object store as it is when the call is made, and the engine kernel
    behind [Py_BinaryErosion2]. *)
Inductive event : Type :=
| EvCallable (args : list PyObject) (kwds : PyObject)
    (store : gmap loc PyArrayObject)
| EvBinaryErosion2 (handle : option loc).

(** [NI_CoordinateList], the state behind an erosion handle, as the list of
    its pending coordinates. *)
Definition NI_CoordinateList : Type := list (list Z).

Record World : Type := {
  heap : gmap loc PyArrayObject;
  (* the interpreter's error indicator *)
  err : option (PyExc * string);
  (* outcome of the allocation requests to come; requests beyond the list
     succeed *)
  mem : list bool;
  trace : list event;
  lists : gmap loc NI_CoordinateList
}.

Definition set_heap (h : gmap loc PyArrayObject) (w : World) : World :=
  {| heap := h; err := err w; mem := mem w; trace := trace w; lists := lists w |}.
Definition set_err (e : option (PyExc * string)) (w : World) : World :=
  {| heap := heap w; err := e; mem := mem w; trace := trace w; lists := lists w |}.
Definition set_mem (m : list bool) (w : World) : World :=
  {| heap := heap w; err := err w; mem := m; trace := trace w; lists := lists w |}.
Definition set_trace (t : list event) (w : World) : World :=
  {| heap := heap w; err := err w; mem := mem w; trace := t; lists := lists w |}.
Definition set_lists (l : gmap loc NI_CoordinateList) (w : World) : World :=
  {| heap := heap w; err := err w; mem := mem w; trace := trace w; lists := l |}.

(** The outcome of a run: a result, or a crash (undefined behaviour in C),
    with the world reached. *)
Inductive Res (A : Type) : Type :=
| Done (a : A) (w : World)
| Crash (w : World).
Arguments Done {A} a w.
Arguments Crash {A} w.

Definition final {A} (r : Res A) : World :=
  match r with Done _ w => w | Crash w => w end.

Definition M (A : Type) : Type := World -> Res A.

Definition retM {A} (a : A) : M A := fun w => Done a w.
Definition bindM {A B} (m : M A) (k : A -> M B) : M B :=
  fun w => match m w with
           | Done a w' => k a w'
           | Crash w' => Crash w'
           end.
Definition crash {A} : M A := fun w => Crash w.

#[global] Instance M_ret : MRet M := @retM.
#[global] Instance M_bind : MBind M := fun A B k m => bindM m k.

(** *** The error indicator *)

Definition PyErr_SetString (e : PyExc) (msg : string) : M unit :=
  fun w => Done tt (set_err (Some (e, msg)) w).
Definition PyErr_NoMemory : M unit := PyErr_SetString PyExc_MemoryError "".
Definition PyErr_Occurred : M bool :=
  fun w => Done (bool_decide (is_Some (err w))) w.
Definition PyErr_Clear : M unit := fun w => Done tt (set_err None w).

(** *** The allocator and the object store *)

(** Whether the next allocation request is granted. *)
Definition granted (w : World) : bool := hd true (mem w).

(** One allocation request: [true] when it is granted. *)
Definition request : M bool :=
  fun w => Done (granted w) (set_mem (tl (mem w)) w).

Definition deref (p : loc) : M PyArrayObject :=
  fun w => match heap w !! p with
           | Some a => Done a w
           | None => Crash w
           end.

Definition update (p : loc) (f : PyArrayObject -> PyArrayObject) : M unit :=
  fun w => match heap w !! p with
           | Some a => Done tt (set_heap (<[p := f a]> (heap w)) w)
           | None => Crash w
           end.

Definition new_object (a : PyArrayObject) : M loc :=
  fun w => let p := fresh (dom (heap w)) in
           Done p (set_heap (<[p := a]> (heap w)) w).

Definition emit (e : event) : M unit :=
  fun w => Done tt (set_trace (trace w ++ [e]) w).

(** *** Array creation *)

Definition PyArray_DescrFromType (t : Z) : PyArray_Descr :=
  {| type_num := t; native_order := true |}.

Definition PyArray_MultiplyList (dims : list Z) : Z := fold_right Z.mul 1 dims.
Definition PyArray_SIZE (a : PyArrayObject) : Z := PyArray_MultiplyList (dimensions a).

Definition zero_of (t : Z) : scalar :=
  if t =? NPY_DOUBLE then SDouble 0%float else SLong 0.

(** Modelled from the spec: NumPy's [PyArray_NewFromDescr] and
    [PyArray_Empty] (not under src/): a new array that owns its buffer, in
    canonical layout; [NULL] with a memory error when the allocation is
    refused.  The contents of the new buffer are unspecified in C and are
    zeros here. *)
Definition PyArray_NewFromDescr (d : PyArray_Descr) (dims : list Z) : M (option loc) :=
  ok ← request;
  if ok : bool then
    p ← new_object {| descr := d; dimensions := dims;
                      data := replicate (Z.to_nat (PyArray_MultiplyList dims)) (zero_of (type_num d));
                      flags := Z.lor NPY_ARRAY_CARRAY NPY_ARRAY_OWNDATA;
                      base := None |};
    mret (Some p)
  else
    _ ← PyErr_NoMemory; mret None.

Definition PyArray_Empty (dims : list Z) (d : PyArray_Descr) : M (option loc) :=
  PyArray_NewFromDescr d dims.

Definition set_data (d : list scalar) (a : PyArrayObject) : PyArrayObject :=
  {| descr := descr a; dimensions := dimensions a; data := d;
     flags := flags a; base := base a |}.

(** The loop of NumPy's [PyArray_SetBaseObject]: from [obj], follow the
    chain of bases while the object is an array that does not own its data
    and has a base of the type of the array: "don't allow infinite chains
    of views, always set the base to the first owner of the data".  An
    object that is not in the store is not an array; the arrays of the
    store are all of one Python type.  The chain of a store without cycles
    is no longer than the store, which bounds the loop. *)
Fixpoint base_owner (h : gmap loc PyArrayObject) (obj : loc) (fuel : nat) : loc :=
  match fuel with
  | O => obj
  | S n =>
      match h !! obj with
      | Some obj_arr =>
          if PyArray_CHKFLAGS obj_arr NPY_ARRAY_OWNDATA then obj
          else
            match base obj_arr with
            | Some tmp =>
                if bool_decide (is_Some (h !! tmp)) then base_owner h tmp n
                else obj
            | None => obj
            end
      | None => obj
      end
  end.

(** Modelled from the spec: NumPy's [PyArray_SetBaseObject] (not under
    src/), as it acts on the array [PyArray_Empty] has just returned: the
    base that is stored is not [obj] but the owner of its data, the end of
    its chain of bases.  NumPy refuses an array that has a base already
    and a chain that leads back to [arr]; neither arises on a new array,
    which has no base and to which nothing refers, and nd_image.c does not
    look at the result. *)
Definition PyArray_SetBaseObject (arr obj : loc) : M Z :=
  fun w =>
    let owner := base_owner (heap w) obj (size (heap w)) in
    (_ ← update arr (set_base owner); mret 0) w.

(** ** ArrayAdapter *)

Section ArrayAdapter.

Context {np : NumPy}.

Definition PyArray_EquivTypes (d1 d2 : PyArray_Descr) : bool :=
  PyArray_EquivTypenums (type_num d1) (type_num d2)
  && eqb (native_order d1) (native_order d2).

(** Modelled from the spec: the copy decision of NumPy's [PyArray_FromArray]
    (not under src/), the spec's "copies only on type/layout mismatch": a
    copy is made when one is forced, when a requested layout flag does not
    hold on the array, or when the element types differ. *)
Definition needs_copy (a : PyArrayObject) (newtype : PyArray_Descr) (requires : Z) : bool :=
  has requires NPY_ARRAY_ENSURECOPY
  || (has requires NPY_ARRAY_C_CONTIGUOUS && negb (PyArray_ISCONTIGUOUS a))
  || (has requires NPY_ARRAY_ALIGNED && negb (PyArray_ISALIGNED a))
  || (has requires NPY_ARRAY_F_CONTIGUOUS && negb (PyArray_CHKFLAGS a NPY_ARRAY_F_CONTIGUOUS))
  || (has requires NPY_ARRAY_WRITEABLE && negb (PyArray_ISWRITEABLE a))
  || negb (PyArray_EquivTypes (descr a) newtype).

(** The elements of a copy: the same values when the element types are
    equivalent, the cast values otherwise. *)
Definition converted (a : PyArrayObject) (newtype : PyArray_Descr) : option (list scalar) :=
  if PyArray_EquivTypenums (PyArray_TYPE a) (type_num newtype) then Some (data a)
  else PyArray_CastTo (PyArray_TYPE a) (type_num newtype) (data a).

(** Modelled from the spec: NumPy's [PyArray_SetUpdateIfCopyBase] (not
    under src/), the spec's scheduled write-back: the copy [q] records the
    original [p] as its base, is marked for write-back, and the original
    loses write permission; refused when the original is read-only.
    Unlike [PyArray_SetBaseObject], it stores the base it is given: the
    chain of bases is not collapsed. *)
Definition PyArray_SetUpdateIfCopyBase (q p : loc) : M bool :=
  a ← deref p;
  if negb (PyArray_ISWRITEABLE a) then
    _ ← PyErr_SetString PyExc_ValueError "cannot set UPDATEIFCOPY base: array is read-only";
    mret false
  else
    _ ← update q (set_base p);
    _ ← update q (fun r => PyArray_ENABLEFLAGS r NPY_ARRAY_UPDATEIFCOPY);
    _ ← update p (fun r => PyArray_CLEARFLAGS r NPY_ARRAY_WRITEABLE);
    mret true.

(** Modelled from the spec: NumPy's [PyArray_FromArray] (not under src/):
    the array itself when no copy is needed, else a new array holding the
    converted contents, with write-back scheduled when
    [NPY_ARRAY_UPDATEIFCOPY] is requested. *)
Definition PyArray_FromArray (p : loc) (newtype : PyArray_Descr) (requires : Z) : M (option loc) :=
  a ← deref p;
  if needs_copy a newtype requires then
    match converted a newtype with
    | None =>
        _ ← PyErr_SetString PyExc_TypeError "Cannot cast array data according to the rule 'safe'";
        mret None
    | Some d =>
        r ← PyArray_NewFromDescr newtype (dimensions a);
        match r with
        | None => mret None
        | Some q =>
            _ ← update q (set_data d);
            if has requires NPY_ARRAY_UPDATEIFCOPY then
              ok ← PyArray_SetUpdateIfCopyBase q p;
              mret (if ok : bool then Some q else None)
            else mret (Some q)
        end
    end
  else mret (Some p).

(** Modelled from the spec: NumPy's [PyArray_FromAny] (not under src/) for
    ranks unconstrained: an array goes through [PyArray_FromArray]; any
    other host value is converted by the array constructor into a new
    array, which cannot carry a write-back. *)
Definition PyArray_FromAny (op : PyObject) (newtype : option PyArray_Descr) (requires : Z) : M (option loc) :=
  match op with
  | PyArrayRef p =>
      a ← deref p;
      PyArray_FromArray p (default (descr a) newtype) requires
  | _ =>
      if has requires NPY_ARRAY_UPDATEIFCOPY then
        _ ← PyErr_SetString PyExc_TypeError "UPDATEIFCOPY used for non-array input.";
        mret None
      else
        match PyArray_FromObject op (type_num <$> newtype) with
        | None =>
            _ ← PyErr_SetString PyExc_ValueError "object cannot be converted to an array";
            mret None
        | Some (t, dims, d) =>
            r ← PyArray_NewFromDescr (PyArray_DescrFromType t) dims;
            match r with
            | None => mret None
            | Some q => _ ← update q (set_data d); mret (Some q)
            end
        end
  end.

(** Modelled from the spec: NumPy's [PyArray_CheckFromAny] (not under
    src/): with [NPY_ARRAY_NOTSWAPPED] the requested type is made native
    (the own type of a byte-swapped array when none is requested), then
    [PyArray_FromAny]. *)
Definition PyArray_CheckFromAny (op : PyObject) (d : option PyArray_Descr) (requires : Z) : M (option loc) :=
  if has requires NPY_ARRAY_NOTSWAPPED then
    match d, op with
    | None, PyArrayRef p =>
        a ← deref p;
        if PyArray_ISBYTESWAPPED a then
          PyArray_FromAny op (Some (PyArray_DescrFromType (PyArray_TYPE a))) requires
        else PyArray_FromAny op None requires
    | None, _ => PyArray_FromAny op None requires
    | Some d', _ => PyArray_FromAny op (Some (PyArray_DescrFromType (type_num d'))) requires
    end
  else PyArray_FromAny op d requires.

(** The element type [PyArray_CheckFromAny] asks [PyArray_FromArray] for,
    for an array [a] and the type [t] given to [NA_InputArray]. *)
Definition target_descr (a : PyArrayObject) (t : Z) (requires : Z) : PyArray_Descr :=
  if t =? NPY_NOTYPE then
    if has requires NPY_ARRAY_NOTSWAPPED && PyArray_ISBYTESWAPPED a
    then PyArray_DescrFromType (PyArray_TYPE a) else descr a
  else PyArray_DescrFromType t.

(** [NA_InputArray] of nd_image.c. *)
Definition NA_InputArray (a : PyObject) (t : Z) (requires : Z) : M (option loc) :=
  let descr := if t =? NPY_NOTYPE then None else Some (PyArray_DescrFromType t) in
  PyArray_CheckFromAny a descr requires.

(** [NA_OutputArray] of nd_image.c. *)
Definition NA_OutputArray (a : PyObject) (t : Z) (requires : Z) : M (option loc) :=
  let not_writeable :=
    _ ← PyErr_SetString PyExc_TypeError "NA_OutputArray: only writeable arrays work for output.";
    mret None in
  match a with
  | PyArrayRef p =>
      arr ← deref p;
      if negb (PyArray_ISWRITEABLE arr) then not_writeable
      else if satisfies arr requires t then mret (Some p)
      else
        let dtype := if t =? NPY_NOTYPE then descr arr else PyArray_DescrFromType t in
        ret ← PyArray_Empty (dimensions arr) dtype;
        match ret with
        | None => crash (* PyArray_ENABLEFLAGS on NULL *)
        | Some q =>
            _ ← update q (fun r => PyArray_ENABLEFLAGS r NPY_ARRAY_UPDATEIFCOPY);
            _ ← PyArray_SetBaseObject q p;
            _ ← update p (fun r => PyArray_CLEARFLAGS r NPY_ARRAY_WRITEABLE);
            mret (Some q)
        end
  | _ => not_writeable
  end.

(** Compliance as [NA_IoArray] decides it: no copy is needed for the
    request it passes on. *)
Definition io_requires (requires : Z) : Z := Z.lor requires NPY_ARRAY_UPDATEIFCOPY.
Definition io_target (a : PyArrayObject) (t requires : Z) : PyArray_Descr :=
  target_descr a t (io_requires requires).
Definition io_compliant (a : PyArrayObject) (t requires : Z) : bool :=
  negb (needs_copy a (io_target a t requires) (io_requires requires)).

(** [NA_IoArray] of nd_image.c. *)
Definition NA_IoArray (a : PyObject) (t : Z) (requires : Z) : M (option loc) :=
  shadow ← NA_InputArray a t (Z.lor requires NPY_ARRAY_UPDATEIFCOPY);
  match shadow with
  | None => mret None
  | Some s =>
      arr ← deref s;
      if negb (PyArray_ISWRITEABLE arr) then
        _ ← PyErr_SetString PyExc_TypeError "NA_IoArray: I/O array must be writable array";
        mret None
      else mret (Some s)
  end.

(** [NA_NewArray] of nd_image.c, through [NA_NewAll] and
    [NA_NewAllFromBuffer]: a new canonical array of the given type
    ([NPY_DOUBLE] for [NPY_NOTYPE]) holding a copy of [buffer], as many
    elements as the array has, or zeros when [buffer] is [NULL].  The test
    that the new object is an array cannot fail on an object
    [PyArray_NewFromDescr] made and is left out. *)
Definition NA_NewAllFromBuffer (shape : list Z) (type : Z) : M (option loc) :=
  let type := if type =? NPY_NOTYPE then NPY_DOUBLE else type in
  PyArray_NewFromDescr (PyArray_DescrFromType type) shape.

Definition NA_NewAll (shape : list Z) (type : Z) (buffer : option (list scalar)) : M (option loc) :=
  result ← NA_NewAllFromBuffer shape type;
  match result with
  | Some q =>
      match buffer with
      | Some b =>
          _ ← update q (fun r => set_data (take (length (data r)) b) r); mret (Some q)
      | None =>
          _ ← update q (fun r => set_data (replicate (length (data r)) (zero_of (PyArray_TYPE r))) r);
          mret (Some q)
      end
  | None => mret None
  end.

Definition NA_NewArray (buffer : option (list scalar)) (type : Z) (shape : list Z) : M (option loc) :=
  NA_NewAll shape type buffer.

(** The converters handed to the argument parser. *)
Definition NI_ObjectToInputArray (object : PyObject) : M (option loc) :=
  NA_InputArray object NPY_NOTYPE (Z.lor NPY_ARRAY_ALIGNED NPY_ARRAY_NOTSWAPPED).

Definition NI_ObjectToOutputArray (object : PyObject) : M (option loc) :=
  NA_OutputArray object NPY_NOTYPE (Z.lor NPY_ARRAY_ALIGNED NPY_ARRAY_NOTSWAPPED).

Definition NI_ObjectToIoArray (object : PyObject) : M (option loc) :=
  NA_IoArray object NPY_NOTYPE (Z.lor NPY_ARRAY_ALIGNED NPY_ARRAY_NOTSWAPPED).

End ArrayAdapter.

(** ** SequenceAdapter *)

Section SequenceAdapter.

Context {np : NumPy}.

(** [pa[ii]] on a buffer of [npy_intp]; [None] for a read outside the
    buffer or of an element that is not an integer. *)
Definition read_long (pa : list scalar) (ii : nat) : option Z :=
  match pa !! ii with
  | Some (SLong z) => Some z
  | _ => None
  end.

Definition read_double (pa : list scalar) (ii : nat) : option double :=
  match pa !! ii with
  | Some (SDouble d) => Some d
  | _ => None
  end.

(** [for (ii = 0; ii < length; ii++) dst[ii] = read pa ii]: the values
    written, [None] when one of the reads is undefined. *)
Definition copy_buffer {A} (read : list scalar -> nat -> option A)
    (pa : list scalar) (length : Z) : option (list A) :=
  mapM (read pa) (seq 0 (Z.to_nat length)).

(** [NI_ObjectToLongSequenceAndLength] of nd_image.c: the returned length
    and the sequence stored through the out-parameter ([None]: nothing
    stored, the pointer is [NULL]). *)
Definition NI_ObjectToLongSequenceAndLength (object : PyObject) : M (Z * option (list Z)) :=
  array ← NA_InputArray object NPY_INTP NPY_ARRAY_CARRAY;
  match array with
  | None => crash (* PyArray_SIZE on NULL *)
  | Some p =>
      arr ← deref p;
      let length := PyArray_SIZE arr in
      ok ← request; (* malloc *)
      if ok : bool then
        match copy_buffer read_long (data arr) length with
        | Some sequence => mret (length, Some sequence)
        | None => crash
        end
      else
        _ ← PyErr_NoMemory; mret (-1, None)
  end.

Definition NI_ObjectToLongSequence (object : PyObject) : M (bool * option (list Z)) :=
  r ← NI_ObjectToLongSequenceAndLength object;
  mret (0 <=? r.1, r.2).

End SequenceAdapter.

(** ** The host interpreter's C API, as far as the trampolines use it *)

Definition double_of_Z (z : Z) : double :=
  SF2Prim (binary_normalize prec emax z 0 false).

Definition minus_one : double := (-1)%float.

(** Modelled from the spec: CPython's [PyFloat_AsDouble] (not under src/):
    a float gives its value, an integer its nearest double (an overflow
    error when there is none), an array of one element that element; any
    other value, and [NULL], is a type error, the spec's "non-numeric"
    value.  On an error the result is -1.0. *)
Definition to_double (h : gmap loc PyArrayObject) (o : option PyObject)
    : double + PyExc * string :=
  let of_long z :=
    let d := double_of_Z z in
    if is_infinity d
    then inr (PyExc_OverflowError, "int too large to convert to float"%string)
    else inl d in
  let bad := inr (PyExc_TypeError, "must be real number"%string) in
  match o with
  | Some (PyFloat d) => inl d
  | Some (PyLong z) => of_long z
  | Some (PyArrayRef p) =>
      match data <$> h !! p with
      | Some [SDouble d] => inl d
      | Some [SLong z] => of_long z
      | _ => bad
      end
  | _ => bad
  end.

Definition PyFloat_AsDouble (o : option PyObject) : M double :=
  fun w => match to_double (heap w) o with
           | inl d => Done d w
           | inr e => Done minus_one (set_err (Some e) w)
           end.

(** Modelled from the spec: CPython's [PyTuple_GetItem] (not under src/):
    a system error when the object is not a tuple, an index error outside
    the tuple. *)
Definition PyTuple_GetItem (o : PyObject) (ii : Z) : M (option PyObject) :=
  match o with
  | PyTuple items =>
      if (ii <? 0) || (Z.of_nat (length items) <=? ii) then
        _ ← PyErr_SetString PyExc_IndexError "tuple index out of range";
        mret None
      else mret (items !! Z.to_nat ii)
  | _ =>
      _ ← PyErr_SetString PyExc_SystemError "bad argument to internal function";
      mret None
  end.

(** [PyLong_FromSsize_t], [PyTuple_New] followed by its [PyTuple_SetItem]s,
    [PySlice_New], [PyList_New] and [Py_BuildValue] allocate one object:
    [NULL] with a memory error when the request is refused. *)
Definition allocate (o : PyObject) : M (option PyObject) :=
  ok ← request;
  if ok : bool then mret (Some o) else _ ← PyErr_NoMemory; mret None.

Definition PyLong_FromSsize_t (z : Z) : M (option PyObject) := allocate (PyLong z).
Definition Py_BuildValue (items : list PyObject) : M (option PyObject) := allocate (PyTuple items).

(** Modelled from the spec: CPython's [PySequence_Concat] (not under src/)
    on a tuple: the concatenation with another tuple, a type error for any
    other right operand. *)
Definition PySequence_Concat (s o : PyObject) : M (option PyObject) :=
  match s, o with
  | PyTuple a, PyTuple b => allocate (PyTuple (a ++ b))
  | _, _ =>
      _ ← PyErr_SetString PyExc_TypeError "can only concatenate tuple to tuple";
      mret None
  end.

Definition PyCapsule_CheckExact (o : PyObject) : bool :=
  match o with PyCapsule _ _ => true | _ => false end.

(** A host-level callable: positional arguments, keyword arguments and the
    object store in; a value or a raised exception, and the store, out. *)
Definition PyCallable : Type :=
  list PyObject -> PyObject -> gmap loc PyArrayObject ->
  (PyObject + PyExc * string) * gmap loc PyArrayObject.

(** Modelled from the spec: CPython's [PyObject_Call] (not under src/): the
    callable runs on the items of the argument tuple and the keyword
    dictionary; an exception it raises becomes [NULL] with the error
    indicator set.  The call is recorded in the trace. *)
Definition run_callable (f : PyCallable) (items : list PyObject) (kwds : PyObject) : M (option PyObject) :=
  fun w =>
    match f items kwds (heap w) with
    | (inl v, h) => Done (Some v) (set_heap h w)
    | (inr e, h) => Done None (set_err (Some e) (set_heap h w))
    end.

Definition PyObject_Call (f : PyCallable) (args kwds : PyObject) : M (option PyObject) :=
  match args with
  | PyTuple items =>
      _ ← (fun w => emit (EvCallable items kwds (heap w)) w);
      run_callable f items kwds
  | _ =>
      _ ← PyErr_SetString PyExc_TypeError "argument list must be a tuple";
      mret None
  end.

(** ** CallbackBridge: the trampolines *)

Record NI_PythonCallbackData : Type := {
  extra_arguments : PyObject;
  extra_keywords : PyObject
}.

(** [ccallback_t], for a host-level callable: the fields the trampolines
    read. *)
Record ccallback_t : Type := {
  py_function : PyCallable;
  info_p : NI_PythonCallbackData
}.

(** [return PyErr_Occurred() ? 0 : 1;] *)
Definition status_at_exit {A} (out : A) : M (Z * A) :=
  e ← PyErr_Occurred;
  mret (if e : bool then 0 else 1, out).

(** [Py_Filter1DFunc] of nd_image.c.  The result is the status and the
    values stored into [oline[0 .. olen-1]] ([None]: [oline] is left
    untouched). *)
Definition Py_Filter1DFunc (iline : list double) (ilen : Z) (olen : Z)
    (callback : ccallback_t) : M (Z * option (list double)) :=
  let cbdata := info_p callback in
  py_ibuffer ← NA_NewArray (Some (SDouble <$> iline)) NPY_DOUBLE [ilen];
  py_obuffer ← NA_NewArray None NPY_DOUBLE [olen];
  written ←
    match py_ibuffer, py_obuffer with
    | Some ib, Some ob =>
        tmp ← Py_BuildValue [PyArrayRef ib; PyArrayRef ob];
        match tmp with
        | None => mret None
        | Some tmp =>
            args ← PySequence_Concat tmp (extra_arguments cbdata);
            match args with
            | None => mret None
            | Some args =>
                rv ← PyObject_Call (py_function callback) args (extra_keywords cbdata);
                match rv with
                | None => mret None
                | Some _ =>
                    po ← deref ob;
                    match copy_buffer read_double (data po) olen with
                    | Some v => mret (Some v)
                    | None => crash
                    end
                end
            end
        end
    | _, _ => mret None
    end;
  status_at_exit written.

(** [Py_FilterFunc] of nd_image.c.  The result is the status and the value
    stored into [*output] ([None]: nothing is stored). *)
Definition Py_FilterFunc (buffer : list double) (filter_size : Z)
    (callback : ccallback_t) : M (Z * option double) :=
  let cbdata := info_p callback in
  py_buffer ← NA_NewArray (Some (SDouble <$> buffer)) NPY_DOUBLE [filter_size];
  written ←
    match py_buffer with
    | None => mret None
    | Some b =>
        tmp ← Py_BuildValue [PyArrayRef b];
        match tmp with
        | None => mret None
        | Some tmp =>
            args ← PySequence_Concat tmp (extra_arguments cbdata);
            match args with
            | None => mret None
            | Some args =>
                rv ← PyObject_Call (py_function callback) args (extra_keywords cbdata);
                match rv with
                | None => mret None
                | Some v => d ← PyFloat_AsDouble (Some v); mret (Some d)
                end
            end
        end
    end;
  status_at_exit written.

(** [PyTuple_New]: a system error for a negative size. *)
Definition PyTuple_New (n : Z) : M bool :=
  if n <? 0 then
    _ ← PyErr_SetString PyExc_SystemError "bad argument to internal function";
    mret false
  else
    ok ← request;
    if ok : bool then mret true else _ ← PyErr_NoMemory; mret false.

(** The first loop of [Py_Map]: [n] more items, from index [ii] on;
    [None] is the jump to [exit]. *)
Fixpoint Py_Map_coors (ocoor : list Z) (ii n : nat) : M (option (list PyObject)) :=
  match n with
  | O => mret (Some [])
  | S n' =>
      match ocoor !! ii with
      | None => crash
      | Some c =>
          item ← PyLong_FromSsize_t c;
          e ← PyErr_Occurred;
          match e, item with
          | false, Some it =>
              rest ← Py_Map_coors ocoor (S ii) n';
              mret (cons it <$> rest)
          | _, _ => mret None
          end
      end
  end.

(** The second loop of [Py_Map]: the values stored into [icoor], in
    order; the loop is left after the first store that raised an error. *)
Fixpoint Py_Map_icoor (rets : PyObject) (ii : Z) (n : nat) : M (list double) :=
  match n with
  | O => mret []
  | S n' =>
      item ← PyTuple_GetItem rets ii;
      d ← PyFloat_AsDouble item;
      e ← PyErr_Occurred;
      if e : bool then mret [d]
      else rest ← Py_Map_icoor rets (ii + 1) n'; mret (d :: rest)
  end.

(** [Py_Map] of nd_image.c.  The result is the status and the values
    stored into [icoor[0 ..]]. *)
Definition Py_Map (ocoor : list Z) (orank irank : Z)
    (callback : ccallback_t) : M (Z * list double) :=
  let cbdata := info_p callback in
  coors ← PyTuple_New orank;
  written ←
    (if coors : bool then
       items ← Py_Map_coors ocoor 0 (Z.to_nat orank);
       match items with
       | None => mret []
       | Some items =>
           tmp ← Py_BuildValue [PyTuple items];
           match tmp with
           | None => mret []
           | Some tmp =>
               args ← PySequence_Concat tmp (extra_arguments cbdata);
               match args with
               | None => mret []
               | Some args =>
                   rets ← PyObject_Call (py_function callback) args (extra_keywords cbdata);
                   match rets with
                   | None => mret []
                   | Some rets => Py_Map_icoor rets 0 (Z.to_nat irank)
                   end
               end
           end
       end
     else mret []);
  status_at_exit written.

(** [return PyErr_Occurred() ? NULL : Py_BuildValue("");], the last line of
    the wrappers. *)
Definition wrapper_exit : M (option PyObject) :=
  e ← PyErr_Occurred;
  mret (if e : bool then None else Some Py_None).



(** ** find_objects *)

(** The multi-index, in C order, of the [k]-th element of an array of the
    given dimensions. *)
Fixpoint unravel (dims : list Z) (k : Z) : list Z :=
  match dims with
  | [] => []
  | _ :: ds =>
      let s := PyArray_MultiplyList ds in
      (k / s) :: unravel ds (k mod s)
  end.

Definition label_of (s : scalar) : Z :=
  match s with SLong z => z | SDouble _ => 0 end.

(** The coordinates of the voxels that carry [label]. *)
Definition voxels (input : PyArrayObject) (label : Z) : list (list Z) :=
  omap (fun ks : nat * scalar =>
          if label_of ks.2 =? label
          then Some (unravel (dimensions input) (Z.of_nat ks.1)) else None)
       (imap pair (data input)).

Definition minimum (l : list Z) : Z :=
  match l with [] => -1 | x :: r => foldr Z.min x r end.
Definition maximum (l : list Z) : Z :=
  match l with [] => -1 | x :: r => foldr Z.max x r end.

(** The entries of one label in [regions], as [Py_FindObjects] reads them:
    for a rank above zero the first coordinate covered along every axis,
    then one past the last along every axis; for rank zero one entry;
    negative entries for a label without voxels. *)
Definition region (rank : nat) (vs : list (list Z)) : list Z :=
  match rank, vs with
  | O, [] => [-1]
  | O, _ => [1]
  | _, [] => replicate (2 * rank) (-1)
  | _, _ =>
      ((fun jj => minimum ((fun v => nth jj v 0) <$> vs)) <$> seq 0 rank)
      ++ ((fun jj => maximum ((fun v => nth jj v 0) <$> vs) + 1) <$> seq 0 rank)
  end.

(** Modelled from the spec: [NI_FindObjects] (ni_measure.c, not under
    src/): "ordered sequence of per-label bounding boxes, with an
    absent-marker for labels with no voxels", for the labels
    [1 .. max_label], in the layout [Py_FindObjects] reads.  The result is
    the status and the contents of [regions]. *)
Definition NI_FindObjects_spec (input : PyArrayObject) (max_label : Z) : Z * list Z :=
  (1, concat ((fun l : nat =>
                 region (length (dimensions input)) (voxels input (Z.of_nat l + 1)))
              <$> seq 0 (Z.to_nat max_label))).

(** The result of find_objects in the words of the specification: for
    every label from 1 to [max_label], in order, the bounding box covering
    its voxels, one slice per axis from the first coordinate covered to
    one past the last, or the absent-marker when it has none. *)
Definition extent (vs : list (list Z)) (jj : nat) : PyObject :=
  PySlice (PyLong (minimum ((fun v => nth jj v 0) <$> vs)))
          (PyLong (maximum ((fun v => nth jj v 0) <$> vs) + 1)) Py_None.

Definition bounding_box (input : PyArrayObject) (label : Z) : PyObject :=
  match voxels input label with
  | [] => Py_None
  | vs => PyTuple (extent vs <$> seq 0 (length (dimensions input)))
  end.

Definition bounding_boxes (input : PyArrayObject) (max_label : Z) : list PyObject :=
  (fun l : nat => bounding_box input (Z.of_nat l + 1)) <$> seq 0 (Z.to_nat max_label).

(** [regions[i]]: [None] for a read through [NULL] or outside the buffer. *)
Definition read_region (regions : option (list Z)) (i : Z) : option Z :=
  match regions with
  | Some r => if i <? 0 then None else r !! Z.to_nat i
  | None => None
  end.

Definition PySlice_New (start stop : PyObject) : M (option PyObject) :=
  allocate (PySlice start stop Py_None).

Definition PyList_New (n : Z) : M bool := PyTuple_New n.

Section FindObjects.

Context {np : NumPy}.

(** [NI_FindObjects] of ni_measure.c, which is not part of nd_image.c: any
    function from the input and [max_label] to a status and the contents
    it leaves in [regions]. *)
Variable NI_FindObjects : PyArrayObject -> Z -> Z * list Z.

(** The loop over the axes in [Py_FindObjects]: [n] more slices, from axis
    [jj] on; [None] is the jump to [exit]. *)
Fixpoint Py_FindObjects_slices (regions : option (list Z)) (ndim idx jj : Z) (n : nat)
    : M (option (list PyObject)) :=
  match n with
  | O => mret (Some [])
  | S n' =>
      match read_region regions (idx + jj), read_region regions (idx + jj + ndim) with
      | Some s, Some e =>
          start ← PyLong_FromSsize_t s;
          end_ ← PyLong_FromSsize_t e;
          match start, end_ with
          | Some start, Some end_ =>
              slc ← PySlice_New start end_;
              match slc with
              | None => _ ← PyErr_NoMemory; mret None
              | Some slc =>
                  rest ← Py_FindObjects_slices regions ndim idx (jj + 1) n';
                  mret (cons slc <$> rest)
              end
          | _, _ => _ ← PyErr_NoMemory; mret None
          end
      | _, _ => crash
      end
  end.

(** The loop over the labels in [Py_FindObjects]: [n] more entries of the
    result, from index [ii] on. *)
Fixpoint Py_FindObjects_items (regions : option (list Z)) (ndim ii : Z) (n : nat)
    : M (option (list PyObject)) :=
  match n with
  | O => mret (Some [])
  | S n' =>
      let idx := if 0 <? ndim then 2 * ndim * ii else ii in
      match read_region regions idx with
      | None => crash
      | Some r =>
          item ←
            (if 0 <=? r then
               tuple ← PyTuple_New ndim;
               if tuple : bool then
                 slices ← Py_FindObjects_slices regions ndim idx 0 (Z.to_nat ndim);
                 mret (PyTuple <$> slices)
               else _ ← PyErr_NoMemory; mret None
             else mret (Some Py_None));
          match item with
          | None => mret None
          | Some it =>
              rest ← Py_FindObjects_items regions ndim (ii + 1) n';
              mret (cons it <$> rest)
          end
      end
  end.

(** [Py_FindObjects] of nd_image.c, on the two parsed arguments. *)
Definition Py_FindObjects (object : PyObject) (max_label : Z) : M (option PyObject) :=
  input ← NI_ObjectToInputArray object;
  result ←
    match input with
    | None => mret None
    | Some ip =>
        inp ← deref ip;
        let max_label := if max_label <? 0 then 0 else max_label in
        (* [inr tt]: the jump to [exit] after a refused [malloc] *)
        regions ←
          (if 0 <? max_label then
             ok ← request;
             if ok : bool then mret (inl (Some ([] : list Z)))
             else _ ← PyErr_NoMemory; mret (inr tt)
           else mret (inl None));
        match regions with
        | inr _ => mret None
        | inl regions =>
            let k := NI_FindObjects inp max_label in
            let regions := (fun _ => k.2) <$> regions in
            if k.1 =? 0 then mret None
            else
              result ← PyList_New max_label;
              if result : bool then
                items ← Py_FindObjects_items regions (PyArray_NDIM inp) 0 (Z.to_nat max_label);
                mret (PyList <$> items)
              else _ ← PyErr_NoMemory; mret None
        end
    end;
  e ← PyErr_Occurred;
  mret (if e : bool then None else result).

End FindObjects.

(** ** binary_erosion2 and its handle *)

Section BinaryErosion2.

Context {np : NumPy}.

(** [NI_BinaryErosion2] of ni_morphology.c, which is not part of
    nd_image.c: any function of the converted arguments, the pointer taken
    out of the handle and the world. *)
Variable kernel : loc -> loc -> option loc -> Z -> list Z -> Z -> option loc -> M Z.

Definition NI_BinaryErosion2 (array strct : loc) (mask : option loc) (niter : Z)
    (origins : list Z) (invert : Z) (cobj_data : option loc) : M Z :=
  _ ← emit (EvBinaryErosion2 cobj_data);
  kernel array strct mask niter origins invert cobj_data.

Definition NI_ObjectToOptionalInputArray (object : PyObject) : M (bool * option loc) :=
  match object with
  | Py_None => mret (true, None)
  | _ =>
      array ← NA_InputArray object NPY_NOTYPE (Z.lor NPY_ARRAY_ALIGNED NPY_ARRAY_NOTSWAPPED);
      mret (bool_decide (is_Some array), array)
  end.

(** Modelled from the spec: [NpyCapsule_Check] and [NpyCapsule_AsVoidPtr]
    of numpy/npy_3kcompat.h (not under src/): the handle is "an opaque
    token"; the check is on the kind of the object alone, and the pointer
    of a capsule is returned as it is, [NULL] with the error cleared when
    the capsule carries a name. *)
Definition NpyCapsule_Check (o : PyObject) : bool := PyCapsule_CheckExact o.

Definition NpyCapsule_AsVoidPtr (o : PyObject) : M (option loc) :=
  match o with
  | PyCapsule None p => mret (Some p)
  | _ => _ ← PyErr_Clear; mret None
  end.

(** [Py_BinaryErosion2] of nd_image.c: the converters of the argument
    parser run in the order of the format, then the body. *)
Definition Py_BinaryErosion2 (array strct mask : PyObject) (niter : Z)
    (origins : PyObject) (invert : Z) (cobj : PyObject) : M (option PyObject) :=
  _ ← (array ← NI_ObjectToIoArray array;
       match array with
       | None => mret tt
       | Some array =>
           strct ← NI_ObjectToInputArray strct;
           match strct with
           | None => mret tt
           | Some strct =>
               mask ← NI_ObjectToOptionalInputArray mask;
               if negb mask.1 then mret tt
               else
                 origins ← NI_ObjectToLongSequence origins;
                 match origins with
                 | (true, Some origins) =>
                     if NpyCapsule_Check cobj then
                       cobj_data ← NpyCapsule_AsVoidPtr cobj;
                       _ ← NI_BinaryErosion2 array strct mask.2 niter origins invert cobj_data;
                       mret tt
                     else PyErr_SetString PyExc_RuntimeError "cannot convert CObject"
                 | _ => mret tt
                 end
           end
       end);
  wrapper_exit.

End BinaryErosion2.

(** ** correlate1d, a wrapper of the common form *)

Section Correlate1D.

Context {np : NumPy}.

(** [NI_Correlate1D] of ni_filters.c, which is not part of nd_image.c: any
    function of the converted arguments and the world. *)
Variable NI_Correlate1D : loc -> loc -> Z -> loc -> Z -> double -> Z -> M Z.

(** [Py_Correlate1D] of nd_image.c: the converters of the argument parser
    run in the order of the format, then the body. *)
Definition Py_Correlate1D (input weights : PyObject) (axis : Z) (output : PyObject)
    (mode : Z) (cval : double) (origin : Z) : M (option PyObject) :=
  _ ← (input ← NI_ObjectToInputArray input;
       match input with
       | None => mret tt
       | Some input =>
           weights ← NI_ObjectToInputArray weights;
           match weights with
           | None => mret tt
           | Some weights =>
               output ← NI_ObjectToOutputArray output;
               match output with
               | None => mret tt
               | Some output =>
                   _ ← NI_Correlate1D input weights axis output mode cval origin;
                   mret tt
               end
           end
       end);
  wrapper_exit.

End Correlate1D.

(** ** distance_transform_bf and its optional outputs *)

Section DistanceTransform.

Context {np : NumPy}.


(** [NI_DistanceTransformBruteForce] of ni_morphology.c, which is not part
    of nd_image.c: any function of the converted arguments and the
    world. *)
Variable NI_DistanceTransformBruteForce :
  loc -> Z -> option loc -> option loc -> option loc -> M Z.


End DistanceTransform.

(** ** binary_erosion: where the handle is made *)

(** Modelled from the spec: [NpyCapsule_FromVoidPtr] of
    numpy/npy_3kcompat.h (not under src/), the spec's [Create]: the state
    is "returned as an opaque token", a capsule without a name around the
    pointer; [NULL], with the error cleared, for a [NULL] pointer or a
    refused allocation. *)
Definition NpyCapsule_FromVoidPtr (ptr : option loc) : M (option PyObject) :=
  match ptr with
  | Some p =>
      ok ← request;
      if ok : bool then mret (Some (PyCapsule None p))
      else _ ← PyErr_Clear; mret None
  | None => _ ← PyErr_Clear; mret None
  end.

(** [Py_BuildValue("i", changed)] and [Py_BuildValue("iN", changed, cobj)]:
    one allocation; a [NULL] object for [N] is a system error. *)
Definition Py_BuildValue_i (changed : Z) : M (option PyObject) :=
  allocate (PyLong changed).

Definition Py_BuildValue_iN (changed : Z) (cobj : option PyObject) : M (option PyObject) :=
  match cobj with
  | Some c => allocate (PyTuple [PyLong changed; c])
  | None =>
      _ ← PyErr_SetString PyExc_SystemError "NULL object passed to Py_BuildValue";
      mret None
  end.

Section BinaryErosion.

Context {np : NumPy}.

(** [NI_BinaryErosion] of ni_morphology.c, which is not part of
    nd_image.c: any function of the converted arguments, of whether a
    coordinate list is asked for, and of the world, to the status and to
    what it leaves in [changed] and in [coordinate_list]. *)
Variable NI_BinaryErosion :
  loc -> loc -> option loc -> loc -> Z -> list Z -> Z -> Z -> bool ->
  M (Z * Z * option loc).

(** [Py_BinaryErosion] of nd_image.c.  The first component of [r] is
    [changed], the second [cobj]. *)
Definition Py_BinaryErosion (input strct mask output : PyObject) (border_value : Z)
    (origins : PyObject) (invert center_is_true return_coordinates : Z)
    : M (option PyObject) :=
  let wanted := negb (return_coordinates =? 0) in
  r ← (input ← NI_ObjectToInputArray input;
       match input with
       | None => mret (0, None)
       | Some input =>
           strct ← NI_ObjectToInputArray strct;
           match strct with
           | None => mret (0, None)
           | Some strct =>
               mask ← NI_ObjectToOptionalInputArray mask;
               if negb mask.1 then mret (0, None)
               else
                 output ← NI_ObjectToOutputArray output;
                 match output with
                 | None => mret (0, None)
                 | Some output =>
                     origins ← NI_ObjectToLongSequence origins;
                     match origins with
                     | (true, Some origins) =>
                         k ← NI_BinaryErosion input strct mask.2 output border_value
                               origins invert center_is_true wanted;
                         if k.1.1 =? 0 then mret (k.1.2, None)
                         else if wanted then
                           cobj ← NpyCapsule_FromVoidPtr k.2;
                           mret (k.1.2, cobj)
                         else mret (k.1.2, None)
                     | _ => mret (0, None)
                     end
                 end
           end
       end);
  e ← PyErr_Occurred;
  if e : bool then mret None
  else if wanted then Py_BuildValue_iN r.1 r.2 else Py_BuildValue_i r.1.

End BinaryErosion.

(** ** A NumPy runtime to run the model on *)

(** Modelled from the spec: the conversion of a host sequence to a native
    integer array, the spec's [ToIntArray]: it "fails with
    TypeConversionError if elements are non-integral". *)
Definition longs_of (items : list PyObject) : option (list Z) :=
  mapM (fun o => match o with PyLong z => Some z | _ => None end) items.

(** An LP64 platform: [long] and [long long] are equivalent, integers cast
    safely to doubles and to integers, and the array constructor accepts
    sequences of integers. *)
Definition numpy_lp64 : NumPy := {|
  PyArray_EquivTypenums t1 t2 :=
    (t1 =? t2)
    || (((t1 =? NPY_LONG) || (t1 =? NPY_LONGLONG))
        && ((t2 =? NPY_LONG) || (t2 =? NPY_LONGLONG)));
  PyArray_CastTo from to d :=
    if to =? NPY_DOUBLE then
      Some ((fun s => match s with SLong z => SDouble (double_of_Z z) | _ => s end) <$> d)
    else None;
  PyArray_FromObject o t :=
    match o with
    | PyList items | PyTuple items =>
        match longs_of items with
        | Some d => Some (NPY_LONG, [Z.of_nat (length items)], SLong <$> d)
        | None => None
        end
    | PyLong z => Some (NPY_LONG, [], [SLong z])
    | _ => None
    end
|}.

(** An array of [long] in canonical layout, and the worlds the concrete
    statements run in. *)
Definition canonical (t : Z) (dims : list Z) (d : list scalar) : PyArrayObject :=
  {| descr := PyArray_DescrFromType t; dimensions := dims; data := d;
     flags := Z.lor NPY_ARRAY_CARRAY NPY_ARRAY_OWNDATA; base := None |}.

Definition canonical_long : PyArrayObject :=
  canonical NPY_LONG [3] [SLong 4; SLong 5; SLong 6].

(** The same array without write permission. *)
Definition read_only_long : PyArrayObject :=
  PyArray_CLEARFLAGS canonical_long NPY_ARRAY_WRITEABLE.

(** The labelled array [[0,1,1],[0,0,2]]. *)
Definition labelled : PyArrayObject :=
  canonical NPY_LONG [2; 3] (SLong <$> [0; 1; 1; 0; 0; 2]).

Definition empty_world : World :=
  {| heap := ∅; err := None; mem := []; trace := []; lists := ∅ |}.

Definition world_of (a : PyArrayObject) : World :=
  set_heap {[ 1%positive := a ]} empty_world.

(** The errors the adapters raise on a value without write permission. *)
Definition not_writable_output : option (PyExc * string) :=
  Some (PyExc_TypeError, "NA_OutputArray: only writeable arrays work for output."%string).
Definition not_writable_io : option (PyExc * string) :=
  Some (PyExc_TypeError, "NA_IoArray: I/O array must be writable array"%string).

(** What a shadow buffer is: in [w'] the new object [q], unused in [w], has
    the shape of the original [arr], has the original [p] as its base and
    write-back scheduled; the original has lost write permission; no other
    object and no error has changed. *)
Definition shadows (w w' : World) (p q : loc) (arr shadow : PyArrayObject) : Prop :=
  heap w !! q = None
  /\ heap w' !! q = Some shadow
  /\ base shadow = Some p
  /\ has (flags shadow) NPY_ARRAY_UPDATEIFCOPY = true
  /\ PyArray_ISWRITEABLE shadow = true
  /\ dimensions shadow = dimensions arr
  /\ heap w' !! p = Some (PyArray_CLEARFLAGS arr NPY_ARRAY_WRITEABLE)
  /\ PyArray_ISWRITEABLE (PyArray_CLEARFLAGS arr NPY_ARRAY_WRITEABLE) = false
  /\ (forall r, r <> p -> r <> q -> heap w' !! r = heap w !! r)
  /\ err w' = err w.

(** What [NA_OutputArray] makes for a writable array that does not satisfy
    the request: as [shadows], but for the base of the new object, which
    is the owner of the data of the original, the end of its chain of
    bases. *)
Definition output_shadows (w w' : World) (p q : loc) (arr shadow : PyArrayObject) : Prop :=
  heap w !! q = None
  /\ heap w' !! q = Some shadow
  /\ base shadow = Some (base_owner (heap w') p (size (heap w')))
  /\ has (flags shadow) NPY_ARRAY_UPDATEIFCOPY = true
  /\ PyArray_ISWRITEABLE shadow = true
  /\ dimensions shadow = dimensions arr
  /\ heap w' !! p = Some (PyArray_CLEARFLAGS arr NPY_ARRAY_WRITEABLE)
  /\ PyArray_ISWRITEABLE (PyArray_CLEARFLAGS arr NPY_ARRAY_WRITEABLE) = false
  /\ (forall r, r <> p -> r <> q -> heap w' !! r = heap w !! r)
  /\ err w' = err w.

(** A writable view of [canonical_long] in the other byte order, as
    [a.view(a.dtype.newbyteorder())] makes it: it does not own its data,
    its base is the array, and its elements are the bytes of 4, 5 and 6
    read in the other order.  In [world_of_view] the array is at 1 and the
    view at 2. *)
Definition view_of_long : PyArrayObject :=
  {| descr := {| type_num := NPY_LONG; native_order := false |};
     dimensions := [3];
     data := [SLong 288230376151711744; SLong 360287970189639680;
              SLong 432345564227567616];
     flags := NPY_ARRAY_CARRAY; base := Some 1%positive |}.

Definition world_of_view : World :=
  set_heap (<[ 2%positive := view_of_long ]> {[ 1%positive := canonical_long ]})
           empty_world.

(** A kernel that does nothing and reports success, to run
    [Py_BinaryErosion2] on. *)
Definition idle_kernel (array strct : loc) (mask : option loc) (niter : Z)
    (origins : list Z) (invert : Z) (cobj_data : option loc) : M Z :=
  mret 1.

(** The error [Py_BinaryErosion2] raises on a handle that is not a
    capsule. *)
Definition cannot_convert : option (PyExc * string) :=
  Some (PyExc_RuntimeError, "cannot convert CObject"%string).

(** [m] makes no call that leaves the file and leaves the state of the
    engine alone, whatever its outcome. *)
Definition internal {A} (m : M A) : Prop :=
  forall w, trace (final (m w)) = trace w /\ lists (final (m w)) = lists w.

(** [w'] holds every object of [w] as it is in [w]: the store has only
    grown. *)
Definition extends (w w' : World) : Prop :=
  forall r obj, heap w !! r = Some obj -> heap w' !! r = Some obj.

(** [m] changes no object of the store, whatever its outcome. *)
Definition frames {A} (m : M A) : Prop := forall w, extends w (final (m w)).

Section StoreKept.

Context {np : NumPy}.

(** What the conversion of an in/out argument leaves in the store until
    its shadow is released: the array [p] has lost write permission, and a
    new object holds its elements, converted to the type of the shadow,
    has its shape and has it as base, and is marked for write-back. *)
Definition pending_write_back (w w' : World) (p : loc) (arr : PyArrayObject) : Prop :=
  heap w' !! p = Some (PyArray_CLEARFLAGS arr NPY_ARRAY_WRITEABLE)
  /\ exists (q : loc) (shadow : PyArrayObject),
       heap w !! q = None /\ heap w' !! q = Some shadow
       /\ base shadow = Some p
       /\ has (flags shadow) NPY_ARRAY_UPDATEIFCOPY = true
       /\ dimensions shadow = dimensions arr
       /\ converted arr (descr shadow) = Some (data shadow).

(** No object of the store has changed between [w] and [w'], but for the
    array given as the in/out argument [io] when its write-back is
    pending. *)
Definition store_kept (io : PyObject) (w w' : World) : Prop :=
  forall p arr, heap w !! p = Some arr ->
    heap w' !! p = Some arr
    \/ (io = PyArrayRef p /\ pending_write_back w w' p arr).

Definition keeps {A} (io : PyObject) (m : M A) : Prop :=
  forall w, store_kept io w (final (m w)).

End StoreKept.

(** The array a trampoline builds around a native buffer of doubles. *)
Definition window (shape : Z) (d : list scalar) : PyArrayObject :=
  canonical NPY_DOUBLE [shape] d.

(** The calls the trampolines are to make: the native data first (the
    input window of [ilen] doubles and the zeroed output window of [olen]
    doubles for [Py_Filter1DFunc], the window of [filter_size] doubles for
    [Py_FilterFunc], the tuple of the [orank] output coordinates for
    [Py_Map]), then the extra positional arguments, with the extra
    keyword arguments. *)
Definition Filter1D_call (iline : list double) (ilen olen : Z)
    (extras : list PyObject) (kwds : PyObject) (e : event) : Prop :=
  exists (ib ob : loc) (h : gmap loc PyArrayObject),
    e = EvCallable (PyArrayRef ib :: PyArrayRef ob :: extras) kwds h
    /\ ib <> ob
    /\ h !! ib = Some (window ilen (SDouble <$> take (Z.to_nat ilen) iline))
    /\ h !! ob = Some (window olen (replicate (Z.to_nat olen) (SDouble 0%float))).

Definition Filter_call (buffer : list double) (filter_size : Z)
    (extras : list PyObject) (kwds : PyObject) (e : event) : Prop :=
  exists (b : loc) (h : gmap loc PyArrayObject),
    e = EvCallable (PyArrayRef b :: extras) kwds h
    /\ h !! b = Some (window filter_size (SDouble <$> take (Z.to_nat filter_size) buffer)).

Definition Map_call (ocoor : list Z) (orank : Z)
    (extras : list PyObject) (kwds : PyObject) (e : event) : Prop :=
  exists h : gmap loc PyArrayObject,
    e = EvCallable (PyTuple (PyLong <$> take (Z.to_nat orank) ocoor) :: extras) kwds h.

(** At most one call is made between [w] and [w'], and it is as [call]
    says. *)
Definition at_most_one (call : event -> Prop) (w w' : World) : Prop :=
  trace w' = trace w \/ exists e, trace w' = trace w ++ [e] /\ call e.

Definition exactly_one (call : event -> Prop) (w w' : World) : Prop :=
  exists e, trace w' = trace w ++ [e] /\ call e.







(** A callable that returns [v] whatever it is called with, and a callback
    around a callable. *)
Definition constant_callable (v : PyObject) : PyCallable :=
  fun _ _ h => (inl v, h).

Definition callback_of (f : PyCallable) (extras : list PyObject)
    (kwds : list (string * PyObject)) : ccallback_t :=
  {| py_function := f;
     info_p := {| extra_arguments := PyTuple extras; extra_keywords := PyDict kwds |} |}.

(** ** Vocabulary of the further properties *)

(** The bits of a requirement set that [satisfies] looks at. *)
Definition inspected_flags : Z :=
  Z.lor NPY_ARRAY_NOTSWAPPED
    (Z.lor NPY_ARRAY_ALIGNED
       (Z.lor NPY_ARRAY_C_CONTIGUOUS
          (Z.lor NPY_ARRAY_WRITEABLE NPY_ARRAY_ENSURECOPY))).

(** A writable array of [long] in the other byte order, and a matrix. *)
Definition swapped_long : PyArrayObject :=
  {| descr := {| type_num := NPY_LONG; native_order := false |};
     dimensions := [3]; data := [SLong 4; SLong 5; SLong 6];
     flags := Z.lor NPY_ARRAY_CARRAY NPY_ARRAY_OWNDATA; base := None |}.

Definition matrix_long : PyArrayObject :=
  canonical NPY_LONG [2; 2] (SLong <$> [1; 2; 3; 4]).

(** The error [PyErr_NoMemory] raises. *)
Definition no_memory : option (PyExc * string) :=
  Some (PyExc_MemoryError, ""%string).

(** An erosion kernel that reports failure and raises nothing. *)
Definition silent_kernel (array strct : loc) (mask : option loc) (niter : Z)
    (origins : list Z) (invert : Z) (cobj_data : option loc) : M Z :=
  mret 0.

(** An erosion kernel that reports one change and leaves the given
    coordinate list when one is asked for. *)
Definition listing_kernel (coordinate_list : loc) (input strct : loc)
    (mask : option loc) (output : loc) (border_value : Z) (origins : list Z)
    (invert center_is_true : Z) (wanted : bool) : M (Z * Z * option loc) :=
  mret (1, 1, if wanted then Some coordinate_list else None).

(** A callable for [Py_Filter1DFunc] that fills its output window with
    [d] and returns [None]. *)
Definition filling_callable (d : double) : PyCallable :=
  fun args _ h =>
    match args with
    | _ :: PyArrayRef ob :: _ =>
        (inl Py_None,
         alter (fun a => set_data (replicate (length (data a)) (SDouble d)) a) ob h)
    | _ => (inr (PyExc_TypeError, "two arrays expected"%string), h)
    end.

(** What [Py_FindObjects] makes of the contents of [regions]: the entries
    of one label start at [stride_of ndim * ii]; a negative first entry
    gives [None], any other the tuple of the slices from [regions[idx+jj]]
    to [regions[idx+jj+ndim]], one per axis. *)
Definition stride_of (ndim : nat) : nat :=
  if ndim is O then 1%nat else (2 * ndim)%nat.

Definition slice_of (regions : list Z) (ndim idx jj : nat) : PyObject :=
  PySlice (PyLong (nth (idx + jj) regions 0))
          (PyLong (nth (idx + jj + ndim) regions 0)) Py_None.

Definition entry_of (regions : list Z) (ndim idx : nat) : PyObject :=
  if 0 <=? nth idx regions 0
  then PyTuple (slice_of regions ndim idx <$> seq 0 ndim)
  else Py_None.

Definition entries_of (regions : list Z) (ndim : nat) (max_label : Z) : list PyObject :=
  (fun ii : nat => entry_of regions ndim (stride_of ndim * ii))
  <$> seq 0 (Z.to_nat max_label).

(** The shape of an entry of the result of [Py_FindObjects]: [None], or a
    tuple of [ndim] slices between two integers. *)
Definition is_slice (o : PyObject) : Prop :=
  exists a b, o = PySlice (PyLong a) (PyLong b) Py_None.

Definition is_entry (ndim : nat) (o : PyObject) : Prop :=
  o = Py_None
  \/ exists slices, o = PyTuple slices /\ length slices = ndim /\ Forall is_slice slices.

(** A find_objects kernel that reports success and leaves the given
    contents in [regions]. *)
Definition kernel_leaving (r : list Z) (input : PyArrayObject) (max_label : Z)
    : Z * list Z :=
  (1, r).

(** * Properties *)

(** ** The compliance predicate *)

Section ComplianceFacts.

Context {np : NumPy}.

Lemma satisfies_canonical (a : PyArrayObject) (requirements t : Z) :
  PyArray_ISCARRAY a = true -> satisfies a requirements t = type_ok a t.
Proof. intros H. unfold satisfies. now rewrite H. Qed.

Lemma satisfies_not_canonical (a : PyArrayObject) (requirements t : Z) :
  PyArray_ISCARRAY a = false ->
  satisfies a requirements t = compliant_spec a requirements t.
Proof.
  intros H. unfold satisfies, compliant_spec, requested_flags_hold,
    PyArray_ISBYTESWAPPED.
  rewrite H.
  destruct (PyArray_ISNOTSWAPPED a), (PyArray_ISALIGNED a),
    (PyArray_ISCONTIGUOUS a), (PyArray_ISWRITEABLE a),
    (has requirements NPY_ARRAY_NOTSWAPPED),
    (has requirements NPY_ARRAY_ALIGNED),
    (has requirements NPY_ARRAY_C_CONTIGUOUS),
    (has requirements NPY_ARRAY_WRITEABLE),
    (has requirements NPY_ARRAY_ENSURECOPY), (type_ok a t); reflexivity.
Qed.

(** C1, as amended.  [satisfies] holds exactly when the element type
    matches (or any type was requested) and either the value is in fully
    canonical layout, or every requested flag among {no-byteswap, aligned,
    contiguous, writable} holds on it and no copy is forced.  For a value
    in canonical layout the answer is the type check alone, whatever the
    requirement set, a forced copy included. *)
Theorem satisfies_characterisation (a : PyArrayObject) (requirements t : Z) :
  satisfies a requirements t
  = type_ok a t
    && (PyArray_ISCARRAY a
        || (requested_flags_hold a requirements
            && negb (has requirements NPY_ARRAY_ENSURECOPY)))
  /\ (PyArray_ISCARRAY a = true ->
      forall requirements', satisfies a requirements' t = type_ok a t).
Proof.
  split.
  - destruct (PyArray_ISCARRAY a) eqn:E.
    + rewrite satisfies_canonical by exact E. now rewrite andb_true_r.
    + rewrite satisfies_not_canonical by exact E. unfold compliant_spec.
      now rewrite orb_false_l, andb_assoc.
  - intros E requirements'. now apply satisfies_canonical.
Qed.

End ComplianceFacts.

Lemma satisfies_characterisation_witness :
  @satisfies numpy_lp64 canonical_long NPY_ARRAY_ENSURECOPY NPY_LONG
  = @type_ok numpy_lp64 canonical_long NPY_LONG.
Proof.
  apply (proj2 (@satisfies_characterisation numpy_lp64 canonical_long 0 NPY_LONG)).
  reflexivity.
Defined.

(** C1, as stated, fails twice on a canonical array of [long]: with a
    forced copy requested [satisfies] holds although the stated condition
    does not, and with [double] requested [satisfies] does not hold
    although the layout is canonical. *)
Lemma satisfies_differs_from_spec :
  PyArray_ISCARRAY canonical_long = true
  /\ @satisfies numpy_lp64 canonical_long NPY_ARRAY_ENSURECOPY NPY_NOTYPE = true
  /\ @compliant_spec numpy_lp64 canonical_long NPY_ARRAY_ENSURECOPY NPY_NOTYPE = false
  /\ @satisfies numpy_lp64 canonical_long 0 NPY_DOUBLE = false.
Proof. repeat split. Qed.

(** ** Flag arithmetic *)

Lemma has_all_lor_l (x m1 m2 : Z) :
  has_all x (Z.lor m1 m2) = true -> has_all x m1 = true.
Proof.
  unfold has_all. rewrite !Z.eqb_eq. intros H.
  apply Z.bits_inj'. intros n Hn.
  apply (f_equal (fun z => Z.testbit z n)) in H.
  rewrite Z.land_spec, Z.lor_spec in H. rewrite Z.land_spec.
  destruct (Z.testbit x n), (Z.testbit m1 n), (Z.testbit m2 n);
    simpl in *; congruence.
Qed.

Lemma has_all_lor_r (x m1 m2 : Z) :
  has_all x (Z.lor m1 m2) = true -> has_all x m2 = true.
Proof. rewrite Z.lor_comm. apply has_all_lor_l. Qed.

Lemma has_all_cleared (x m : Z) :
  m <> 0 -> has_all (Z.land x (Z.lnot m)) m = false.
Proof.
  intros Hm. unfold has_all. apply Z.eqb_neq. intros H. apply Hm.
  apply Z.bits_inj'. intros n Hn.
  apply (f_equal (fun z => Z.testbit z n)) in H.
  rewrite !Z.land_spec, Z.lnot_spec in H by exact Hn.
  rewrite Z.bits_0.
  destruct (Z.testbit x n), (Z.testbit m n); simpl in *; congruence.
Qed.

Lemma has_lor_set (x m : Z) : m <> 0 -> has (Z.lor x m) m = true.
Proof.
  intros Hm. unfold has. apply negb_true_iff, Z.eqb_neq. intros H. apply Hm.
  apply Z.bits_inj'. intros n Hn.
  apply (f_equal (fun z => Z.testbit z n)) in H.
  rewrite Z.land_spec, Z.lor_spec, Z.bits_0 in H. rewrite Z.bits_0.
  destruct (Z.testbit x n), (Z.testbit m n); simpl in *; congruence.
Qed.

Lemma canonical_is_writeable (a : PyArrayObject) :
  PyArray_ISCARRAY a = true -> PyArray_ISWRITEABLE a = true.
Proof.
  unfold PyArray_ISCARRAY, PyArray_ISWRITEABLE, PyArray_CHKFLAGS.
  intros [H _]%andb_true_iff.
  unfold NPY_ARRAY_CARRAY, NPY_ARRAY_BEHAVED in H.
  now apply has_all_lor_r, has_all_lor_r in H.
Qed.

Lemma cleared_not_writeable (a : PyArrayObject) :
  PyArray_ISWRITEABLE (PyArray_CLEARFLAGS a NPY_ARRAY_WRITEABLE) = false.
Proof.
  unfold PyArray_ISWRITEABLE, PyArray_CHKFLAGS, PyArray_CLEARFLAGS. simpl.
  now apply has_all_cleared.
Qed.

(** ** OutputView *)

Section OutputView.

Context {np : NumPy}.

(** C2.  For an array in canonical writable layout whose type satisfies the
    request, [NA_OutputArray] returns the pointer it was given, the same
    object with the same buffer, and leaves the world as it was: nothing
    is copied, nothing is allocated. *)
Theorem NA_OutputArray_zero_copy (w : World) (p : loc) (a : PyArrayObject)
    (t requires : Z) :
  heap w !! p = Some a ->
  PyArray_ISCARRAY a = true ->
  type_ok a t = true ->
  NA_OutputArray (PyArrayRef p) t requires w = Done (Some p) w.
Proof.
  intros Hp Hc Ht.
  unfold NA_OutputArray, mbind, M_bind, bindM, deref. rewrite Hp.
  rewrite (canonical_is_writeable a Hc). simpl.
  now rewrite satisfies_canonical, Ht by exact Hc.
Qed.

End OutputView.

Lemma NA_OutputArray_zero_copy_witness :
  @NA_OutputArray numpy_lp64 (PyArrayRef 1) NPY_NOTYPE NPY_ARRAY_ENSURECOPY
    (world_of canonical_long)
  = Done (Some 1%positive) (world_of canonical_long).
Proof.
  apply (@NA_OutputArray_zero_copy numpy_lp64 _ _ canonical_long);
    reflexivity.
Defined.

(** ** The object store *)

Lemma fresh_unused (h : gmap loc PyArrayObject) : h !! fresh (dom h) = None.
Proof. apply not_elem_of_dom, is_fresh. Qed.

Lemma update_at (w : World) (p : loc) (a : PyArrayObject)
    (f : PyArrayObject -> PyArrayObject) :
  heap w !! p = Some a ->
  update p f w = Done tt (set_heap (<[p := f a]> (heap w)) w).
Proof. intros H. unfold update. now rewrite H. Qed.

Lemma deref_at (w : World) (p : loc) (a : PyArrayObject) :
  heap w !! p = Some a -> deref p w = Done a w.
Proof. intros H. unfold deref. now rewrite H. Qed.

(** Runs the binds of a monadic term whose steps are known. *)
Ltac open_bind := unfold mbind, M_bind, bindM, mret, M_ret, retM.
Ltac run_bind := open_bind; simpl.


(** *** The owner of the data *)

(** The walk reads of an object only whether it owns its data and, when it
    does not, its base. *)
Lemma base_owner_ext (h h' : gmap loc PyArrayObject) (obj : loc) (n : nat) :
  (forall r,
     match h !! r, h' !! r with
     | Some a, Some a' =>
         PyArray_CHKFLAGS a NPY_ARRAY_OWNDATA = PyArray_CHKFLAGS a' NPY_ARRAY_OWNDATA
         /\ (PyArray_CHKFLAGS a NPY_ARRAY_OWNDATA = false -> base a = base a')
     | None, None => True
     | _, _ => False
     end) ->
  base_owner h obj n = base_owner h' obj n.
Proof.
  intros H0. revert obj. induction n as [|n IH]; intros obj; [reflexivity|].
  simpl. pose proof (H0 obj) as H.
  destruct (h !! obj) as [a|], (h' !! obj) as [a'|]; try easy.
  destruct H as [Ho Hb]. rewrite <- Ho.
  destruct (PyArray_CHKFLAGS a NPY_ARRAY_OWNDATA); [reflexivity|].
  rewrite <- (Hb eq_refl). destruct (base a) as [tmp|]; [|reflexivity].
  rewrite IH.
  assert (Ht : is_Some (h !! tmp) <-> is_Some (h' !! tmp)).
  { specialize (H0 tmp). now destruct (h !! tmp), (h' !! tmp). }
  now rewrite (bool_decide_ext _ _ Ht).
Qed.

Lemma base_owner_self (h : gmap loc PyArrayObject) (p : loc) (a : PyArrayObject) (n : nat) :
  h !! p = Some a ->
  PyArray_CHKFLAGS a NPY_ARRAY_OWNDATA = true \/ base a = None ->
  base_owner h p n = p.
Proof.
  intros Hp H. destruct n; [reflexivity|]. simpl. rewrite Hp.
  destruct (PyArray_CHKFLAGS a NPY_ARRAY_OWNDATA); [reflexivity|].
  destruct H as [H|H]; [discriminate|]. now rewrite H.
Qed.

Lemma base_owner_view (h : gmap loc PyArrayObject) (p o : loc) (a owner : PyArrayObject)
    (n : nat) :
  h !! p = Some a ->
  PyArray_CHKFLAGS a NPY_ARRAY_OWNDATA = false ->
  base a = Some o ->
  h !! o = Some owner ->
  PyArray_CHKFLAGS owner NPY_ARRAY_OWNDATA = true \/ base owner = None ->
  base_owner h p (S n) = o.
Proof.
  intros Hp Ha Hb Ho Hown. simpl. rewrite Hp, Ha, Hb.
  rewrite bool_decide_eq_true_2 by eauto.
  now apply base_owner_self with owner.
Qed.

Lemma size_positive (h : gmap loc PyArrayObject) (p : loc) (a : PyArrayObject) :
  h !! p = Some a -> exists n, size h = S n.
Proof.
  intros Hp. destruct (size h) as [|n] eqn:E; [|eauto].
  apply map_size_empty_iff in E. subst h. now rewrite lookup_empty in Hp.
Qed.

Lemma cleared_owns (a : PyArrayObject) :
  PyArray_CHKFLAGS (PyArray_CLEARFLAGS a NPY_ARRAY_WRITEABLE) NPY_ARRAY_OWNDATA
  = PyArray_CHKFLAGS a NPY_ARRAY_OWNDATA.
Proof.
  unfold PyArray_CHKFLAGS, PyArray_CLEARFLAGS, has_all. simpl.
  now rewrite <- Z.land_assoc.
Qed.

(** The shadow [NA_OutputArray] has just made owns its data, and the
    original keeps its base when it loses write permission: the walk from
    the original is the same before and after. *)
Lemma base_owner_after (h : gmap loc PyArrayObject) (p q : loc)
    (arr s s' : PyArrayObject) :
  h !! p = Some arr ->
  q <> p ->
  h !! q = Some s ->
  PyArray_CHKFLAGS s NPY_ARRAY_OWNDATA = true ->
  flags s' = flags s ->
  let h' := <[p := PyArray_CLEARFLAGS arr NPY_ARRAY_WRITEABLE]> (<[q := s']> h) in
  base_owner h' p (size h') = base_owner h p (size h).
Proof.
  intros Hp Hpq Hq Hs Hf h'.
  assert (Hsize : size h' = size h).
  { unfold h'. rewrite map_size_insert_Some
      by (rewrite lookup_insert_ne by exact Hpq; eauto).
    rewrite map_size_insert_Some by eauto. reflexivity. }
  rewrite Hsize. symmetry. apply base_owner_ext. intros r. unfold h'.
  destruct (decide (r = p)) as [->|Hrp].
  - rewrite lookup_insert_eq, Hp. split; [symmetry; apply cleared_owns|reflexivity].
  - rewrite (lookup_insert_ne _ p r) by congruence.
    destruct (decide (r = q)) as [->|Hrq].
    + rewrite lookup_insert_eq, Hq. unfold PyArray_CHKFLAGS in *. rewrite Hf.
      split; [reflexivity|]. congruence.
    + rewrite lookup_insert_ne by congruence. destruct (h !! r); auto.
Qed.

Section OutputViewShadow.

Context {np : NumPy}.

Lemma NA_OutputArray_read_only (w : World) (p : loc) (arr : PyArrayObject)
    (t requires : Z) :
  heap w !! p = Some arr ->
  PyArray_ISWRITEABLE arr = false ->
  NA_OutputArray (PyArrayRef p) t requires w
  = Done None (set_err not_writable_output w).
Proof.
  intros Hp Hw. unfold NA_OutputArray. run_bind.
  rewrite (deref_at _ _ _ Hp), Hw. reflexivity.
Qed.

Lemma NA_OutputArray_shadow_at (w : World) (p : loc) (arr : PyArrayObject)
    (t requires : Z) :
  heap w !! p = Some arr ->
  PyArray_ISWRITEABLE arr = true ->
  satisfies arr requires t = false ->
  granted w = true ->
  exists (shadow : PyArrayObject) (w' : World),
    NA_OutputArray (PyArrayRef p) t requires w = Done (Some (fresh (dom (heap w)))) w'
    /\ output_shadows w w' p (fresh (dom (heap w))) arr shadow
    /\ descr shadow = (if t =? NPY_NOTYPE then descr arr else PyArray_DescrFromType t).
Proof.
  intros Hp Hw Hs Hg.
  pose proof (fresh_unused (heap w)) as Hq.
  set (q := fresh (dom (heap w))) in *.
  assert (Hpq : q <> p) by (intros ->; congruence).
  unfold NA_OutputArray. run_bind.
  rewrite (deref_at _ _ _ Hp), Hw, Hs. simpl.
  unfold PyArray_Empty, PyArray_NewFromDescr, request. run_bind.
  rewrite Hg. unfold new_object. simpl. fold q.
  erewrite update_at by (simpl; apply lookup_insert_eq). simpl.
  unfold PyArray_SetBaseObject. run_bind.
  erewrite update_at by (simpl; apply lookup_insert_eq). simpl.
  erewrite update_at
    by (simpl; rewrite !lookup_insert_ne by exact Hpq; exact Hp).
  simpl. eexists _, _. split; [reflexivity|].
  split.
  - unfold output_shadows. simpl.
    split; [exact Hq|].
    split; [rewrite lookup_insert_ne by congruence; apply lookup_insert_eq|].
    simpl. split.
    { f_equal. rewrite insert_insert_eq. symmetry.
      eapply base_owner_after;
        [rewrite !lookup_insert_ne by exact Hpq; exact Hp | exact Hpq
         | apply lookup_insert_eq | reflexivity | reflexivity]. }
    split; [now apply has_lor_set|].
    split; [reflexivity|]. split; [reflexivity|].
    split; [apply lookup_insert_eq|].
    split; [apply cleared_not_writeable|].
    split; [|reflexivity].
    intros r Hrp Hrq. now rewrite !lookup_insert_ne by congruence.
  - reflexivity.
Qed.

Lemma NA_OutputArray_shadow (w : World) (p : loc) (arr : PyArrayObject)
    (t requires : Z) :
  heap w !! p = Some arr ->
  PyArray_ISWRITEABLE arr = true ->
  satisfies arr requires t = false ->
  granted w = true ->
  exists (q : loc) (shadow : PyArrayObject) (w' : World),
    NA_OutputArray (PyArrayRef p) t requires w = Done (Some q) w'
    /\ output_shadows w w' p q arr shadow
    /\ descr shadow = (if t =? NPY_NOTYPE then descr arr else PyArray_DescrFromType t).
Proof.
  intros Hp Hw Hs Hg.
  destruct (NA_OutputArray_shadow_at w p arr t requires Hp Hw Hs Hg)
    as (shadow & w' & H).
  now exists (fresh (dom (heap w))), shadow, w'.
Qed.

(** The result of [PyArray_Empty] is used without a test: when the
    allocation of the shadow is refused, [NA_OutputArray] crashes. *)
Lemma NA_OutputArray_refused (w : World) (p : loc) (arr : PyArrayObject)
    (t requires : Z) :
  heap w !! p = Some arr ->
  PyArray_ISWRITEABLE arr = true ->
  satisfies arr requires t = false ->
  granted w = false ->
  exists w', NA_OutputArray (PyArrayRef p) t requires w = Crash w'.
Proof.
  intros Hp Hw Hs Hg. unfold NA_OutputArray. run_bind.
  rewrite (deref_at _ _ _ Hp), Hw, Hs. simpl.
  unfold PyArray_Empty, PyArray_NewFromDescr, request. run_bind.
  rewrite Hg. simpl. eexists. reflexivity.
Qed.

(** On a value that is not a writable array [NA_OutputArray] returns
    [NULL] with the type error "only writeable arrays work for output" and
    changes nothing else.  On a writable array that does not satisfy the
    request and that owns its data, or has no base, the new array is a
    shadow of the array itself: its base is the array. *)
Lemma NA_OutputArray_owner_cases (w : World) (a : PyObject) (t requires : Z) :
  ((forall p, a = PyArrayRef p ->
      exists arr, heap w !! p = Some arr /\ PyArray_ISWRITEABLE arr = false) ->
   NA_OutputArray a t requires w = Done None (set_err not_writable_output w))
  /\ (forall p arr,
        a = PyArrayRef p ->
        heap w !! p = Some arr ->
        PyArray_ISWRITEABLE arr = true ->
        satisfies arr requires t = false ->
        granted w = true ->
        PyArray_CHKFLAGS arr NPY_ARRAY_OWNDATA = true \/ base arr = None ->
        exists (q : loc) (shadow : PyArrayObject) (w' : World),
          NA_OutputArray a t requires w = Done (Some q) w'
          /\ shadows w w' p q arr shadow
          /\ descr shadow
             = (if t =? NPY_NOTYPE then descr arr else PyArray_DescrFromType t)).
Proof.
  split.
  - intros H. destruct a; try reflexivity.
    destruct (H p eq_refl) as (arr & Hp & Hw).
    now apply NA_OutputArray_read_only with arr.
  - intros p arr -> Hp Hw Hs Hg Hown.
    destruct (NA_OutputArray_shadow w p arr t requires Hp Hw Hs Hg)
      as (q & shadow & w' & E & Hsh & Hd).
    exists q, shadow, w'. split; [exact E|]. split; [|exact Hd].
    destruct Hsh as (H1 & H2 & H3 & H4 & H5 & H6 & H7 & H8 & H9).
    repeat split; try assumption; try apply H9.
    rewrite H3. f_equal. apply base_owner_self with (1 := H7).
    rewrite cleared_owns. exact Hown.
Qed.

(** C3.  On a writable array that does not satisfy the request and that is
    a view of the data of another array (it does not own its data, and its
    base owns them or has no base itself), [NA_OutputArray] allocates a
    new array of the shape of the view and of the type asked for, marks it
    for write-back ([NPY_ARRAY_UPDATEIFCOPY]) and takes write permission
    away from the view; but the base it records in the new array is the
    owner of the data, not the view.  The write-back NumPy performs when
    the new array is released, and the write permission it then gives
    back, are the owner's, which the call leaves as it was.  When the
    allocation of the new array is refused the call crashes: the result
    of [PyArray_Empty] is used without a test. *)
Theorem NA_OutputArray_shadow_of_view (w : World) (p o : loc)
    (arr owner : PyArrayObject) (t requires : Z) :
  heap w !! p = Some arr ->
  PyArray_ISWRITEABLE arr = true ->
  satisfies arr requires t = false ->
  PyArray_CHKFLAGS arr NPY_ARRAY_OWNDATA = false ->
  base arr = Some o ->
  heap w !! o = Some owner ->
  PyArray_CHKFLAGS owner NPY_ARRAY_OWNDATA = true \/ base owner = None ->
  (granted w = true ->
   exists (shadow : PyArrayObject) (w' : World),
     NA_OutputArray (PyArrayRef p) t requires w = Done (Some (fresh (dom (heap w)))) w'
     /\ output_shadows w w' p (fresh (dom (heap w))) arr shadow
     /\ descr shadow = (if t =? NPY_NOTYPE then descr arr else PyArray_DescrFromType t)
     /\ base shadow = Some o
     /\ o <> p
     /\ heap w' !! o = Some owner)
  /\ (granted w = false ->
      exists w', NA_OutputArray (PyArrayRef p) t requires w = Crash w').
Proof.
  intros Hp Hw Hs Hview Hbase Ho Hown.
  assert (Hop : o <> p).
  { intros ->. assert (owner = arr) as -> by congruence.
    destruct Hown; congruence. }
  split; [|now apply NA_OutputArray_refused with arr].
  intros Hg.
  destruct (NA_OutputArray_shadow_at w p arr t requires Hp Hw Hs Hg)
    as (shadow & w' & E & Hsh & Hd).
  exists shadow, w'. split; [exact E|]. split; [exact Hsh|]. split; [exact Hd|].
  destruct Hsh as (Hq & Hq' & Hb & _ & _ & _ & Hp' & _ & Hother & _).
  assert (Ho' : heap w' !! o = Some owner).
  { rewrite Hother; [exact Ho|exact Hop|]. intros ->. congruence. }
  split; [|split; [exact Hop|exact Ho']].
  rewrite Hb. f_equal.
  destruct (size_positive _ _ _ Hq') as (n & ->).
  apply base_owner_view with (1 := Hp') (4 := Ho'); try assumption.
  now rewrite cleared_owns.
Qed.

End OutputViewShadow.

Lemma NA_OutputArray_shadow_of_view_witness :
  exists (shadow : PyArrayObject) (w' : World),
    @NA_OutputArray numpy_lp64 (PyArrayRef 2) NPY_NOTYPE
      (Z.lor NPY_ARRAY_ALIGNED NPY_ARRAY_NOTSWAPPED) world_of_view
    = Done (Some 3%positive) w'
    /\ heap w' !! 3%positive = Some shadow
    /\ base shadow = Some 1%positive
    /\ heap w' !! 2%positive = Some (PyArray_CLEARFLAGS view_of_long NPY_ARRAY_WRITEABLE)
    /\ heap w' !! 1%positive = Some canonical_long.
Proof.
  destruct (proj1 (@NA_OutputArray_shadow_of_view numpy_lp64 world_of_view 2 1
                     view_of_long canonical_long NPY_NOTYPE
                     (Z.lor NPY_ARRAY_ALIGNED NPY_ARRAY_NOTSWAPPED)
                     eq_refl eq_refl eq_refl eq_refl eq_refl eq_refl
                     (or_introl eq_refl))
                  eq_refl)
    as (shadow & w' & E & Hsh & _ & Hb & _ & Ho).
  exists shadow, w'. split; [exact E|].
  destruct Hsh as (_ & Hq & _ & _ & _ & _ & Hp & _).
  repeat split; assumption.
Defined.

(** ** IoView *)

Section IoView.

Context {np : NumPy}.

Lemma NA_InputArray_array (w : World) (p : loc) (a : PyArrayObject) (t requires : Z) :
  heap w !! p = Some a ->
  NA_InputArray (PyArrayRef p) t requires w
  = PyArray_FromArray p (target_descr a t requires) requires w.
Proof.
  intros Hp. unfold NA_InputArray, PyArray_CheckFromAny, target_descr.
  destruct (t =? NPY_NOTYPE), (has requires NPY_ARRAY_NOTSWAPPED); simpl;
    run_bind; rewrite ?(deref_at _ _ _ Hp); simpl;
    try destruct (PyArray_ISBYTESWAPPED a); simpl;
    unfold PyArray_FromAny; run_bind; rewrite ?(deref_at _ _ _ Hp);
    reflexivity.
Qed.

Lemma PyArray_FromArray_same (w : World) (p : loc) (a : PyArrayObject)
    (d : PyArray_Descr) (requires : Z) :
  heap w !! p = Some a ->
  needs_copy a d requires = false ->
  PyArray_FromArray p d requires w = Done (Some p) w.
Proof.
  intros Hp Hn. unfold PyArray_FromArray. run_bind.
  now rewrite (deref_at _ _ _ Hp), Hn.
Qed.

Lemma PyArray_FromArray_shadow (w : World) (p : loc) (a : PyArrayObject)
    (d : PyArray_Descr) (requires : Z) (c : list scalar) :
  heap w !! p = Some a ->
  needs_copy a d requires = true ->
  has requires NPY_ARRAY_UPDATEIFCOPY = true ->
  PyArray_ISWRITEABLE a = true ->
  converted a d = Some c ->
  granted w = true ->
  exists (q : loc) (shadow : PyArrayObject) (w' : World),
    PyArray_FromArray p d requires w = Done (Some q) w'
    /\ shadows w w' p q a shadow
    /\ data shadow = c
    /\ descr shadow = d.
Proof.
  intros Hp Hn Hu Hw Hc Hg.
  pose proof (fresh_unused (heap w)) as Hq.
  set (q := fresh (dom (heap w))) in *.
  assert (Hpq : q <> p) by (intros ->; congruence).
  unfold PyArray_FromArray. run_bind.
  rewrite (deref_at _ _ _ Hp), Hn, Hc. simpl.
  unfold PyArray_NewFromDescr, request. run_bind.
  rewrite Hg. unfold new_object. simpl. fold q.
  erewrite update_at by (simpl; apply lookup_insert_eq). simpl.
  rewrite Hu. unfold PyArray_SetUpdateIfCopyBase. run_bind.
  erewrite deref_at
    by (simpl; rewrite !lookup_insert_ne by exact Hpq; exact Hp).
  rewrite Hw. simpl.
  erewrite update_at by (simpl; apply lookup_insert_eq). simpl.
  erewrite update_at by (simpl; apply lookup_insert_eq). simpl.
  erewrite update_at
    by (simpl; rewrite !lookup_insert_ne by exact Hpq; exact Hp).
  simpl. eexists q, _, _. split; [reflexivity|].
  split.
  - unfold shadows. simpl.
    split; [exact Hq|].
    split; [rewrite lookup_insert_ne by congruence; apply lookup_insert_eq|].
    simpl. split; [reflexivity|].
    split; [now apply has_lor_set|].
    split; [reflexivity|]. split; [reflexivity|].
    split; [apply lookup_insert_eq|].
    split; [apply cleared_not_writeable|].
    split; [|reflexivity].
    intros r Hrp Hrq. now rewrite !lookup_insert_ne by congruence.
  - split; reflexivity.
Qed.

Lemma PyArray_FromArray_read_only (w : World) (p : loc) (a : PyArrayObject)
    (d : PyArray_Descr) (requires : Z) (c : list scalar) :
  heap w !! p = Some a ->
  needs_copy a d requires = true ->
  has requires NPY_ARRAY_UPDATEIFCOPY = true ->
  PyArray_ISWRITEABLE a = false ->
  converted a d = Some c ->
  granted w = true ->
  exists w',
    PyArray_FromArray p d requires w = Done None w'
    /\ is_Some (err w') /\ heap w' !! p = Some a.
Proof.
  intros Hp Hn Hu Hw Hc Hg.
  pose proof (fresh_unused (heap w)) as Hq.
  set (q := fresh (dom (heap w))) in *.
  assert (Hpq : q <> p) by (intros ->; congruence).
  unfold PyArray_FromArray. run_bind.
  rewrite (deref_at _ _ _ Hp), Hn, Hc. simpl.
  unfold PyArray_NewFromDescr, request. run_bind.
  rewrite Hg. unfold new_object. simpl. fold q.
  erewrite update_at by (simpl; apply lookup_insert_eq). simpl.
  rewrite Hu. unfold PyArray_SetUpdateIfCopyBase. run_bind.
  erewrite deref_at
    by (simpl; rewrite !lookup_insert_ne by exact Hpq; exact Hp).
  rewrite Hw. simpl. eexists. split; [reflexivity|]. simpl.
  split; [eauto|]. now rewrite !lookup_insert_ne by exact Hpq.
Qed.

Lemma has_lor_other (x u b : Z) : Z.land u b = 0 -> has (Z.lor x u) b = has x b.
Proof.
  intros H. unfold has. now rewrite Z.land_lor_distr_l, H, Z.lor_0_r.
Qed.

(** For the requests nd_image.c makes, compliance as [NA_IoArray] decides
    it is the compliance predicate of the specification. *)
Lemma io_compliant_as_specified (a : PyArrayObject) (t requires : Z) :
  (forall x, PyArray_EquivTypenums x x = true) ->
  has requires NPY_ARRAY_F_CONTIGUOUS = false ->
  t = NPY_NOTYPE \/ PyArray_ISNOTSWAPPED a = true
    \/ has requires NPY_ARRAY_NOTSWAPPED = true ->
  io_compliant a t requires = compliant_spec a requires t.
Proof.
  intros Hrefl Hf Hside.
  unfold io_compliant, needs_copy, io_target, target_descr, io_requires,
    compliant_spec, requested_flags_hold, type_ok, PyArray_EquivTypes,
    PyArray_ISBYTESWAPPED, PyArray_ISNOTSWAPPED, PyArray_TYPE.
  rewrite !has_lor_other by reflexivity. rewrite Hf.
  destruct (t =? NPY_NOTYPE) eqn:Et.
  - destruct (has requires NPY_ARRAY_NOTSWAPPED), (native_order (descr a)) eqn:En;
      cbn [andb negb type_num native_order PyArray_DescrFromType];
      rewrite ?Hrefl, ?En;
      destruct (has requires NPY_ARRAY_ENSURECOPY),
        (has requires NPY_ARRAY_C_CONTIGUOUS), (PyArray_ISCONTIGUOUS a),
        (has requires NPY_ARRAY_ALIGNED), (PyArray_ISALIGNED a),
        (has requires NPY_ARRAY_WRITEABLE), (PyArray_ISWRITEABLE a);
      reflexivity.
  - assert (Hn : native_order (descr a) = true
                 \/ has requires NPY_ARRAY_NOTSWAPPED = true).
    { destruct Hside as [->|[H|H]]; [cbv in Et; discriminate Et| |]; auto. }
    cbn [type_num native_order PyArray_DescrFromType].
    destruct (PyArray_EquivTypenums (type_num (descr a)) t),
      (native_order (descr a)), (has requires NPY_ARRAY_NOTSWAPPED),
      (has requires NPY_ARRAY_ENSURECOPY),
      (has requires NPY_ARRAY_C_CONTIGUOUS), (PyArray_ISCONTIGUOUS a),
      (has requires NPY_ARRAY_ALIGNED), (PyArray_ISALIGNED a),
      (has requires NPY_ARRAY_WRITEABLE), (PyArray_ISWRITEABLE a);
      try reflexivity; destruct Hn; discriminate.
Qed.

(** A source that is neither compliant nor writable is refused as well, by
    NumPy: no write-back can be scheduled into it. *)
Lemma NA_IoArray_read_only_mismatch (w : World) (p : loc) (a : PyArrayObject)
    (t requires : Z) (c : list scalar) :
  heap w !! p = Some a ->
  io_compliant a t requires = false ->
  PyArray_ISWRITEABLE a = false ->
  converted a (io_target a t requires) = Some c ->
  granted w = true ->
  exists w',
    NA_IoArray (PyArrayRef p) t requires w = Done None w'
    /\ is_Some (err w') /\ heap w' !! p = Some a.
Proof.
  unfold io_compliant, io_target.
  intros Hp Hc%negb_false_iff Hw Hconv Hg. unfold NA_IoArray. run_bind.
  fold (io_requires requires).
  rewrite (NA_InputArray_array _ _ _ _ _ Hp).
  destruct (PyArray_FromArray_read_only w p a _ _ c Hp Hc
              (has_lor_set requires NPY_ARRAY_UPDATEIFCOPY ltac:(discriminate))
              Hw Hconv Hg)
    as (w' & -> & He & Hh).
  now exists w'.
Qed.

Lemma io_requires_updateifcopy (requires : Z) :
  has (io_requires requires) NPY_ARRAY_UPDATEIFCOPY = true.
Proof. now apply has_lor_set. Qed.

(** C4.  [NA_IoArray] on an array that is compliant (no copy is needed for
    the request) and writable returns the array itself and leaves the
    world as it was: no copy, no write-back.  On a writable array that is
    not compliant it returns a new array that holds the (converted)
    contents of the original, has the original as its base and write-back
    scheduled.  On an array that is compliant but not writable it returns
    [NULL] with the type error "I/O array must be writable array". *)
Theorem NA_IoArray_cases (w : World) (p : loc) (a : PyArrayObject) (t requires : Z) :
  heap w !! p = Some a ->
  (io_compliant a t requires = true -> PyArray_ISWRITEABLE a = true ->
   NA_IoArray (PyArrayRef p) t requires w = Done (Some p) w)
  /\ (io_compliant a t requires = false -> PyArray_ISWRITEABLE a = true ->
      granted w = true ->
      forall c, converted a (io_target a t requires) = Some c ->
      exists (q : loc) (shadow : PyArrayObject) (w' : World),
        NA_IoArray (PyArrayRef p) t requires w = Done (Some q) w'
        /\ shadows w w' p q a shadow
        /\ data shadow = c)
  /\ (io_compliant a t requires = true -> PyArray_ISWRITEABLE a = false ->
      NA_IoArray (PyArrayRef p) t requires w
      = Done None (set_err not_writable_io w)).
Proof.
  intros Hp. unfold io_compliant, io_target.
  repeat split.
  - intros Hc%negb_true_iff Hw. unfold NA_IoArray. run_bind.
    fold (io_requires requires).
    rewrite (NA_InputArray_array _ _ _ _ _ Hp).
    rewrite (PyArray_FromArray_same _ _ _ _ _ Hp Hc).
    now rewrite (deref_at _ _ _ Hp), Hw.
  - intros Hc%negb_false_iff Hw Hg c Hconv. unfold NA_IoArray. run_bind.
    fold (io_requires requires).
    rewrite (NA_InputArray_array _ _ _ _ _ Hp).
    destruct (PyArray_FromArray_shadow w p a _ _ c Hp Hc
                (io_requires_updateifcopy requires) Hw Hconv Hg)
      as (q & shadow & w' & -> & Hs & Hd & _).
    exists q, shadow, w'.
    destruct Hs as (? & Hq & ? & ? & Hsw & ?).
    rewrite (deref_at _ _ _ Hq), Hsw. simpl.
    repeat split; try assumption. all: tauto.
  - intros Hc%negb_true_iff Hw. unfold NA_IoArray. run_bind.
    fold (io_requires requires).
    rewrite (NA_InputArray_array _ _ _ _ _ Hp).
    rewrite (PyArray_FromArray_same _ _ _ _ _ Hp Hc).
    now rewrite (deref_at _ _ _ Hp), Hw.
Qed.

End IoView.

Lemma NA_IoArray_cases_witness :
  @NA_IoArray numpy_lp64 (PyArrayRef 1) NPY_NOTYPE 0 (world_of canonical_long)
  = Done (Some 1%positive) (world_of canonical_long)
  /\ (exists (q : loc) (shadow : PyArrayObject) (w' : World),
        @NA_IoArray numpy_lp64 (PyArrayRef 1) NPY_DOUBLE 0 (world_of canonical_long)
        = Done (Some q) w'
        /\ shadows (world_of canonical_long) w' 1 q canonical_long shadow
        /\ data shadow = [SDouble 4%float; SDouble 5%float; SDouble 6%float])
  /\ @NA_IoArray numpy_lp64 (PyArrayRef 1) NPY_NOTYPE 0 (world_of read_only_long)
     = Done None (set_err not_writable_io (world_of read_only_long)).
Proof.
  split; [|split].
  - apply (@NA_IoArray_cases numpy_lp64 (world_of canonical_long) 1%positive
             canonical_long NPY_NOTYPE 0); reflexivity.
  - apply (@NA_IoArray_cases numpy_lp64 (world_of canonical_long) 1%positive
             canonical_long NPY_DOUBLE 0); reflexivity.
  - apply (@NA_IoArray_cases numpy_lp64 (world_of read_only_long) 1%positive
             read_only_long NPY_NOTYPE 0); reflexivity.
Defined.

(** ** ToIntArray *)

Section ToIntArray.

Context {np : NumPy}.

(** When the conversion of the host value fails, [NA_InputArray] returns
    [NULL] and [NI_ObjectToLongSequenceAndLength] reads the size of the
    array through it. *)
Lemma NI_ObjectToLongSequenceAndLength_null (object : PyObject) (w w' : World) :
  NA_InputArray object NPY_INTP NPY_ARRAY_CARRAY w = Done None w' ->
  NI_ObjectToLongSequenceAndLength object w = Crash w'.
Proof.
  intros H. unfold NI_ObjectToLongSequenceAndLength. run_bind. now rewrite H.
Qed.

End ToIntArray.

Lemma longs_of_PyLong (zs : list Z) : longs_of (PyLong <$> zs) = Some zs.
Proof.
  unfold longs_of. apply mapM_Some. induction zs; constructor; auto.
Qed.

Lemma copy_buffer_longs (zs : list Z) :
  copy_buffer read_long (SLong <$> zs) (Z.of_nat (length zs) * 1) = Some zs.
Proof.
  unfold copy_buffer. rewrite Z.mul_1_r, Nat2Z.id.
  apply mapM_Some, Forall2_same_length_lookup_2.
  - now rewrite length_seq.
  - intros i x y Hx Hy. apply lookup_seq in Hx as [-> Hi]. simpl.
    unfold read_long. now rewrite list_lookup_fmap, Hy.
Qed.

(** The intended behaviour of [NI_ObjectToLongSequenceAndLength], on a host
    list of integers: when the allocations are granted, the returned
    length is the length of the list and the sequence stored holds its
    elements, in a buffer of its own; when the buffer of the sequence is
    refused, -1 with a memory error. *)
Lemma NI_ObjectToLongSequenceAndLength_copies (zs : list Z) (w : World) :
  granted w = true ->
  exists w1,
    @NA_InputArray numpy_lp64 (PyList (PyLong <$> zs)) NPY_INTP NPY_ARRAY_CARRAY w
    = Done (Some (fresh (dom (heap w)))) w1
    /\ err w1 = err w
    /\ @NI_ObjectToLongSequenceAndLength numpy_lp64 (PyList (PyLong <$> zs)) w
       = if granted w1
         then Done (Z.of_nat (length zs), Some zs) (set_mem (tl (mem w1)) w1)
         else Done (-1, None)
                (set_err (Some (PyExc_MemoryError, ""%string)) (set_mem (tl (mem w1)) w1)).
Proof.
  intros Hg.
  unfold NI_ObjectToLongSequenceAndLength, NA_InputArray, PyArray_CheckFromAny,
    PyArray_FromAny.
  simpl. rewrite longs_of_PyLong. unfold PyArray_NewFromDescr, request.
  run_bind. rewrite Hg. unfold new_object. simpl.
  erewrite update_at by (simpl; apply lookup_insert_eq). simpl.
  eexists. split; [reflexivity|]. split; [reflexivity|].
  erewrite deref_at by (simpl; apply lookup_insert_eq).
  unfold granted at 1. simpl.
  destruct (hd true (tl (mem w))) eqn:E; unfold granted; simpl; rewrite E.
  - unfold PyArray_SIZE, PyArray_MultiplyList. simpl.
    rewrite length_fmap, copy_buffer_longs, Z.mul_1_r. reflexivity.
  - reflexivity.
Qed.

(** C5, at the failing input: on a host list with an element that is not
    an integer the conversion fails, and [NI_ObjectToLongSequenceAndLength]
    crashes on the [NULL] array instead of returning -1 with the
    conversion error. *)
Theorem NI_ObjectToLongSequenceAndLength_crashes :
  @NI_ObjectToLongSequenceAndLength numpy_lp64 (PyList [PyStr "a"]) empty_world
  = Crash (set_err (Some (PyExc_ValueError, "object cannot be converted to an array"%string))
             empty_world).
Proof. reflexivity. Qed.

(** ** Runs without allocation failure and without a pending error *)

Lemma set_mem_same (w : World) : set_mem (mem w) w = w.
Proof. now destruct w. Qed.

Lemma request_quiet (w : World) : mem w = [] -> request w = Done true w.
Proof.
  intros H. unfold request, granted. rewrite H. simpl.
  now rewrite <- H, set_mem_same.
Qed.

Lemma allocate_quiet (o : PyObject) (w : World) :
  mem w = [] -> allocate o w = Done (Some o) w.
Proof. intros H. unfold allocate. open_bind. now rewrite request_quiet. Qed.

Lemma PyTuple_New_quiet (n : Z) (w : World) :
  0 <= n -> mem w = [] -> PyTuple_New n w = Done true w.
Proof.
  intros Hn H. unfold PyTuple_New.
  destruct (n <? 0) eqn:E; [apply Z.ltb_lt in E; lia|].
  open_bind. now rewrite request_quiet.
Qed.

Lemma PyErr_Occurred_clear (w : World) :
  err w = None -> PyErr_Occurred w = Done false w.
Proof. intros H. unfold PyErr_Occurred. now rewrite H. Qed.

Lemma PyErr_Occurred_set (w : World) (e : PyExc * string) :
  err w = Some e -> PyErr_Occurred w = Done true w.
Proof. intros H. unfold PyErr_Occurred. now rewrite H. Qed.

(** ** find_objects *)

Lemma lookup_concat_uniform {A} (f : nat -> list A) (k n s i j : nat) :
  (forall i, length (f i) = k) ->
  (i < n)%nat -> (j < k)%nat ->
  concat (f <$> seq s n) !! (i * k + j)%nat = f (s + i)%nat !! j.
Proof.
  intros Hk. revert s i. induction n as [|n IH]; intros s i Hi Hj; [lia|].
  simpl. destruct i as [|i].
  - rewrite lookup_app_l by (rewrite Hk; lia).
    now rewrite Nat.add_0_r.
  - rewrite lookup_app_r by (rewrite Hk; simpl; lia). rewrite Hk.
    replace (S i * k + j - k)%nat with (i * k + j)%nat by (simpl; lia).
    rewrite IH by lia.
    now replace (S s + i)%nat with (s + S i)%nat by lia.
Qed.

Lemma region_length (rank : nat) (vs : list (list Z)) :
  length (region rank vs) = if rank is O then 1%nat else (2 * rank)%nat.
Proof.
  destruct rank, vs; try reflexivity; cbn [region].
  - now rewrite length_replicate.
  - rewrite length_app, !length_fmap, !length_seq. lia.
Qed.

Lemma minimum_nonneg (l : list Z) :
  l <> [] -> Forall (Z.le 0) l -> 0 <= minimum l.
Proof.
  destruct l as [|x r]; [congruence|]. intros _ H.
  apply Forall_cons in H as [Hx Hr]. simpl.
  induction Hr; simpl; lia.
Qed.

Lemma unravel_nonneg (dims : list Z) (k : Z) :
  Forall (Z.le 0) dims -> 0 <= k -> Forall (Z.le 0) (unravel dims k).
Proof.
  intros H. revert k. induction H as [|d ds Hd Hds IH]; intros k Hk; simpl.
  - constructor.
  - assert (0 <= PyArray_MultiplyList ds).
    { clear IH. induction Hds; simpl; [lia|].
      unfold PyArray_MultiplyList in *. simpl. lia. }
    constructor.
    + apply Z_div_nonneg_nonneg; lia.
    + apply IH. destruct (Z.eq_dec (PyArray_MultiplyList ds) 0) as [->|].
      * rewrite Z.mod_0_r. lia.
      * apply Z.mod_pos_bound. lia.
Qed.

Lemma region_start (rank : nat) (vs : list (list Z)) (j : nat) :
  vs <> [] -> (j < rank)%nat ->
  region rank vs !! j = Some (minimum ((fun v => nth j v 0) <$> vs)).
Proof.
  intros Hvs Hj. destruct rank as [|r]; [lia|]. destruct vs as [|v vs]; [done|].
  cbn [region]. rewrite lookup_app_l by (rewrite length_fmap, length_seq; lia).
  rewrite list_lookup_fmap, lookup_seq_lt by lia. reflexivity.
Qed.

Lemma region_stop (rank : nat) (vs : list (list Z)) (j : nat) :
  vs <> [] -> (j < rank)%nat ->
  region rank vs !! (j + rank)%nat
  = Some (maximum ((fun v => nth j v 0) <$> vs) + 1).
Proof.
  intros Hvs Hj. destruct rank as [|r]; [lia|]. destruct vs as [|v vs]; [done|].
  cbn [region]. rewrite lookup_app_r by (rewrite length_fmap, length_seq; lia).
  rewrite length_fmap, length_seq.
  replace (j + S r - S r)%nat with j by lia.
  rewrite list_lookup_fmap, lookup_seq_lt by lia. reflexivity.
Qed.

Section FindObjectsFacts.

Context {np : NumPy}.

Variable input : PyArrayObject.
Variable max_label : Z.

Local Abbreviation rank := (length (dimensions input)).
Local Abbreviation chunk := (fun l : nat => region rank (voxels input (Z.of_nat l + 1))).
Local Abbreviation regions := (NI_FindObjects_spec input max_label).2.
Local Abbreviation width := (if rank is O then 1%nat else (2 * rank)%nat).

Lemma read_regions (i j : nat) :
  (i < Z.to_nat max_label)%nat -> (j < width)%nat ->
  read_region (Some regions) (Z.of_nat (i * width + j)) = chunk i !! j.
Proof.
  intros Hi Hj. unfold read_region.
  destruct (Z.of_nat (i * width + j) <? 0) eqn:E; [apply Z.ltb_lt in E; lia|].
  rewrite Nat2Z.id. unfold NI_FindObjects_spec. cbn [snd].
  apply (lookup_concat_uniform chunk width _ 0 i j); [|assumption..].
  intros l. apply region_length.
Qed.

Lemma read_regions_first (i : nat) :
  (i < Z.to_nat max_label)%nat ->
  read_region (Some regions) (Z.of_nat (i * width)) = chunk i !! 0%nat.
Proof.
  intros Hi.
  pose proof (read_regions i 0 Hi ltac:(destruct rank; lia)) as H.
  now rewrite Nat.add_0_r in H.
Qed.

Lemma voxels_nonneg (label : Z) :
  Forall (Z.le 0) (dimensions input) ->
  Forall (Forall (Z.le 0)) (voxels input label).
Proof.
  intros Hd. unfold voxels. apply Forall_forall. intros v Hv.
  apply list_elem_of_omap in Hv as ([k s] & _ & Hv). simpl in Hv.
  destruct (label_of s =? label); [|discriminate].
  injection Hv as <-. apply unravel_nonneg; [assumption|lia].
Qed.

Lemma chunk_present (i : nat) :
  Forall (Z.le 0) (dimensions input) ->
  voxels input (Z.of_nat i + 1) <> [] ->
  exists r, chunk i !! 0%nat = Some r /\ 0 <= r.
Proof.
  intros Hd Hv. cbv beta. destruct rank as [|r] eqn:Er.
  - destruct (voxels input (Z.of_nat i + 1)); [done|]. exists 1. now split.
  - rewrite region_start by (assumption || lia). eexists. split; [reflexivity|].
    apply minimum_nonneg.
    + destruct (voxels input (Z.of_nat i + 1)); [done|discriminate].
    + apply Forall_fmap, Forall_forall. intros v Hv'.
      pose proof (voxels_nonneg (Z.of_nat i + 1) Hd) as Hall.
      rewrite Forall_forall in Hall. specialize (Hall v Hv').
      simpl. destruct (nth_in_or_default 0 v 0) as [Hin| ->]; [|lia].
      rewrite Forall_forall in Hall. apply Hall. now apply list_elem_of_In.
Qed.

Lemma chunk_absent (i : nat) :
  voxels input (Z.of_nat i + 1) = [] ->
  chunk i !! 0%nat = Some (-1).
Proof. intros Hv. cbv beta. rewrite Hv. now destruct rank. Qed.

(** The loop over the axes yields the slices of the bounding box. *)
Lemma Py_FindObjects_slices_extent (w : World) (i : nat) :
  mem w = [] ->
  (i < Z.to_nat max_label)%nat ->
  voxels input (Z.of_nat i + 1) <> [] ->
  forall (m j : nat), (j + m = rank)%nat ->
  Py_FindObjects_slices (Some regions) (Z.of_nat rank)
    (Z.of_nat (i * width)) (Z.of_nat j) m w
  = Done (Some (extent (voxels input (Z.of_nat i + 1)) <$> seq j m)) w.
Proof.
  intros Hm Hi Hv. induction m as [|m IH]; intros j Hj; [reflexivity|].
  assert (Hw : width = (2 * rank)%nat) by (destruct rank; lia).
  cbn [Py_FindObjects_slices].
  replace (Z.of_nat (i * width) + Z.of_nat j)
    with (Z.of_nat (i * width + j)) by lia.
  replace (Z.of_nat (i * width + j) + Z.of_nat rank)
    with (Z.of_nat (i * width + (j + rank))) by lia.
  rewrite !read_regions by (assumption || lia). cbv beta.
  rewrite region_start, region_stop by (assumption || lia).
  unfold PyLong_FromSsize_t, PySlice_New. open_bind.
  rewrite !allocate_quiet by assumption.
  specialize (IH (S j)).
  replace (Z.of_nat (S j)) with (Z.of_nat j + 1) in IH by lia.
  rewrite IH by lia. reflexivity.
Qed.

(** The loop over the labels yields the bounding boxes, in label order. *)
Lemma Py_FindObjects_items_boxes (w : World) :
  mem w = [] ->
  Forall (Z.le 0) (dimensions input) ->
  forall (n i : nat), (i + n = Z.to_nat max_label)%nat ->
  Py_FindObjects_items (Some regions) (Z.of_nat rank) (Z.of_nat i) n w
  = Done (Some ((fun l : nat => bounding_box input (Z.of_nat l + 1)) <$> seq i n)) w.
Proof.
  intros Hm Hd. induction n as [|n IH]; intros i Hi; [reflexivity|].
  cbn [Py_FindObjects_items].
  assert (Hidx : (if 0 <? Z.of_nat rank then 2 * Z.of_nat rank * Z.of_nat i
                  else Z.of_nat i) = Z.of_nat (i * width)).
  { destruct rank as [|r].
    - change (0 <? Z.of_nat 0) with false. cbv iota. lia.
    - replace (0 <? Z.of_nat (S r)) with true by (symmetry; apply Z.ltb_lt; lia).
      lia. }
  rewrite Hidx, read_regions_first by lia. cbv beta.
  specialize (IH (S i)).
  replace (Z.of_nat (S i)) with (Z.of_nat i + 1) in IH by lia.
  destruct (voxels input (Z.of_nat i + 1)) as [|v vs] eqn:Ev.
  - pose proof (chunk_absent i Ev) as Hc. cbv beta in Hc. rewrite Ev in Hc.
    rewrite Hc. open_bind. cbn [Z.leb Z.compare].
    rewrite IH by lia. cbn [fmap list_fmap seq option_fmap option_map].
    unfold bounding_box at 2. now rewrite Ev.
  - assert (Hne : voxels input (Z.of_nat i + 1) <> []) by now rewrite Ev.
    destruct (chunk_present i Hd Hne) as (r & Hc & Hr).
    cbv beta in Hc. rewrite Ev in Hc. rewrite Hc. open_bind.
    replace (0 <=? r) with true by (symmetry; apply Z.leb_le; lia).
    rewrite PyTuple_New_quiet by (assumption || lia).
    pose proof (Py_FindObjects_slices_extent w i Hm ltac:(lia) Hne rank 0%nat
                  ltac:(lia)) as Hs.
    rewrite Nat2Z.id. change (Z.of_nat 0) with 0 in Hs.
    rewrite Ev in Hs. rewrite Hs. cbn [fmap option_fmap option_map].
    rewrite IH by lia. cbn [fmap list_fmap seq option_fmap option_map].
    unfold bounding_box at 2. now rewrite Ev.
Qed.

End FindObjectsFacts.

Section FindObjectsResult.

Context {np : NumPy}.

(** [Py_FindObjects] computes the bounding boxes of the specification,
    whatever [max_label] is, when the input converts, no allocation fails
    and no error is pending. *)
Lemma Py_FindObjects_refines (object : PyObject) (max_label : Z)
    (w w1 : World) (ip : loc) (inp : PyArrayObject) :
  NI_ObjectToInputArray object w = Done (Some ip) w1 ->
  heap w1 !! ip = Some inp ->
  Forall (Z.le 0) (dimensions inp) ->
  mem w1 = [] ->
  err w1 = None ->
  Py_FindObjects NI_FindObjects_spec object max_label w
  = Done (Some (PyList (bounding_boxes inp max_label))) w1.
Proof.
  intros Hin Hp Hd Hm He. unfold Py_FindObjects. open_bind.
  rewrite Hin, (deref_at _ _ _ Hp). cbv zeta.
  destruct (0 <? max_label) eqn:Epos.
  - apply Z.ltb_lt in Epos.
    replace (max_label <? 0) with false by (symmetry; apply Z.ltb_ge; lia).
    assert (Epos' : (0 <? max_label) = true) by (apply Z.ltb_lt; lia).
    rewrite Epos', request_quiet by assumption.
    cbn [fmap option_fmap option_map].
    change ((NI_FindObjects_spec inp max_label).1) with 1.
    cbn [Z.eqb]. unfold PyList_New.
    rewrite PyTuple_New_quiet by (assumption || lia).
    pose proof (Py_FindObjects_items_boxes inp max_label w1 Hm Hd
                  (Z.to_nat max_label) 0%nat ltac:(lia)) as Hitems.
    unfold PyArray_NDIM. change (Z.of_nat 0) with 0 in Hitems.
    rewrite Hitems. cbn [fmap option_fmap option_map].
    now rewrite PyErr_Occurred_clear.
  - apply Z.ltb_ge in Epos.
    assert ((if max_label <? 0 then 0 else max_label) = 0) as ->.
    { destruct (max_label <? 0) eqn:E; [reflexivity|].
      apply Z.ltb_ge in E. lia. }
    unfold bounding_boxes. replace (Z.to_nat max_label) with 0%nat by lia.
    cbn [Z.ltb Z.compare]. change ((NI_FindObjects_spec inp 0).1) with 1.
    cbn [Z.eqb]. unfold PyList_New.
    rewrite PyTuple_New_quiet by (assumption || lia).
    change (Z.to_nat 0) with 0%nat. cbn [Py_FindObjects_items]. open_bind.
    cbn [fmap option_fmap option_map list_fmap seq].
    now rewrite PyErr_Occurred_clear.
Qed.

Lemma bounding_boxes_length (inp : PyArrayObject) (max_label : Z) :
  length (bounding_boxes inp max_label) = Z.to_nat max_label.
Proof. unfold bounding_boxes. now rewrite length_fmap, length_seq. Qed.

Lemma bounding_boxes_lookup (inp : PyArrayObject) (max_label : Z) (l : nat) :
  (l < Z.to_nat max_label)%nat ->
  bounding_boxes inp max_label !! l = Some (bounding_box inp (Z.of_nat l + 1)).
Proof.
  intros Hl. unfold bounding_boxes.
  now rewrite list_lookup_fmap, lookup_seq_lt by lia.
Qed.

Lemma bounding_box_absent (inp : PyArrayObject) (label : Z) :
  bounding_box inp label = Py_None <-> voxels inp label = [].
Proof.
  unfold bounding_box. destruct (voxels inp label); split; congruence.
Qed.

(** C10.  For a [max_label] that is zero or negative, [Py_FindObjects]
    succeeds and returns the empty list, whatever the labelled input is:
    a negative [max_label] is replaced by zero, and the kernel is asked
    for no label. *)
Theorem Py_FindObjects_nonpositive
    (NI_FindObjects : PyArrayObject -> Z -> Z * list Z)
    (object : PyObject) (max_label : Z)
    (w w1 : World) (ip : loc) (inp : PyArrayObject) :
  max_label <= 0 ->
  NI_ObjectToInputArray object w = Done (Some ip) w1 ->
  heap w1 !! ip = Some inp ->
  (NI_FindObjects inp 0).1 <> 0 ->
  err w1 = None ->
  granted w1 = true ->
  Py_FindObjects NI_FindObjects object max_label w
  = Done (Some (PyList [])) (set_mem (tl (mem w1)) w1).
Proof.
  intros Hle Hin Hp Hk He Hg. unfold Py_FindObjects. open_bind.
  rewrite Hin, (deref_at _ _ _ Hp). cbv zeta.
  assert ((if max_label <? 0 then 0 else max_label) = 0) as ->.
  { destruct (max_label <? 0) eqn:E; [reflexivity|].
    apply Z.ltb_ge in E. lia. }
  cbn [Z.ltb Z.compare].
  replace ((NI_FindObjects inp 0).1 =? 0) with false
    by (symmetry; now apply Z.eqb_neq).
  unfold PyList_New, PyTuple_New. cbn [Z.ltb Z.compare].
  open_bind. unfold request. rewrite Hg.
  change (Z.to_nat 0) with 0%nat. cbn [Py_FindObjects_items]. open_bind.
  cbn [fmap option_fmap option_map].
  unfold PyErr_Occurred. cbn [err set_mem]. now rewrite He.
Qed.

End FindObjectsResult.

Lemma Py_FindObjects_nonpositive_witness :
  @Py_FindObjects numpy_lp64 NI_FindObjects_spec (PyArrayRef 1) (-3)
    (world_of labelled)
  = Done (Some (PyList []))
      (set_mem (tl (mem (world_of labelled))) (world_of labelled)).
Proof.
  apply (@Py_FindObjects_nonpositive numpy_lp64 NI_FindObjects_spec _ _ _ _
           1%positive labelled); (lia || reflexivity || discriminate).
Defined.

(** C6.  On the labelled array [[0,1,1],[0,0,2]], [Py_FindObjects] with
    [max_label = 2] returns the list of the bounding box of label 1 (rows
    0 to 1, columns 1 to 3) and of label 2 (rows 1 to 2, columns 2 to 3);
    with [max_label = 3] the list has a third entry, [None].  In general
    the result is the list of the bounding boxes of the labels 1 to
    [max_label], in label order: it has [max_label] entries, and the entry
    of a label is [None] exactly when the label has no voxel. *)
Theorem Py_FindObjects_bounding_boxes :
  @Py_FindObjects numpy_lp64 NI_FindObjects_spec (PyArrayRef 1) 2 (world_of labelled)
  = Done (Some (PyList
        [PyTuple [PySlice (PyLong 0) (PyLong 1) Py_None;
                  PySlice (PyLong 1) (PyLong 3) Py_None];
         PyTuple [PySlice (PyLong 1) (PyLong 2) Py_None;
                  PySlice (PyLong 2) (PyLong 3) Py_None]]))
      (world_of labelled)
  /\ @Py_FindObjects numpy_lp64 NI_FindObjects_spec (PyArrayRef 1) 3
       (world_of labelled)
     = Done (Some (PyList
           [PyTuple [PySlice (PyLong 0) (PyLong 1) Py_None;
                     PySlice (PyLong 1) (PyLong 3) Py_None];
            PyTuple [PySlice (PyLong 1) (PyLong 2) Py_None;
                     PySlice (PyLong 2) (PyLong 3) Py_None];
            Py_None]))
         (world_of labelled)
  /\ forall (np : NumPy) (object : PyObject) (max_label : Z)
       (w w1 : World) (ip : loc) (inp : PyArrayObject),
       0 <= max_label ->
       NI_ObjectToInputArray object w = Done (Some ip) w1 ->
       heap w1 !! ip = Some inp ->
       Forall (Z.le 0) (dimensions inp) ->
       mem w1 = [] ->
       err w1 = None ->
       exists items,
         Py_FindObjects NI_FindObjects_spec object max_label w
         = Done (Some (PyList items)) w1
         /\ Z.of_nat (length items) = max_label
         /\ forall l : nat, (Z.of_nat l < max_label) ->
              items !! l = Some (bounding_box inp (Z.of_nat l + 1))
              /\ (items !! l = Some Py_None <-> voxels inp (Z.of_nat l + 1) = []).
Proof.
  split; [reflexivity|]. split; [reflexivity|].
  intros np object max_label w w1 ip inp Hpos Hin Hp Hd Hm He.
  exists (bounding_boxes inp max_label).
  split; [eapply Py_FindObjects_refines; eassumption|].
  split; [rewrite bounding_boxes_length; lia|].
  intros l Hl. rewrite bounding_boxes_lookup by lia.
  split; [reflexivity|]. rewrite <- bounding_box_absent.
  split; congruence.
Qed.

Lemma Py_FindObjects_bounding_boxes_witness :
  exists items,
    @Py_FindObjects numpy_lp64 NI_FindObjects_spec (PyArrayRef 1) 3
       (world_of labelled)
    = Done (Some (PyList items)) (world_of labelled)
    /\ Z.of_nat (length items) = 3
    /\ forall l : nat, (Z.of_nat l < 3) ->
         items !! l = Some (bounding_box labelled (Z.of_nat l + 1))
         /\ (items !! l = Some Py_None <-> voxels labelled (Z.of_nat l + 1) = []).
Proof.
  apply (proj2 (proj2 Py_FindObjects_bounding_boxes) numpy_lp64 (PyArrayRef 1) 3
           (world_of labelled) (world_of labelled) 1%positive labelled).
  - lia.
  - reflexivity.
  - reflexivity.
  - repeat constructor; discriminate.
  - reflexivity.
  - reflexivity.
Defined.

(** ** Steps that stay inside the file *)

Lemma internal_ret {A} (a : A) : internal (mret a : M A).
Proof. now intros w. Qed.

Lemma internal_crash {A} : internal (@crash A).
Proof. now intros w. Qed.

Lemma internal_bind {A B} (m : M A) (k : A -> M B) :
  internal m -> (forall a, internal (k a)) -> internal (m ≫= k).
Proof.
  intros Hm Hk w. unfold mbind, M_bind, bindM.
  destruct (Hm w) as [Ht Hl]. destruct (m w) as [a w'|w']; simpl in *.
  - destruct (Hk a w') as [Ht' Hl']. split; congruence.
  - now split.
Qed.

Lemma internal_request : internal request.
Proof. now intros w. Qed.

Lemma internal_deref (p : loc) : internal (deref p).
Proof. intros w. unfold deref. now destruct (heap w !! p). Qed.

Lemma internal_update (p : loc) (f : PyArrayObject -> PyArrayObject) :
  internal (update p f).
Proof. intros w. unfold update. now destruct (heap w !! p). Qed.

Lemma internal_new_object (a : PyArrayObject) : internal (new_object a).
Proof. now intros w. Qed.

Lemma internal_PyErr_SetString (e : PyExc) (msg : string) :
  internal (PyErr_SetString e msg).
Proof. now intros w. Qed.

Lemma internal_PyErr_NoMemory : internal PyErr_NoMemory.
Proof. now intros w. Qed.

Lemma internal_PyErr_Occurred : internal PyErr_Occurred.
Proof. now intros w. Qed.

Lemma internal_PyErr_Clear : internal PyErr_Clear.
Proof. now intros w. Qed.

Lemma internal_PyFloat_AsDouble (o : option PyObject) :
  internal (PyFloat_AsDouble o).
Proof.
  intros w. unfold PyFloat_AsDouble. now destruct (to_double (heap w) o).
Qed.

Create HintDb internal.
#[export] Hint Resolve internal_request internal_deref internal_update
  internal_new_object internal_PyErr_SetString internal_PyErr_NoMemory
  internal_PyErr_Occurred internal_PyErr_Clear internal_PyFloat_AsDouble
  : internal.

(** Walks through a monadic term, one bind or one case distinction at a
    time. *)
Ltac internal_step :=
  first
    [ apply internal_ret
    | apply internal_crash
    | solve [auto with internal]
    | apply internal_bind; [|intros ?]
    | match goal with
      | |- internal (match ?x with _ => _ end) => destruct x
      | |- internal (let _ := _ in _) => cbv zeta
      end ].
Ltac internal := repeat internal_step.

Lemma internal_allocate (o : PyObject) : internal (allocate o).
Proof. unfold allocate. internal. Qed.

Lemma internal_PyTuple_New (n : Z) : internal (PyTuple_New n).
Proof. unfold PyTuple_New. internal. Qed.

Lemma internal_PyArray_NewFromDescr (d : PyArray_Descr) (dims : list Z) :
  internal (PyArray_NewFromDescr d dims).
Proof. unfold PyArray_NewFromDescr. internal. Qed.

#[export] Hint Resolve internal_allocate internal_PyTuple_New
  internal_PyArray_NewFromDescr : internal.

Lemma internal_NA_NewArray (buffer : option (list scalar)) (type : Z) (shape : list Z) :
  internal (NA_NewArray buffer type shape).
Proof. unfold NA_NewArray, NA_NewAll, NA_NewAllFromBuffer. internal. Qed.

Lemma internal_PySequence_Concat (s o : PyObject) :
  internal (PySequence_Concat s o).
Proof. unfold PySequence_Concat. internal. Qed.

Lemma internal_PyTuple_GetItem (o : PyObject) (ii : Z) :
  internal (PyTuple_GetItem o ii).
Proof. unfold PyTuple_GetItem. internal. Qed.

#[export] Hint Resolve internal_NA_NewArray internal_PySequence_Concat
  internal_PyTuple_GetItem : internal.

Section InternalAdapters.

Context {np : NumPy}.

Lemma internal_PyArray_FromArray (p : loc) (d : PyArray_Descr) (requires : Z) :
  internal (PyArray_FromArray p d requires).
Proof.
  unfold PyArray_FromArray, PyArray_SetUpdateIfCopyBase. internal.
Qed.

Lemma internal_NA_InputArray (a : PyObject) (t requires : Z) :
  internal (NA_InputArray a t requires).
Proof.
  pose proof internal_PyArray_FromArray.
  unfold NA_InputArray, PyArray_CheckFromAny, PyArray_FromAny. internal.
Qed.

Lemma internal_NA_IoArray (a : PyObject) (t requires : Z) :
  internal (NA_IoArray a t requires).
Proof. pose proof internal_NA_InputArray. unfold NA_IoArray. internal. Qed.

Lemma internal_NI_ObjectToLongSequence (object : PyObject) :
  internal (NI_ObjectToLongSequence object).
Proof.
  pose proof internal_NA_InputArray.
  unfold NI_ObjectToLongSequence, NI_ObjectToLongSequenceAndLength. internal.
Qed.

End InternalAdapters.

(** ** Steps that leave the objects of the store alone *)

Lemma extends_refl (w : World) : extends w w.
Proof. now intros r obj. Qed.

Lemma extends_trans (w1 w2 w3 : World) :
  extends w1 w2 -> extends w2 w3 -> extends w1 w3.
Proof. intros H1 H2 r obj H. now apply H2, H1. Qed.

Lemma extends_unused (w w' : World) (q : loc) :
  extends w w' -> heap w' !! q = None -> heap w !! q = None.
Proof.
  intros H Hq. destruct (heap w !! q) as [x|] eqn:E; [|reflexivity].
  apply H in E. congruence.
Qed.

Section KeptFacts.

Context {np : NumPy}.

Lemma store_kept_extends (io : PyObject) (w w' : World) :
  extends w w' -> store_kept io w w'.
Proof. intros H p arr Hp. left. now apply H. Qed.

Lemma store_kept_then (io : PyObject) (w1 w2 w3 : World) :
  store_kept io w1 w2 -> extends w2 w3 -> store_kept io w1 w3.
Proof.
  intros H1 H2 p arr Hp. destruct (H1 p arr Hp) as [H|[-> [Hp' (q & s & Hq & Hq' & H)]]].
  - left. now apply H2.
  - right. split; [reflexivity|]. split; [now apply H2|].
    exists q, s. split; [exact Hq|]. split; [now apply H2|exact H].
Qed.

Lemma store_kept_after (io : PyObject) (w1 w2 w3 : World) :
  extends w1 w2 -> store_kept io w2 w3 -> store_kept io w1 w3.
Proof.
  intros H1 H2 p arr Hp.
  destruct (H2 p arr (H1 _ _ Hp)) as [H|[-> [Hp' (q & s & Hq & H)]]].
  - now left.
  - right. split; [reflexivity|]. split; [exact Hp'|].
    exists q, s. split; [now apply extends_unused with w2|exact H].
Qed.

End KeptFacts.

Lemma frames_ret {A} (a : A) : frames (mret a : M A).
Proof. intros w. apply extends_refl. Qed.

Lemma frames_crash {A} : frames (@crash A).
Proof. intros w. apply extends_refl. Qed.

Lemma frames_bind {A B} (m : M A) (k : A -> M B) :
  frames m -> (forall a, frames (k a)) -> frames (m ≫= k).
Proof.
  intros Hm Hk w. unfold mbind, M_bind, bindM.
  specialize (Hm w). destruct (m w) as [a w'|w']; simpl in *; [|exact Hm].
  apply extends_trans with w'; [exact Hm|apply Hk].
Qed.

Section KeepsFacts.

Context {np : NumPy}.

Lemma keeps_frames {A} (io : PyObject) (m : M A) : frames m -> keeps io m.
Proof. intros H w. apply store_kept_extends, H. Qed.

Lemma keeps_bind {A B} (io : PyObject) (m : M A) (k : A -> M B) :
  keeps io m -> (forall a, frames (k a)) -> keeps io (m ≫= k).
Proof.
  intros Hm Hk w. unfold mbind, M_bind, bindM.
  specialize (Hm w). destruct (m w) as [a w'|w']; simpl in *; [|exact Hm].
  apply store_kept_then with w'; [exact Hm|apply Hk].
Qed.

Lemma keeps_after {A B} (io : PyObject) (m : M A) (k : A -> M B) :
  frames m -> (forall a, keeps io (k a)) -> keeps io (m ≫= k).
Proof.
  intros Hm Hk w. unfold mbind, M_bind, bindM.
  specialize (Hm w). destruct (m w) as [a w'|w']; simpl in *.
  - apply store_kept_after with w'; [exact Hm|apply Hk].
  - apply store_kept_extends, Hm.
Qed.

End KeepsFacts.

Lemma frames_request : frames request.
Proof. now intros w r obj. Qed.

Lemma frames_deref (p : loc) : frames (deref p).
Proof. intros w. unfold deref. destruct (heap w !! p); apply extends_refl. Qed.

Lemma frames_new_object (a : PyArrayObject) : frames (new_object a).
Proof.
  intros w r obj Hr. simpl.
  rewrite lookup_insert_ne; [exact Hr|].
  intros <-. rewrite fresh_unused in Hr. discriminate.
Qed.

Lemma frames_PyErr_SetString (e : PyExc) (msg : string) :
  frames (PyErr_SetString e msg).
Proof. now intros w r obj. Qed.

Lemma frames_PyErr_NoMemory : frames PyErr_NoMemory.
Proof. now intros w r obj. Qed.

Lemma frames_PyErr_Occurred : frames PyErr_Occurred.
Proof. now intros w r obj. Qed.

Lemma frames_PyErr_Clear : frames PyErr_Clear.
Proof. now intros w r obj. Qed.

(** Walks through a monadic term as [internal] does. *)
Create HintDb frames.
#[export] Hint Resolve frames_request frames_deref frames_new_object
  frames_PyErr_SetString frames_PyErr_NoMemory frames_PyErr_Occurred
  frames_PyErr_Clear : frames.

Ltac frames_step :=
  first
    [ apply frames_ret
    | apply frames_crash
    | solve [auto with frames]
    | apply frames_bind; [|intros ?]
    | match goal with
      | |- frames (match ?x with _ => _ end) => destruct x
      | |- frames (let _ := _ in _) => cbv zeta
      end ].
Ltac frames := repeat frames_step.

(** A new array and the writes into it. *)
Lemma frames_new_array (d : PyArray_Descr) (dims : list Z)
    (f : PyArrayObject -> PyArrayObject) :
  frames (r ← PyArray_NewFromDescr d dims;
          match r with
          | None => mret None
          | Some q => _ ← update q f; mret (Some q)
          end).
Proof.
  intros w. unfold PyArray_NewFromDescr, request. run_bind.
  destruct (granted w); simpl; [|now intros r obj].
  unfold new_object. simpl.
  erewrite update_at by (simpl; apply lookup_insert_eq). simpl.
  intros r obj Hr. simpl. rewrite !lookup_insert_ne; [exact Hr| |];
    intros <-; rewrite fresh_unused in Hr; discriminate.
Qed.

Section FramedAdapters.

Context {np : NumPy}.

Lemma frames_PyArray_FromArray (p : loc) (d : PyArray_Descr) (requires : Z) :
  has requires NPY_ARRAY_UPDATEIFCOPY = false ->
  frames (PyArray_FromArray p d requires).
Proof.
  intros Hu. unfold PyArray_FromArray. rewrite Hu.
  apply frames_bind; [apply frames_deref|intros a].
  destruct (needs_copy a d requires); [|apply frames_ret].
  destruct (converted a d) as [c|]; [|frames].
  apply frames_new_array.
Qed.

Lemma frames_NA_InputArray (a : PyObject) (t requires : Z) :
  has requires NPY_ARRAY_UPDATEIFCOPY = false ->
  frames (NA_InputArray a t requires).
Proof.
  intros Hu.
  pose proof (fun p d => frames_PyArray_FromArray p d requires Hu) as HF.
  pose proof frames_new_array as HN.
  unfold NA_InputArray, PyArray_CheckFromAny, PyArray_FromAny. rewrite Hu.
  frames.
Qed.

Lemma keeps_PyArray_FromArray (p : loc) (d : PyArray_Descr) (requires : Z) :
  keeps (PyArrayRef p) (PyArray_FromArray p d requires).
Proof.
  destruct (has requires NPY_ARRAY_UPDATEIFCOPY) eqn:Hu;
    [|now apply keeps_frames, frames_PyArray_FromArray].
  intros w.
  destruct (heap w !! p) as [a|] eqn:Hp.
  2:{ unfold PyArray_FromArray, deref. run_bind. rewrite Hp.
      apply store_kept_extends, extends_refl. }
  destruct (needs_copy a d requires) eqn:Hn.
  2:{ rewrite (PyArray_FromArray_same _ _ a) by assumption.
      apply store_kept_extends, extends_refl. }
  pose proof (fresh_unused (heap w)) as Hq.
  set (q := fresh (dom (heap w))) in *.
  assert (Hpq : q <> p) by (intros ->; congruence).
  unfold PyArray_FromArray. run_bind.
  rewrite (deref_at _ _ _ Hp), Hn.
  destruct (converted a d) as [c|] eqn:Hc; simpl;
    [|apply store_kept_extends; now intros r obj].
  unfold PyArray_NewFromDescr, request. run_bind.
  destruct (granted w); simpl; [|apply store_kept_extends; now intros r obj].
  unfold new_object. simpl. fold q.
  erewrite update_at by (simpl; apply lookup_insert_eq). simpl.
  rewrite Hu. unfold PyArray_SetUpdateIfCopyBase. run_bind.
  erewrite deref_at
    by (simpl; rewrite !lookup_insert_ne by exact Hpq; exact Hp).
  destruct (PyArray_ISWRITEABLE a) eqn:Hw; simpl.
  - erewrite update_at by (simpl; apply lookup_insert_eq). simpl.
    erewrite update_at by (simpl; apply lookup_insert_eq). simpl.
    erewrite update_at
      by (simpl; rewrite !lookup_insert_ne by exact Hpq; exact Hp).
    simpl. intros r obj Hr. simpl.
    destruct (decide (r = p)) as [->|Hrp].
    + right. split; [reflexivity|].
      assert (obj = a) as -> by congruence.
      unfold pending_write_back. simpl.
      split; [apply lookup_insert_eq|].
      eexists q, _. split; [exact Hq|].
      split; [rewrite lookup_insert_ne by congruence; apply lookup_insert_eq|].
      simpl. split; [reflexivity|]. split; [now apply has_lor_set|].
      split; [reflexivity|assumption].
    + left. rewrite !lookup_insert_ne; [exact Hr|..]; congruence.
  - apply store_kept_extends. intros r obj Hr. simpl.
    rewrite !lookup_insert_ne; [exact Hr|..]; congruence.
Qed.

Lemma keeps_NA_InputArray (a : PyObject) (t requires : Z) :
  keeps a (NA_InputArray a t requires).
Proof.
  destruct (has requires NPY_ARRAY_UPDATEIFCOPY) eqn:Hu;
    [|now apply keeps_frames, frames_NA_InputArray].
  assert (Harr : forall p d, keeps (PyArrayRef p)
                   (PyArray_FromAny (PyArrayRef p) d requires)).
  { intros p d. unfold PyArray_FromAny.
    apply keeps_after; [apply frames_deref|intros arr].
    apply keeps_PyArray_FromArray. }
  assert (Hother : forall d, match a with PyArrayRef _ => True
                   | _ => frames (PyArray_FromAny a d requires) end).
  { intros d. destruct a; try exact I; unfold PyArray_FromAny; rewrite Hu; frames. }
  unfold NA_InputArray, PyArray_CheckFromAny.
  destruct (has requires NPY_ARRAY_NOTSWAPPED).
  - destruct (t =? NPY_NOTYPE).
    + destruct a; try (apply keeps_frames, (Hother None)).
      apply keeps_after; [apply frames_deref|intros arr].
      destruct (PyArray_ISBYTESWAPPED arr); apply Harr.
    + destruct a; try (apply keeps_frames, (Hother (Some _))). apply Harr.
  - destruct a; try (apply keeps_frames, (Hother _)). apply Harr.
Qed.

Lemma keeps_NA_IoArray (a : PyObject) (t requires : Z) :
  keeps a (NA_IoArray a t requires).
Proof.
  unfold NA_IoArray. apply keeps_bind; [apply keeps_NA_InputArray|].
  intros s. frames.
Qed.

Lemma frames_NI_ObjectToLongSequence (object : PyObject) :
  frames (NI_ObjectToLongSequence object).
Proof.
  pose proof (frames_NA_InputArray object NPY_INTP NPY_ARRAY_CARRAY eq_refl).
  unfold NI_ObjectToLongSequence, NI_ObjectToLongSequenceAndLength. frames.
Qed.

Lemma frames_wrapper_exit : frames wrapper_exit.
Proof. unfold wrapper_exit. frames. Qed.

End FramedAdapters.

(** ** The erosion handle *)

Section Resume.

Context {np : NumPy}.

Variable kernel : loc -> loc -> option loc -> Z -> list Z -> Z -> option loc -> M Z.

Lemma internal_wrapper_exit : internal wrapper_exit.
Proof. unfold wrapper_exit. internal. Qed.

Lemma Py_BinaryErosion2_not_capsule_internal
    (array strct mask : PyObject) (niter : Z) (origins : PyObject)
    (invert : Z) (cobj : PyObject) :
  NpyCapsule_Check cobj = false ->
  internal (Py_BinaryErosion2 kernel array strct mask niter origins invert cobj).
Proof.
  intros Hc.
  pose proof (@internal_NA_InputArray np).
  pose proof (@internal_NA_IoArray np).
  pose proof (@internal_NI_ObjectToLongSequence np).
  pose proof internal_wrapper_exit.
  unfold Py_BinaryErosion2, NI_ObjectToIoArray, NI_ObjectToInputArray,
    NI_ObjectToOptionalInputArray.
  rewrite Hc. internal.
Qed.

Lemma Py_BinaryErosion2_not_capsule_keeps
    (array strct mask : PyObject) (niter : Z) (origins : PyObject)
    (invert : Z) (cobj : PyObject) :
  NpyCapsule_Check cobj = false ->
  keeps array (Py_BinaryErosion2 kernel array strct mask niter origins invert cobj).
Proof.
  intros Hc.
  pose proof (fun a => frames_NA_InputArray a NPY_NOTYPE
                         (Z.lor NPY_ARRAY_ALIGNED NPY_ARRAY_NOTSWAPPED) eq_refl).
  pose proof (@frames_NI_ObjectToLongSequence np).
  unfold Py_BinaryErosion2.
  apply keeps_bind; [|intros _; apply frames_wrapper_exit].
  apply keeps_bind; [apply keeps_NA_IoArray|]. intros a.
  unfold NI_ObjectToInputArray, NI_ObjectToOptionalInputArray.
  rewrite Hc. frames.
Qed.

(** C9, as amended.  When the handle is not a capsule object,
    [Py_BinaryErosion2] mutates no state, whatever the other arguments
    are: it never calls the kernel, it never touches the state of the
    engine, and every array of the store is as it was, the one exception
    being the array given as in/out argument when it needs a shadow, which
    has lent its write permission to a shadow that holds its own elements
    and is marked for write-back, until the shadow is released.  Once the
    other arguments have been converted, it returns [NULL] with the
    runtime error "cannot convert CObject". *)
Theorem Py_BinaryErosion2_not_capsule
    (array strct mask : PyObject) (niter : Z) (origins : PyObject)
    (invert : Z) (cobj : PyObject) (w : World) :
  NpyCapsule_Check cobj = false ->
  let r := Py_BinaryErosion2 kernel array strct mask niter origins invert cobj w in
  trace (final r) = trace w
  /\ lists (final r) = lists w
  /\ store_kept array w (final r)
  /\ forall (a s : loc) (m : option loc) (o : list Z) (w1 w2 w3 w4 : World),
       NI_ObjectToIoArray array w = Done (Some a) w1 ->
       NI_ObjectToInputArray strct w1 = Done (Some s) w2 ->
       NI_ObjectToOptionalInputArray mask w2 = Done (true, m) w3 ->
       NI_ObjectToLongSequence origins w3 = Done (true, Some o) w4 ->
       r = Done None (set_err cannot_convert w4).
Proof.
  intros Hc r.
  destruct (Py_BinaryErosion2_not_capsule_internal array strct mask niter
              origins invert cobj Hc w) as [Ht Hl].
  split; [exact Ht|]. split; [exact Hl|].
  split; [now apply Py_BinaryErosion2_not_capsule_keeps|].
  intros a s m o w1 w2 w3 w4 H1 H2 H3 H4.
  unfold r, Py_BinaryErosion2. open_bind.
  rewrite H1, H2, H3. cbn [fst snd negb]. rewrite H4, Hc. reflexivity.
Qed.

End Resume.

Lemma Py_BinaryErosion2_not_capsule_witness :
  let w := world_of swapped_long in
  let r := @Py_BinaryErosion2 numpy_lp64 idle_kernel (PyArrayRef 1) (PyArrayRef 1)
             Py_None 1 (PyList [PyLong 0]) 0 Py_None w in
  trace (final r) = trace w /\ lists (final r) = lists w
  /\ @store_kept numpy_lp64 (PyArrayRef 1) w (final r)
  /\ exists w4, r = Done None (set_err cannot_convert w4).
Proof.
  intros w r.
  destruct (@Py_BinaryErosion2_not_capsule numpy_lp64 idle_kernel (PyArrayRef 1)
              (PyArrayRef 1) Py_None 1 (PyList [PyLong 0]) 0 Py_None w eq_refl)
    as (Ht & Hl & Hs & Hr).
  split; [exact Ht|]. split; [exact Hl|]. split; [exact Hs|].
  eexists. eapply Hr; reflexivity.
Defined.

(** C9, as stated, fails on a capsule that is no erosion handle: a capsule
    from elsewhere, whose pointer is not a coordinate list of the engine,
    passes the check, no error is raised, and the kernel is called on its
    pointer. *)
Lemma Py_BinaryErosion2_foreign_capsule :
  let w := world_of canonical_long in
  let r := @Py_BinaryErosion2 numpy_lp64 idle_kernel (PyArrayRef 1) (PyArrayRef 1)
             Py_None 1 (PyList [PyLong 0]) 0 (PyCapsule None 9) w in
  lists w !! 9%positive = None
  /\ trace (final r) = [EvBinaryErosion2 (Some 9%positive)]
  /\ err (final r) = None
  /\ exists w', r = Done (Some Py_None) w'.
Proof. repeat split. eexists. reflexivity. Qed.

(** ** The trampolines: what the callable is called with *)

Lemma allocate_cases (o : PyObject) (w : World) :
  exists w1,
    allocate o w = Done (if granted w then Some o else None) w1
    /\ trace w1 = trace w /\ heap w1 = heap w /\ mem w1 = tl (mem w)
    /\ (granted w = true -> err w1 = err w).
Proof.
  unfold allocate, request, PyErr_NoMemory, PyErr_SetString. open_bind.
  destruct (granted w); eexists; (split; [reflexivity|]); simpl; auto.
  repeat split. discriminate.
Qed.

Lemma NA_NewArray_cases (shape : Z) (buffer : option (list scalar)) (w : World) :
  let d : list scalar :=
    match buffer with
    | Some b => take (Z.to_nat shape) b
    | None => replicate (Z.to_nat shape) (SDouble 0%float)
    end in
  exists w1,
    trace w1 = trace w /\ mem w1 = tl (mem w)
    /\ if granted w then
         NA_NewArray buffer NPY_DOUBLE [shape] w
         = Done (Some (fresh (dom (heap w)))) w1
         /\ heap w1 = <[fresh (dom (heap w)) := window shape d]> (heap w)
         /\ err w1 = err w
       else
         NA_NewArray buffer NPY_DOUBLE [shape] w = Done None w1
         /\ heap w1 = heap w.
Proof.
  intros d.
  unfold NA_NewArray, NA_NewAll, NA_NewAllFromBuffer, PyArray_NewFromDescr,
    request, new_object. open_bind.
  destruct (granted w) eqn:Hg; cbn [Z.eqb NPY_DOUBLE NPY_NOTYPE Pos.eqb].
  - set (q := fresh (dom (heap w))).
    destruct buffer as [b|].
    + erewrite update_at by (simpl; apply lookup_insert_eq).
      eexists. split; [|split]; [..|split; [reflexivity|]]; try reflexivity.
      split; [|reflexivity]. simpl. rewrite insert_insert_eq. f_equal.
      unfold window, canonical, set_data. simpl. f_equal.
      now rewrite length_replicate, Z.mul_1_r.
    + erewrite update_at by (simpl; apply lookup_insert_eq).
      eexists. split; [|split]; [..|split; [reflexivity|]]; try reflexivity.
      split; [|reflexivity]. simpl. rewrite insert_insert_eq. f_equal.
      unfold window, canonical, set_data. simpl. f_equal.
      now rewrite length_replicate, Z.mul_1_r.
  - eexists. split; [|split]; [..|split; reflexivity]; reflexivity.
Qed.

Lemma granted_quiet (w : World) : mem w = [] -> granted w = true.
Proof. intros H. unfold granted. now rewrite H. Qed.

Lemma quiet_tail (w w1 : World) : mem w = [] -> mem w1 = tl (mem w) -> mem w1 = [].
Proof. intros H H1. now rewrite H1, H. Qed.

(** The trace after [PyObject_Call] and a continuation that stays inside
    the file. *)
Lemma call_then_internal {A B} (f : PyCallable) (items : list PyObject)
    (kwds : PyObject) (k : option PyObject -> M A) (k' : A -> M B) (w : World) :
  (forall r, internal (k r ≫= k')) ->
  trace (final (((PyObject_Call f (PyTuple items) kwds ≫= k) ≫= k') w))
  = trace w ++ [EvCallable items kwds (heap w)].
Proof.
  intros Hk. unfold PyObject_Call, emit, run_callable.
  unfold mbind, M_bind, bindM in *. cbn.
  destruct (f items kwds (heap w)) as [[v|e] h].
  - now rewrite (proj1 (Hk _ _)).
  - now rewrite (proj1 (Hk _ _)).
Qed.

Lemma internal_status_at_exit {A} (out : A) : internal (status_at_exit out).
Proof. unfold status_at_exit. internal. Qed.

#[export] Hint Resolve internal_status_at_exit : internal.

Section TrampolineCalls.

Variable callback : ccallback_t.
Variable extras : list PyObject.
Hypothesis extras_tuple : extra_arguments (info_p callback) = PyTuple extras.

Local Abbreviation kwds := (extra_keywords (info_p callback)).

Lemma Py_FilterFunc_call (buffer : list double) (filter_size : Z) (w : World) :
  let w' := final (Py_FilterFunc buffer filter_size callback w) in
  at_most_one (Filter_call buffer filter_size extras kwds) w w'
  /\ (mem w = [] -> exactly_one (Filter_call buffer filter_size extras kwds) w w').
Proof.
  cbv zeta. unfold at_most_one, exactly_one, Py_FilterFunc.
  rewrite extras_tuple.
  destruct (NA_NewArray_cases filter_size (Some (SDouble <$> buffer)) w)
    as (w1 & Ht1 & Hm1 & H1).
  destruct (allocate_cases
              (PyTuple [PyArrayRef (fresh (dom (heap w)))]) w1)
    as (w2 & E2 & Ht2 & Hh2 & Hm2 & _).
  destruct (allocate_cases
              (PyTuple ([PyArrayRef (fresh (dom (heap w)))] ++ extras)) w2)
    as (w3 & E3 & Ht3 & Hh3 & Hm3 & _).
  destruct (granted w) eqn:G0.
  2: { destruct H1 as [E1 _]. open_bind. rewrite E1. cbn.
       rewrite (proj1 (internal_status_at_exit _ _)).
       split; [left; exact Ht1|].
       intros Hq. rewrite granted_quiet in G0 by exact Hq. discriminate. }
  destruct H1 as (E1 & Hh1 & _).
  destruct (granted w1) eqn:G1.
  2: { open_bind. rewrite E1. unfold Py_BuildValue. rewrite E2. cbn.
       rewrite (proj1 (internal_status_at_exit _ _)).
       split; [left; congruence|].
       intros Hq. rewrite granted_quiet in G1 by eauto using quiet_tail.
       discriminate. }
  destruct (granted w2) eqn:G2.
  2: { open_bind. rewrite E1. unfold Py_BuildValue. rewrite E2.
       unfold PySequence_Concat. rewrite E3. cbn.
       rewrite (proj1 (internal_status_at_exit _ _)).
       split; [left; congruence|].
       intros Hq. rewrite granted_quiet in G2 by eauto using quiet_tail.
       discriminate. }
  assert (Hone : exactly_one (Filter_call buffer filter_size extras kwds) w
                   (final (Py_FilterFunc buffer filter_size callback w))).
  { unfold exactly_one, Py_FilterFunc. rewrite extras_tuple. open_bind.
    rewrite E1.
    unfold Py_BuildValue. rewrite E2. unfold PySequence_Concat. rewrite E3.
    pose proof (call_then_internal (py_function callback)
                  ([PyArrayRef (fresh (dom (heap w)))] ++ extras) kwds
                  (fun rv => match rv with
                             | None => mret None
                             | Some v => d ← PyFloat_AsDouble (Some v); mret (Some d)
                             end)
                  status_at_exit w3) as Hcall.
    exists (EvCallable ([PyArrayRef (fresh (dom (heap w)))] ++ extras) kwds (heap w3)).
    split.
    - rewrite <- Ht1, <- Ht2, <- Ht3.
      refine (eq_trans _ (Hcall _)); [reflexivity|].
      intros r. destruct r; internal.
    - exists (fresh (dom (heap w))), (heap w3). split; [reflexivity|].
      rewrite Hh3, Hh2, Hh1, lookup_insert_eq. f_equal. f_equal.
      symmetry. apply fmap_take. }
  unfold exactly_one, Py_FilterFunc in Hone. rewrite extras_tuple in Hone.
  split; [right; exact Hone | intros _; exact Hone].
Qed.

Lemma Py_Filter1DFunc_call (iline : list double) (ilen olen : Z) (w : World) :
  let w' := final (Py_Filter1DFunc iline ilen olen callback w) in
  at_most_one (Filter1D_call iline ilen olen extras kwds) w w'
  /\ (mem w = [] -> exactly_one (Filter1D_call iline ilen olen extras kwds) w w').
Proof.
  cbv zeta. unfold at_most_one, exactly_one, Py_Filter1DFunc.
  rewrite extras_tuple.
  destruct (NA_NewArray_cases ilen (Some (SDouble <$> iline)) w)
    as (w1 & Ht1 & Hm1 & H1).
  destruct (NA_NewArray_cases olen None w1) as (w2 & Ht2 & Hm2 & H2).
  set (ib := fresh (dom (heap w))) in *.
  set (ob := fresh (dom (heap w1))) in *.
  destruct (allocate_cases (PyTuple [PyArrayRef ib; PyArrayRef ob]) w2)
    as (w3 & E3 & Ht3 & Hh3 & Hm3 & _).
  destruct (allocate_cases
              (PyTuple ([PyArrayRef ib; PyArrayRef ob] ++ extras)) w3)
    as (w4 & E4 & Ht4 & Hh4 & Hm4 & _).
  destruct (granted w) eqn:G0.
  2: { destruct H1 as [E1 _]. open_bind. rewrite E1.
       destruct (granted w1); destruct H2 as [E2 _]; rewrite E2; cbn;
         rewrite (proj1 (internal_status_at_exit _ _));
         (split; [left; congruence|]);
         intros Hq; rewrite granted_quiet in G0 by exact Hq; discriminate. }
  destruct H1 as (E1 & Hh1 & _).
  destruct (granted w1) eqn:G1.
  2: { destruct H2 as [E2 _]. open_bind. rewrite E1, E2. cbn.
       rewrite (proj1 (internal_status_at_exit _ _)).
       split; [left; congruence|].
       intros Hq. rewrite granted_quiet in G1 by eauto using quiet_tail.
       discriminate. }
  destruct H2 as (E2 & Hh2 & _).
  destruct (granted w2) eqn:G2.
  2: { open_bind. rewrite E1, E2. unfold Py_BuildValue. rewrite E3. cbn.
       rewrite (proj1 (internal_status_at_exit _ _)).
       split; [left; congruence|].
       intros Hq. rewrite granted_quiet in G2 by eauto using quiet_tail.
       discriminate. }
  destruct (granted w3) eqn:G3.
  2: { open_bind. rewrite E1, E2. unfold Py_BuildValue. rewrite E3.
       unfold PySequence_Concat. rewrite E4. cbn.
       rewrite (proj1 (internal_status_at_exit _ _)).
       split; [left; congruence|].
       intros Hq. rewrite granted_quiet in G3 by eauto using quiet_tail.
       discriminate. }
  assert (Hone : exists e,
             trace (final (Py_Filter1DFunc iline ilen olen callback w))
             = trace w ++ [e]
             /\ Filter1D_call iline ilen olen extras kwds e).
  { unfold Py_Filter1DFunc. rewrite extras_tuple. open_bind.
    rewrite E1, E2. unfold Py_BuildValue. rewrite E3.
    unfold PySequence_Concat. rewrite E4.
    pose proof (call_then_internal (py_function callback)
                  ([PyArrayRef ib; PyArrayRef ob] ++ extras) kwds
                  (fun rv => match rv with
                             | None => mret None
                             | Some _ =>
                                 po ← deref ob;
                                 match copy_buffer read_double (data po) olen with
                                 | Some v => mret (Some v)
                                 | None => crash
                                 end
                             end)
                  status_at_exit w4) as Hcall.
    exists (EvCallable ([PyArrayRef ib; PyArrayRef ob] ++ extras) kwds (heap w4)).
    split.
    - rewrite <- Ht1, <- Ht2, <- Ht3, <- Ht4.
      refine (eq_trans _ (Hcall _)); [reflexivity|].
      intros r. destruct r; internal.
    - assert (Hne : ib <> ob).
      { intros Heq. pose proof (fresh_unused (heap w1)) as Hf. fold ob in Hf.
        rewrite <- Heq, Hh1, lookup_insert_eq in Hf. discriminate. }
      exists ib, ob, (heap w4). split; [reflexivity|]. split; [exact Hne|].
      rewrite Hh4, Hh3, Hh2, Hh1.
      split.
      + rewrite lookup_insert_ne by congruence. rewrite lookup_insert_eq.
        f_equal. f_equal. symmetry. apply fmap_take.
      + now rewrite lookup_insert_eq. }
  unfold Py_Filter1DFunc in Hone. rewrite extras_tuple in Hone.
  split; [right; exact Hone | intros _; exact Hone].
Qed.

Lemma Py_Map_coors_cases (ocoor : list Z) (n ii : nat) (w : World) :
  let r := Py_Map_coors ocoor ii n w in
  trace (final r) = trace w
  /\ (forall items w', r = Done (Some items) w' ->
        items = PyLong <$> take n (drop ii ocoor)
        /\ heap w' = heap w /\ mem w' = drop n (mem w))
  /\ (mem w = [] -> err w = None -> (ii + n <= length ocoor)%nat ->
      r = Done (Some (PyLong <$> take n (drop ii ocoor))) w).
Proof.
  revert ii w. induction n as [|n IH]; intros ii w.
  - cbn. split; [reflexivity|]. split.
    + intros its w' [= <- <-]. now split.
    + intros. reflexivity.
  - cbn [Py_Map_coors]. destruct (ocoor !! ii) as [c|] eqn:Ec.
    2: { cbn. repeat split; try discriminate.
         intros _ _ Hlen. apply lookup_ge_None in Ec. lia. }
    rewrite (drop_S _ _ _ Ec). unfold PyLong_FromSsize_t. open_bind.
    destruct (allocate_cases (PyLong c) w) as (w1 & E1 & Ht1 & Hh1 & Hm1 & He1).
    rewrite E1.
    destruct (IH (S ii) w1) as (IHt & IHd & IHq).
    destruct (err w1) as [e|] eqn:Ee.
    { rewrite (PyErr_Occurred_set _ _ Ee). cbn.
      split; [exact Ht1|]. split; [discriminate|].
      intros Hq He. specialize (He1 (granted_quiet _ Hq)). congruence. }
    rewrite (PyErr_Occurred_clear _ Ee).
    destruct (granted w) eqn:G.
    2: { cbn. split; [exact Ht1|]. split; [discriminate|].
         intros Hq. rewrite granted_quiet in G by exact Hq. discriminate. }
    destruct (Py_Map_coors ocoor (S ii) n w1) as [[its|] w2|w2] eqn:Er;
      cbn in *.
    + split; [congruence|]. split.
      * intros its' w' [= <- <-].
        destruct (IHd its w2 eq_refl) as (-> & Hh & Hm).
        split; [reflexivity|]. split; [congruence|].
        rewrite Hm, Hm1. destruct (mem w); [|reflexivity].
        cbn [tail]. now rewrite !drop_nil.
      * intros Hq He Hlen.
        assert (Hq1 : mem w1 = []) by eauto using quiet_tail.
        specialize (IHq Hq1 eq_refl ltac:(lia)). injection IHq as -> ->.
        f_equal. unfold allocate, request in E1. revert E1. open_bind.
        rewrite G. cbn. intros [= <-]. rewrite Hq. cbn.
        now rewrite <- Hq, set_mem_same.
    + split; [congruence|]. split; [discriminate|].
      intros Hq He Hlen.
      assert (Hq1 : mem w1 = []) by eauto using quiet_tail.
      specialize (IHq Hq1 eq_refl ltac:(lia)). discriminate.
    + split; [congruence|]. split; [discriminate|].
      intros Hq He Hlen.
      assert (Hq1 : mem w1 = []) by eauto using quiet_tail.
      specialize (IHq Hq1 eq_refl ltac:(lia)). discriminate.
Qed.

Lemma internal_Py_Map_icoor (rets : PyObject) (n : nat) (ii : Z) :
  internal (Py_Map_icoor rets ii n).
Proof.
  revert ii. induction n as [|n IH]; intros ii; cbn [Py_Map_icoor]; internal.
Qed.

Lemma Py_Map_call (ocoor : list Z) (orank irank : Z) (w : World) :
  let w' := final (Py_Map ocoor orank irank callback w) in
  at_most_one (Map_call ocoor orank extras kwds) w w'
  /\ (mem w = [] -> err w = None -> 0 <= orank <= Z.of_nat (length ocoor) ->
      exactly_one (Map_call ocoor orank extras kwds) w w').
Proof.
  cbv zeta.
  assert (Hcall : forall its w3,
             its = PyLong <$> take (Z.to_nat orank) ocoor ->
             exactly_one (Map_call ocoor orank extras kwds) w3
               (final (((PyObject_Call (py_function callback)
                           (PyTuple ([PyTuple its] ++ extras)) kwds
                         ≫= fun rets =>
                              match rets with
                              | None => mret []
                              | Some rets => Py_Map_icoor rets 0 (Z.to_nat irank)
                              end)
                        ≫= status_at_exit) w3))).
  { intros its w3 ->. eexists. split.
    - apply call_then_internal. intros r. apply internal_bind.
      + destruct r; [apply internal_Py_Map_icoor | apply internal_ret].
      + intros a. apply internal_status_at_exit.
    - eexists. reflexivity. }
  unfold at_most_one, exactly_one in *. unfold Py_Map. rewrite extras_tuple.
  split.
  - open_bind.
    pose proof (proj1 (internal_PyTuple_New orank w)) as Ht0.
    destruct (PyTuple_New orank w) as [[|] w1|w1]; cbn in Ht0.
    2,3: cbn; rewrite ?(proj1 (internal_status_at_exit _ _)); left; congruence.
    destruct (Py_Map_coors_cases ocoor (Z.to_nat orank) 0 w1) as (Ht1 & Hd1 & _).
    destruct (Py_Map_coors ocoor 0 (Z.to_nat orank) w1) as [[its|] w2|w2];
      cbn in Ht1.
    2,3: cbn; rewrite ?(proj1 (internal_status_at_exit _ _)); left; congruence.
    destruct (Hd1 its w2 eq_refl) as (Hits & _). rewrite drop_0 in Hits.
    unfold Py_BuildValue.
    destruct (allocate_cases (PyTuple [PyTuple its]) w2)
      as (w3 & E3 & Ht3 & _). rewrite E3.
    destruct (granted w2).
    2: cbn; rewrite ?(proj1 (internal_status_at_exit _ _)); left; congruence.
    unfold PySequence_Concat.
    destruct (allocate_cases (PyTuple ([PyTuple its] ++ extras)) w3)
      as (w4 & E4 & Ht4 & _). rewrite E4.
    destruct (granted w3).
    2: cbn; rewrite ?(proj1 (internal_status_at_exit _ _)); left; congruence.
    right. destruct (Hcall its w4 Hits) as (e & He & Hc).
    exists e. split; [|exact Hc].
    rewrite <- Ht0, <- Ht1, <- Ht3, <- Ht4. exact He.
  - intros Hq He Hr. open_bind.
    rewrite PyTuple_New_quiet by (assumption || lia).
    destruct (Py_Map_coors_cases ocoor (Z.to_nat orank) 0 w) as (_ & _ & Hc).
    rewrite Hc by (assumption || lia). rewrite drop_0.
    unfold Py_BuildValue, PySequence_Concat.
    rewrite !allocate_quiet by assumption.
    now apply Hcall.
Qed.

End TrampolineCalls.

(** C7.  Through each of the three trampolines the callable is called at
    most once per invocation of the trampoline, and every call has the
    native data first (the input and output windows for
    [Py_Filter1DFunc], the window for [Py_FilterFunc], the tuple of output
    coordinates for [Py_Map]), then exactly the extra positional
    arguments, in order, and exactly the extra keyword arguments.  When
    no allocation fails (and, for [Py_Map], no error is pending and the
    coordinates are there), the call is made. *)
Theorem trampolines_pass_declared_arguments (callback : ccallback_t)
    (extras : list PyObject) :
  extra_arguments (info_p callback) = PyTuple extras ->
  let kwds := extra_keywords (info_p callback) in
  (forall iline ilen olen w,
     let w' := final (Py_Filter1DFunc iline ilen olen callback w) in
     at_most_one (Filter1D_call iline ilen olen extras kwds) w w'
     /\ (mem w = [] -> exactly_one (Filter1D_call iline ilen olen extras kwds) w w'))
  /\ (forall buffer filter_size w,
        let w' := final (Py_FilterFunc buffer filter_size callback w) in
        at_most_one (Filter_call buffer filter_size extras kwds) w w'
        /\ (mem w = [] -> exactly_one (Filter_call buffer filter_size extras kwds) w w'))
  /\ (forall ocoor orank irank w,
        let w' := final (Py_Map ocoor orank irank callback w) in
        at_most_one (Map_call ocoor orank extras kwds) w w'
        /\ (mem w = [] -> err w = None -> 0 <= orank <= Z.of_nat (length ocoor) ->
            exactly_one (Map_call ocoor orank extras kwds) w w')).
Proof.
  intros He kwds. split; [|split].
  - intros. now apply Py_Filter1DFunc_call.
  - intros. now apply Py_FilterFunc_call.
  - intros. now apply Py_Map_call.
Qed.

Lemma trampolines_pass_declared_arguments_witness :
  let cb := callback_of (constant_callable (PyFloat 2%float)) [PyLong 7]
              [("k"%string, PyLong 1)] in
  let kwds := PyDict [("k"%string, PyLong 1)] in
  exactly_one (Filter1D_call [1.5%float] 1 2 [PyLong 7] kwds) empty_world
    (final (Py_Filter1DFunc [1.5%float] 1 2 cb empty_world))
  /\ exactly_one (Filter_call [1.5%float] 1 [PyLong 7] kwds) empty_world
       (final (Py_FilterFunc [1.5%float] 1 cb empty_world))
  /\ exactly_one (Map_call [3; 4] 2 [PyLong 7] kwds) empty_world
       (final (Py_Map [3; 4] 2 2 cb empty_world)).
Proof.
  intros cb kwds.
  destruct (trampolines_pass_declared_arguments cb [PyLong 7] eq_refl)
    as (H1 & H2 & H3).
  split; [|split].
  - apply H1. reflexivity.
  - apply H2. reflexivity.
  - apply H3; [reflexivity | reflexivity | simpl; lia].
Defined.

(** ** The trampolines: the status they return *)






Lemma status_at_exit_set {A} (out : A) (w : World) :
  is_Some (err w) -> status_at_exit out w = Done (0, out) w.
Proof.
  intros [e He]. unfold status_at_exit. open_bind.
  now rewrite (PyErr_Occurred_set _ _ He).
Qed.

Lemma status_at_exit_clear {A} (out : A) (w : World) :
  err w = None -> status_at_exit out w = Done (1, out) w.
Proof.
  intros He. unfold status_at_exit. open_bind.
  now rewrite (PyErr_Occurred_clear _ He).
Qed.






Section TrampolineStatus.

Variable callback : ccallback_t.
Variable extras : list PyObject.
Hypothesis extras_tuple : extra_arguments (info_p callback) = PyTuple extras.

Local Abbreviation kwds := (extra_keywords (info_p callback)).




End TrampolineStatus.




(** * Further properties *)

(** ** More flag arithmetic *)

Lemma has_lor (x y b : Z) : has (Z.lor x y) b = has x b || has y b.
Proof.
  unfold has. rewrite Z.land_lor_distr_l.
  destruct (Z.land x b =? 0) eqn:Ex, (Z.land y b =? 0) eqn:Ey; simpl;
    rewrite ?negb_true_iff, ?negb_false_iff, ?Z.eqb_eq, ?Z.eqb_neq in *;
    rewrite ?Z.eqb_eq, ?Z.eqb_neq in *.
  all: try (apply Z.lor_eq_0_iff; now split).
  all: intros [H1 H2]%Z.lor_eq_0_iff; congruence.
Qed.

Lemma has_within (r mask b : Z) :
  Z.land mask b = b -> has r b = has (Z.land r mask) b.
Proof. intros H. unfold has. now rewrite <- Z.land_assoc, H. Qed.

(** Inverts a bind that has returned. *)
Lemma bind_done {A B} (m : M A) (k : A -> M B) (w w' : World) (b : B) :
  (m ≫= k) w = Done b w' ->
  exists a w1, m w = Done a w1 /\ k a w1 = Done b w'.
Proof.
  unfold mbind, M_bind, bindM. destruct (m w) as [a w1|w1]; [|discriminate].
  intros H. now exists a, w1.
Qed.

(** ** What [satisfies] depends on *)

Section RequestFacts.

Context {np : NumPy}.

(** X1.  [satisfies] is monotone in the request: an array that satisfies
    a requirement set satisfies every part of it, for the same type.
    Asking for less never turns a compliant array into one that needs a
    shadow. *)
Theorem satisfies_weaker_request (a : PyArrayObject) (r1 r2 t : Z) :
  satisfies a (Z.lor r1 r2) t = true -> satisfies a r1 t = true.
Proof.
  unfold satisfies. rewrite !has_lor.
  destruct (PyArray_ISCARRAY a); [auto|].
  destruct (PyArray_ISBYTESWAPPED a), (PyArray_ISALIGNED a),
    (PyArray_ISCONTIGUOUS a), (PyArray_ISWRITEABLE a); cbn [negb andb];
    repeat match goal with
           | |- context [has ?r ?b] =>
               destruct (has r b); cbn [orb andb]; try discriminate
           end; auto.
Qed.

(** X2.  [satisfies] looks at five bits of the requirement set only:
    no-byteswap, aligned, C-contiguous, writable and force-copy.  Two
    requests that agree on these bits get the same answer: a request for
    Fortran order, for a forced cast or for write-back is never a reason
    to refuse an array. *)
Theorem satisfies_inspects_five_flags (a : PyArrayObject) (r r' t : Z) :
  Z.land r inspected_flags = Z.land r' inspected_flags ->
  satisfies a r t = satisfies a r' t.
Proof.
  intros H. unfold satisfies.
  rewrite (has_within r inspected_flags NPY_ARRAY_NOTSWAPPED),
    (has_within r inspected_flags NPY_ARRAY_ALIGNED),
    (has_within r inspected_flags NPY_ARRAY_C_CONTIGUOUS),
    (has_within r inspected_flags NPY_ARRAY_WRITEABLE),
    (has_within r inspected_flags NPY_ARRAY_ENSURECOPY) by reflexivity.
  rewrite H.
  now rewrite <- !has_within by reflexivity.
Qed.

(** The request of the converters, aligned and native order for any type,
    is satisfied exactly by the aligned arrays in native order. *)
Lemma satisfies_converter_request (arr : PyArrayObject) :
  satisfies arr (Z.lor NPY_ARRAY_ALIGNED NPY_ARRAY_NOTSWAPPED) NPY_NOTYPE
  = PyArray_ISALIGNED arr && PyArray_ISNOTSWAPPED arr.
Proof.
  unfold satisfies, type_ok, PyArray_ISBYTESWAPPED.
  change (NPY_NOTYPE =? NPY_NOTYPE) with true. cbn [orb].
  change (has (Z.lor NPY_ARRAY_ALIGNED NPY_ARRAY_NOTSWAPPED) NPY_ARRAY_NOTSWAPPED)
    with true.
  change (has (Z.lor NPY_ARRAY_ALIGNED NPY_ARRAY_NOTSWAPPED) NPY_ARRAY_ALIGNED)
    with true.
  change (has (Z.lor NPY_ARRAY_ALIGNED NPY_ARRAY_NOTSWAPPED) NPY_ARRAY_C_CONTIGUOUS)
    with false.
  change (has (Z.lor NPY_ARRAY_ALIGNED NPY_ARRAY_NOTSWAPPED) NPY_ARRAY_WRITEABLE)
    with false.
  change (has (Z.lor NPY_ARRAY_ALIGNED NPY_ARRAY_NOTSWAPPED) NPY_ARRAY_ENSURECOPY)
    with false.
  destruct (PyArray_ISCARRAY arr) eqn:Ec.
  - unfold PyArray_ISCARRAY in Ec. apply andb_true_iff in Ec as [Hf ->].
    unfold PyArray_ISALIGNED, PyArray_CHKFLAGS in *.
    unfold NPY_ARRAY_CARRAY, NPY_ARRAY_BEHAVED in Hf.
    apply has_all_lor_r, has_all_lor_l in Hf. now rewrite Hf.
  - destruct (PyArray_ISNOTSWAPPED arr), (PyArray_ISALIGNED arr),
      (PyArray_ISCONTIGUOUS arr), (PyArray_ISWRITEABLE arr); reflexivity.
Qed.

(** ** More on the output adapter *)

(** X3.  The converter of output arguments, [NI_ObjectToOutputArray], hands
    a writable array to the kernel as it is, leaving the world untouched,
    exactly when the array is aligned and in native byte order.  Neither
    contiguity nor the element type plays a part: a writable strided view
    is written in place. *)
Theorem NI_ObjectToOutputArray_in_place (w : World) (p : loc) (arr : PyArrayObject) :
  heap w !! p = Some arr ->
  PyArray_ISWRITEABLE arr = true ->
  NI_ObjectToOutputArray (PyArrayRef p) w = Done (Some p) w
  <-> PyArray_ISALIGNED arr && PyArray_ISNOTSWAPPED arr = true.
Proof.
  intros Hp Hw. rewrite <- satisfies_converter_request.
  unfold NI_ObjectToOutputArray. split.
  - intros Hr.
    destruct (satisfies arr (Z.lor NPY_ARRAY_ALIGNED NPY_ARRAY_NOTSWAPPED) NPY_NOTYPE)
      eqn:Hs; [reflexivity|exfalso].
    destruct (granted w) eqn:Hg.
    + destruct (NA_OutputArray_shadow w p arr _ _ Hp Hw Hs Hg)
        as (q & shadow & w' & E & (Hq & _) & _).
      rewrite E in Hr. injection Hr as -> _. congruence.
    + destruct (NA_OutputArray_refused w p arr _ _ Hp Hw Hs Hg) as (w' & E).
      rewrite E in Hr. discriminate.
  - intros Hs. unfold NA_OutputArray. run_bind.
    now rewrite (deref_at _ _ _ Hp), Hw, Hs.
Qed.



(** X5.  Once [NA_OutputArray] has made a shadow of an array, the array
    has lost its write permission, and every further request to use the
    same array as an output, whatever the type and the requirements, is
    refused with the type error "only writeable arrays work for
    output". *)
Theorem NA_OutputArray_second_request (w : World) (p : loc) (arr : PyArrayObject)
    (t requires : Z) :
  heap w !! p = Some arr ->
  PyArray_ISWRITEABLE arr = true ->
  satisfies arr requires t = false ->
  granted w = true ->
  exists (q : loc) (w' : World),
    NA_OutputArray (PyArrayRef p) t requires w = Done (Some q) w'
    /\ forall t' requires',
         NA_OutputArray (PyArrayRef p) t' requires' w'
         = Done None (set_err not_writable_output w').
Proof.
  intros Hp Hw Hs Hg.
  destruct (NA_OutputArray_shadow w p arr t requires Hp Hw Hs Hg)
    as (q & shadow & w' & E & Hsh & _).
  exists q, w'. split; [exact E|]. intros t' requires'.
  destruct Hsh as (_ & _ & _ & _ & _ & _ & Hp' & Hro & _).
  now apply NA_OutputArray_read_only with (PyArray_CLEARFLAGS arr NPY_ARRAY_WRITEABLE).
Qed.

(** X6.  Whatever the value, the type and the requirements, an array that
    [NA_OutputArray] or [NA_IoArray] returns is in the object store and
    has write permission: a kernel never receives a read-only array to
    write into. *)
Theorem adapters_return_writable (a : PyObject) (t requires : Z)
    (w w' : World) (q : loc) :
  NA_OutputArray a t requires w = Done (Some q) w'
  \/ NA_IoArray a t requires w = Done (Some q) w' ->
  exists arr, heap w' !! q = Some arr /\ PyArray_ISWRITEABLE arr = true.
Proof.
  intros [H|H].
  - destruct a; try discriminate H.
    destruct (heap w !! p) as [arr|] eqn:Hp.
    2: { unfold NA_OutputArray, deref in H. revert H. open_bind.
         now rewrite Hp. }
    destruct (PyArray_ISWRITEABLE arr) eqn:Hw.
    2: { rewrite (NA_OutputArray_read_only _ _ _ _ _ Hp Hw) in H. discriminate. }
    destruct (satisfies arr requires t) eqn:Hs.
    + unfold NA_OutputArray in H. revert H. run_bind.
      rewrite (deref_at _ _ _ Hp), Hw, Hs. cbn. intros [= <- <-]. eauto.
    + destruct (granted w) eqn:Hg.
      * destruct (NA_OutputArray_shadow w p arr t requires Hp Hw Hs Hg)
          as (q' & shadow & w'' & E & Hsh & _).
        rewrite E in H. injection H as <- <-.
        destruct Hsh as (_ & Hq & _ & _ & Hsw & _). eauto.
      * destruct (NA_OutputArray_refused w p arr t requires Hp Hw Hs Hg) as (w'' & E).
        rewrite E in H. discriminate.
  - unfold NA_IoArray in H.
    apply bind_done in H as (shadow & w1 & _ & H).
    destruct shadow as [s|]; [|discriminate H].
    apply bind_done in H as (arr & w2 & Hd & H).
    unfold deref in Hd. destruct (heap w1 !! s) as [arr'|] eqn:Hs; [|discriminate Hd].
    injection Hd as <- <-.
    destruct (PyArray_ISWRITEABLE arr') eqn:Hw; [|discriminate H].
    cbn in H. injection H as <- <-. eauto.
Qed.


End RequestFacts.

Lemma satisfies_weaker_request_witness :
  @satisfies numpy_lp64 read_only_long NPY_ARRAY_ALIGNED NPY_NOTYPE = true.
Proof.
  apply (@satisfies_weaker_request numpy_lp64 read_only_long
           NPY_ARRAY_ALIGNED NPY_ARRAY_NOTSWAPPED NPY_NOTYPE).
  reflexivity.
Defined.

Lemma satisfies_inspects_five_flags_witness :
  @satisfies numpy_lp64 read_only_long
     (Z.lor NPY_ARRAY_WRITEABLE (Z.lor NPY_ARRAY_F_CONTIGUOUS NPY_ARRAY_UPDATEIFCOPY))
     NPY_NOTYPE
  = @satisfies numpy_lp64 read_only_long NPY_ARRAY_WRITEABLE NPY_NOTYPE.
Proof.
  apply (@satisfies_inspects_five_flags numpy_lp64). reflexivity.
Defined.

Lemma NI_ObjectToOutputArray_in_place_witness :
  @NI_ObjectToOutputArray numpy_lp64 (PyArrayRef 1) (world_of canonical_long)
  = Done (Some 1%positive) (world_of canonical_long).
Proof.
  apply (@NI_ObjectToOutputArray_in_place numpy_lp64 (world_of canonical_long)
           1%positive canonical_long); reflexivity.
Defined.


Lemma NA_OutputArray_second_request_witness :
  exists (q : loc) (w' : World),
    @NI_ObjectToOutputArray numpy_lp64 (PyArrayRef 1) (world_of swapped_long)
    = Done (Some q) w'
    /\ @NI_ObjectToOutputArray numpy_lp64 (PyArrayRef 1) w'
       = Done None (set_err not_writable_output w').
Proof.
  destruct (@NA_OutputArray_second_request numpy_lp64 (world_of swapped_long)
              1%positive swapped_long NPY_NOTYPE
              (Z.lor NPY_ARRAY_ALIGNED NPY_ARRAY_NOTSWAPPED)
              eq_refl eq_refl eq_refl eq_refl)
    as (q & w' & E & H).
  exists q, w'. split; [exact E|]. apply H.
Defined.

Lemma adapters_return_writable_witness :
  exists arr,
    heap (world_of canonical_long) !! 1%positive = Some arr
    /\ PyArray_ISWRITEABLE arr = true.
Proof.
  apply (@adapters_return_writable numpy_lp64 (PyArrayRef 1) NPY_NOTYPE 0
           (world_of canonical_long) (world_of canonical_long) 1%positive).
  right. reflexivity.
Defined.


(** ** The array constructor *)



(** ** The sequence adapter on arrays *)

Lemma copy_buffer_reads (d : list scalar) (n : Z) (zs : list Z) :
  copy_buffer read_long d n = Some zs ->
  length zs = Z.to_nat n
  /\ forall i z, zs !! i = Some z -> d !! i = Some (SLong z).
Proof.
  unfold copy_buffer. intros H%mapM_Some. split.
  - apply Forall2_length in H. now rewrite length_seq in H.
  - intros i z Hz.
    destruct (Forall2_lookup_r _ _ _ _ _ H Hz) as (x & Hx & Hr).
    apply lookup_seq in Hx as [-> _]. simpl in Hr. unfold read_long in Hr.
    destruct (d !! i) as [[z'|]|]; congruence.
Qed.

Section SequenceFacts.

Context {np : NumPy}.

(** X9.  When the host value converts to an array of [npy_intp],
    [NI_ObjectToLongSequence] reports success and stores all the elements
    of the array, in C order, whatever its shape: a matrix is flattened,
    and the length is the number of elements.  It consumes one
    allocation; when that one is refused it reports failure with a
    memory error and stores nothing. *)
Theorem NI_ObjectToLongSequence_flattens (object : PyObject) (w w1 : World)
    (p : loc) (arr : PyArrayObject) (zs : list Z) :
  NA_InputArray object NPY_INTP NPY_ARRAY_CARRAY w = Done (Some p) w1 ->
  heap w1 !! p = Some arr ->
  data arr = SLong <$> zs ->
  PyArray_SIZE arr = Z.of_nat (length zs) ->
  NI_ObjectToLongSequence object w
  = if granted w1
    then Done (true, Some zs) (set_mem (tl (mem w1)) w1)
    else Done (false, None) (set_err no_memory (set_mem (tl (mem w1)) w1)).
Proof.
  intros Hin Hp Hd Hn.
  unfold NI_ObjectToLongSequence, NI_ObjectToLongSequenceAndLength. open_bind.
  rewrite Hin, (deref_at _ _ _ Hp). unfold request.
  destruct (granted w1); [|reflexivity].
  rewrite Hd, Hn, <- (Z.mul_1_r (Z.of_nat (length zs))), copy_buffer_longs.
  cbn [fst snd]. rewrite Z.mul_1_r.
  replace (0 <=? Z.of_nat (length zs)) with true
    by (symmetry; apply Z.leb_le; lia).
  reflexivity.
Qed.

(** X10.  [NI_ObjectToLongSequence] never reports success without a
    sequence: whenever it returns 1, the host value has been converted to
    an array, a sequence has been stored, it has as many entries as the
    array has elements, entry by entry the integers of the array, and the
    error indicator is as the conversion left it. *)
Theorem NI_ObjectToLongSequence_success (object : PyObject) (w w' : World)
    (s : option (list Z)) :
  NI_ObjectToLongSequence object w = Done (true, s) w' ->
  exists (zs : list Z) (p : loc) (arr : PyArrayObject) (w1 : World),
    s = Some zs
    /\ NA_InputArray object NPY_INTP NPY_ARRAY_CARRAY w = Done (Some p) w1
    /\ heap w1 !! p = Some arr
    /\ Z.of_nat (length zs) = PyArray_SIZE arr
    /\ (forall i z, zs !! i = Some z -> data arr !! i = Some (SLong z))
    /\ err w' = err w1.
Proof.
  intros H. unfold NI_ObjectToLongSequence in H.
  apply bind_done in H as (r & w2 & H & Hr).
  injection Hr as Hpos <- <-. apply Z.leb_le in Hpos.
  unfold NI_ObjectToLongSequenceAndLength in H.
  apply bind_done in H as (array & w1 & Hin & H).
  destruct array as [p|]; [|discriminate H].
  apply bind_done in H as (arr & w1' & Hd & H).
  unfold deref in Hd. destruct (heap w1 !! p) as [arr'|] eqn:Hp; [|discriminate Hd].
  injection Hd as <- <-. cbv zeta in H.
  apply bind_done in H as (ok & w3 & Hreq & H).
  unfold request in Hreq. injection Hreq as <- <-.
  destruct (granted w1).
  - destruct (copy_buffer read_long (data arr') (PyArray_SIZE arr')) as [zs|] eqn:Ec;
      [|discriminate H].
    injection H as <- <-. cbn [fst snd] in *.
    destruct (copy_buffer_reads _ _ _ Ec) as [Hl Hz].
    exists zs, p, arr', w1. split; [reflexivity|]. split; [exact Hin|].
    split; [exact Hp|]. split; [lia|]. split; [exact Hz|reflexivity].
  - apply bind_done in H as (u & w4 & _ & H). injection H as <- _.
    cbn [fst] in Hpos. lia.
Qed.

End SequenceFacts.

Lemma NI_ObjectToLongSequence_flattens_witness :
  @NI_ObjectToLongSequence numpy_lp64 (PyArrayRef 1) (world_of matrix_long)
  = Done (true, Some [1; 2; 3; 4]) (world_of matrix_long).
Proof.
  apply (@NI_ObjectToLongSequence_flattens numpy_lp64 (PyArrayRef 1)
           (world_of matrix_long) (world_of matrix_long) 1%positive matrix_long
           [1; 2; 3; 4]); reflexivity.
Defined.

Lemma NI_ObjectToLongSequence_success_witness :
  exists (zs : list Z) (p : loc) (arr : PyArrayObject) (w1 : World),
    Some [1; 2; 3; 4] = Some zs
    /\ @NA_InputArray numpy_lp64 (PyArrayRef 1) NPY_INTP NPY_ARRAY_CARRAY
         (world_of matrix_long)
       = Done (Some p) w1
    /\ heap w1 !! p = Some arr
    /\ Z.of_nat (length zs) = PyArray_SIZE arr
    /\ (forall i z, zs !! i = Some z -> data arr !! i = Some (SLong z))
    /\ err (world_of matrix_long) = err w1.
Proof.
  apply (@NI_ObjectToLongSequence_success numpy_lp64 (PyArrayRef 1)
           (world_of matrix_long) (world_of matrix_long)).
  reflexivity.
Defined.

(** ** The erosion wrappers *)

Section ErosionFacts.

Context {np : NumPy}.

Variable kernel : loc -> loc -> option loc -> Z -> list Z -> Z -> option loc -> M Z.

(** X11.  The missing test in the sequence adapter is reachable from the
    module's interface: when the arrays of a call to [Py_BinaryErosion2]
    have been converted and the origins cannot be converted to an array,
    the call crashes, whatever the kernel and the handle are, instead of
    returning [NULL] with the conversion error. *)
Theorem Py_BinaryErosion2_origins_crash
    (array strct mask : PyObject) (niter : Z) (origins : PyObject)
    (invert : Z) (cobj : PyObject) (w w1 w2 w3 w4 : World)
    (a s : loc) (m : option loc) :
  NI_ObjectToIoArray array w = Done (Some a) w1 ->
  NI_ObjectToInputArray strct w1 = Done (Some s) w2 ->
  NI_ObjectToOptionalInputArray mask w2 = Done (true, m) w3 ->
  NA_InputArray origins NPY_INTP NPY_ARRAY_CARRAY w3 = Done None w4 ->
  Py_BinaryErosion2 kernel array strct mask niter origins invert cobj w = Crash w4.
Proof.
  intros H1 H2 H3 H4. unfold Py_BinaryErosion2. open_bind.
  rewrite H1, H2, H3. cbn [fst snd negb].
  unfold NI_ObjectToLongSequence. open_bind.
  now rewrite (NI_ObjectToLongSequenceAndLength_null _ _ _ H4).
Qed.

(** X12.  What [Py_BinaryErosion2] returns is decided by the error
    indicator alone: whenever it returns, it returns [NULL] with an error
    set or [None] with no error set.  The status of the kernel is not
    consulted: a kernel that reports failure and raises nothing makes the
    call return [None], as a success does. *)
Theorem Py_BinaryErosion2_result
    (array strct mask : PyObject) (niter : Z) (origins : PyObject)
    (invert : Z) (cobj : PyObject) (w : World) :
  (forall r w',
     Py_BinaryErosion2 kernel array strct mask niter origins invert cobj w = Done r w' ->
     (r = None /\ is_Some (err w')) \/ (r = Some Py_None /\ err w' = None))
  /\ (forall (a s : loc) (m : option loc) (o : list Z) (ptr : loc) (st : Z)
        (w1 w2 w3 w4 wk : World),
        NI_ObjectToIoArray array w = Done (Some a) w1 ->
        NI_ObjectToInputArray strct w1 = Done (Some s) w2 ->
        NI_ObjectToOptionalInputArray mask w2 = Done (true, m) w3 ->
        NI_ObjectToLongSequence origins w3 = Done (true, Some o) w4 ->
        cobj = PyCapsule None ptr ->
        NI_BinaryErosion2 kernel a s m niter o invert (Some ptr) w4 = Done st wk ->
        err wk = None ->
        Py_BinaryErosion2 kernel array strct mask niter origins invert cobj w
        = Done (Some Py_None) wk).
Proof.
  split.
  - intros r w'. unfold Py_BinaryErosion2.
    match goal with
    | |- (?body ≫= _) w = _ -> _ => generalize body
    end.
    intros body. unfold wrapper_exit, PyErr_Occurred. open_bind.
    destruct (body w) as [[] wb|wb]; [|discriminate].
    destruct (err wb) as [e|] eqn:Ee; cbn; intros [= <- <-].
    + left. rewrite Ee. eauto.
    + right. now rewrite Ee.
  - intros a s m o ptr st w1 w2 w3 w4 wk H1 H2 H3 H4 -> Hk He.
    unfold Py_BinaryErosion2. open_bind.
    rewrite H1, H2, H3. cbn [fst snd negb]. rewrite H4.
    cbn [NpyCapsule_Check PyCapsule_CheckExact NpyCapsule_AsVoidPtr].
    open_bind. rewrite Hk. unfold wrapper_exit. open_bind.
    now rewrite (PyErr_Occurred_clear _ He).
Qed.

Variable NI_BinaryErosion :
  loc -> loc -> option loc -> loc -> Z -> list Z -> Z -> Z -> bool ->
  M (Z * Z * option loc).

(** X13.  The handle round trip.  When [Py_BinaryErosion] is asked for the
    coordinates and the kernel succeeds and leaves a coordinate list, the
    call returns the pair of [changed] and a capsule around the list;
    and [Py_BinaryErosion2], given this capsule, passes the very same
    list to its kernel, once its other arguments are converted. *)
Theorem Py_BinaryErosion_handle_round_trip
    (input strct mask output origins : PyObject)
    (border_value invert center_is_true return_coordinates : Z)
    (w w1 w2 w3 w4 w5 wk : World) (i s out : loc) (m : option loc) (o : list Z)
    (st changed : Z) (ptr : loc) :
  NI_ObjectToInputArray input w = Done (Some i) w1 ->
  NI_ObjectToInputArray strct w1 = Done (Some s) w2 ->
  NI_ObjectToOptionalInputArray mask w2 = Done (true, m) w3 ->
  NI_ObjectToOutputArray output w3 = Done (Some out) w4 ->
  NI_ObjectToLongSequence origins w4 = Done (true, Some o) w5 ->
  return_coordinates <> 0 ->
  NI_BinaryErosion i s m out border_value o invert center_is_true true w5
  = Done (st, changed, Some ptr) wk ->
  st <> 0 ->
  err wk = None ->
  mem wk = [] ->
  Py_BinaryErosion NI_BinaryErosion input strct mask output border_value origins
    invert center_is_true return_coordinates w
  = Done (Some (PyTuple [PyLong changed; PyCapsule None ptr])) wk
  /\ forall (array2 strct2 mask2 origins2 : PyObject) (niter invert2 : Z)
       (v v1 v2 v3 v4 : World) (a2 s2 : loc) (m2 : option loc) (o2 : list Z),
       NI_ObjectToIoArray array2 v = Done (Some a2) v1 ->
       NI_ObjectToInputArray strct2 v1 = Done (Some s2) v2 ->
       NI_ObjectToOptionalInputArray mask2 v2 = Done (true, m2) v3 ->
       NI_ObjectToLongSequence origins2 v3 = Done (true, Some o2) v4 ->
       Py_BinaryErosion2 kernel array2 strct2 mask2 niter origins2 invert2
         (PyCapsule None ptr) v
       = (_ ← NI_BinaryErosion2 kernel a2 s2 m2 niter o2 invert2 (Some ptr);
          wrapper_exit) v4.
Proof.
  intros H1 H2 H3 H4 H5 Hr Hk Hst He Hq. split.
  - unfold Py_BinaryErosion. open_bind.
    rewrite H1, H2, H3. cbn [fst snd negb]. rewrite H4, H5.
    replace (return_coordinates =? 0) with false
      by (symmetry; now apply Z.eqb_neq).
    cbn [negb]. rewrite Hk. cbn [fst snd].
    replace (st =? 0) with false by (symmetry; now apply Z.eqb_neq).
    unfold NpyCapsule_FromVoidPtr. open_bind.
    rewrite request_quiet by exact Hq.
    rewrite (PyErr_Occurred_clear _ He). cbn [fst snd].
    unfold Py_BuildValue_iN. now rewrite allocate_quiet.
  - intros array2 strct2 mask2 origins2 niter invert2 v v1 v2 v3 v4 a2 s2 m2 o2
      G1 G2 G3 G4.
    unfold Py_BinaryErosion2. open_bind.
    rewrite G1, G2, G3. cbn [fst snd negb]. rewrite G4.
    cbn [NpyCapsule_Check PyCapsule_CheckExact NpyCapsule_AsVoidPtr].
    open_bind.
    destruct (NI_BinaryErosion2 kernel a2 s2 m2 niter o2 invert2 (Some ptr) v4);
      reflexivity.
Qed.

End ErosionFacts.

Lemma Py_BinaryErosion2_origins_crash_witness :
  exists w4,
    @Py_BinaryErosion2 numpy_lp64 idle_kernel (PyArrayRef 1) (PyArrayRef 1) Py_None 1
      (PyList [PyStr "a"]) 0 (PyCapsule None 9) (world_of canonical_long)
    = Crash w4.
Proof.
  eexists.
  eapply (@Py_BinaryErosion2_origins_crash numpy_lp64 idle_kernel (PyArrayRef 1)
            (PyArrayRef 1) Py_None 1 (PyList [PyStr "a"]) 0 (PyCapsule None 9));
    reflexivity.
Defined.

Lemma Py_BinaryErosion2_result_witness :
  exists wk,
    @Py_BinaryErosion2 numpy_lp64 silent_kernel (PyArrayRef 1) (PyArrayRef 1) Py_None 1
      (PyList [PyLong 0]) 0 (PyCapsule None 9) (world_of canonical_long)
    = Done (Some Py_None) wk.
Proof.
  eexists.
  eapply (proj2 (@Py_BinaryErosion2_result numpy_lp64 silent_kernel (PyArrayRef 1)
                   (PyArrayRef 1) Py_None 1 (PyList [PyLong 0]) 0 (PyCapsule None 9)
                   (world_of canonical_long)));
    reflexivity.
Defined.

Lemma Py_BinaryErosion_handle_round_trip_witness :
  @Py_BinaryErosion numpy_lp64 (listing_kernel 9) (PyArrayRef 1) (PyArrayRef 1) Py_None
    (PyArrayRef 1) 0 (PyList [PyLong 0]) 0 1 1 (world_of canonical_long)
  = Done (Some (PyTuple [PyLong 1; PyCapsule None 9]))
      (set_heap (<[2%positive := canonical NPY_LONG [1] [SLong 0]]>
                   (heap (world_of canonical_long)))
         (world_of canonical_long)).
Proof.
  eapply (proj1 (@Py_BinaryErosion_handle_round_trip numpy_lp64 idle_kernel
                   (listing_kernel 9) (PyArrayRef 1) (PyArrayRef 1) Py_None
                   (PyArrayRef 1) (PyList [PyLong 0]) 0 0 1 1
                   (world_of canonical_long)
                   _ _ _ _ _ _ _ _ _ _ _ 1 1 9
                   eq_refl eq_refl eq_refl eq_refl eq_refl
                   ltac:(discriminate) eq_refl ltac:(discriminate) eq_refl eq_refl)).
Defined.

(** ** One array for two outputs *)

Section DistanceTransformFacts.

Context {np : NumPy}.

Variable kernel : loc -> Z -> option loc -> option loc -> option loc -> M Z.


End DistanceTransformFacts.


(** ** What [Py_Filter1DFunc] stores *)

Lemma copy_buffer_doubles (d : list scalar) (ds : list double) (n : Z) :
  take (Z.to_nat n) d = SDouble <$> ds ->
  length ds = Z.to_nat n ->
  copy_buffer read_double d n = Some ds.
Proof.
  intros Ht Hl. unfold copy_buffer.
  apply mapM_Some, Forall2_same_length_lookup_2.
  - now rewrite length_seq.
  - intros i x y Hx Hy. apply lookup_seq in Hx as [-> Hi]. simpl.
    unfold read_double.
    rewrite <- (lookup_take_lt d (Z.to_nat n) i) by lia.
    now rewrite Ht, list_lookup_fmap, Hy.
Qed.

Section Filter1DOutput.

Variable callback : ccallback_t.
Variable extras : list PyObject.
Hypothesis extras_tuple : extra_arguments (info_p callback) = PyTuple extras.

Local Abbreviation kwds := (extra_keywords (info_p callback)).

(** X15.  What [Py_Filter1DFunc] stores into the output line is what the
    callable has left in the output window, the second array it is
    called with: when the callable returns, whatever value it returns,
    the first [olen] elements of that array are copied to [oline] and the
    status is 1; when the callable raises, [oline] is left as it was and
    the status is 0, with the exception of the callable pending.  The
    window is zero when the callable gets it, so a callable that writes
    nothing yields zeros. *)
Theorem Py_Filter1DFunc_output (iline : list double) (ilen olen : Z) (w : World) :
  mem w = [] -> err w = None ->
  let ib := fresh (dom (heap w)) in
  let h1 := <[ib := window ilen (SDouble <$> take (Z.to_nat ilen) iline)]> (heap w) in
  let ob := fresh (dom h1) in
  let h := <[ob := window olen (replicate (Z.to_nat olen) (SDouble 0%float))]> h1 in
  (forall v h' po ds,
     py_function callback (PyArrayRef ib :: PyArrayRef ob :: extras) kwds h = (inl v, h') ->
     h' !! ob = Some po ->
     take (Z.to_nat olen) (data po) = SDouble <$> ds ->
     length ds = Z.to_nat olen ->
     exists w',
       Py_Filter1DFunc iline ilen olen callback w = Done (1, Some ds) w'
       /\ heap w' = h' /\ err w' = None)
  /\ (forall e h',
        py_function callback (PyArrayRef ib :: PyArrayRef ob :: extras) kwds h = (inr e, h') ->
        exists w',
          Py_Filter1DFunc iline ilen olen callback w = Done (0, None) w'
          /\ err w' = Some e).
Proof.
  intros Hq He ib h1 ob h.
  assert (Hrun : exists w4,
             mem w4 = [] /\ err w4 = None /\ heap w4 = h
             /\ Py_Filter1DFunc iline ilen olen callback w
                = ((PyObject_Call (py_function callback)
                      (PyTuple ([PyArrayRef ib; PyArrayRef ob] ++ extras)) kwds
                    ≫= fun rv =>
                         match rv with
                         | None => mret None
                         | Some _ =>
                             po ← deref ob;
                             match copy_buffer read_double (data po) olen with
                             | Some v => mret (Some v)
                             | None => crash
                             end
                         end)
                   ≫= status_at_exit) w4).
  { unfold Py_Filter1DFunc. rewrite extras_tuple. open_bind.
    destruct (NA_NewArray_cases ilen (Some (SDouble <$> iline)) w)
      as (w1 & Ht1 & Hm1 & H1).
    rewrite granted_quiet in H1 by exact Hq. destruct H1 as (E1 & Hh1 & He1).
    assert (Hq1 : mem w1 = []) by eauto using quiet_tail.
    rewrite <- fmap_take in Hh1. fold ib in E1, Hh1. fold h1 in Hh1.
    destruct (NA_NewArray_cases olen None w1) as (w2 & Ht2 & Hm2 & H2).
    rewrite granted_quiet in H2 by exact Hq1. destruct H2 as (E2 & Hh2 & He2).
    assert (Hq2 : mem w2 = []) by eauto using quiet_tail.
    rewrite Hh1 in E2, Hh2. fold ob in E2, Hh2. fold h in Hh2.
    rewrite E1, E2. unfold Py_BuildValue, PySequence_Concat.
    rewrite !allocate_quiet by assumption.
    exists w2. split; [exact Hq2|]. split; [congruence|]. split; [exact Hh2|].
    reflexivity. }
  destruct Hrun as (w4 & Hq4 & He4 & Hh4 & ->).
  unfold PyObject_Call, emit, run_callable. open_bind. cbn [heap set_trace app].
  rewrite Hh4. split.
  - intros v h' po ds Hf Hpo Ht Hl. rewrite Hf.
    erewrite deref_at by (cbn [heap set_heap set_trace]; exact Hpo).
    rewrite (copy_buffer_doubles _ _ _ Ht Hl).
    rewrite status_at_exit_clear by (cbn; exact He4).
    eexists. split; [reflexivity|]. split; [reflexivity|]. cbn. exact He4.
  - intros e h' Hf. rewrite Hf.
    rewrite status_at_exit_set by (cbn; eauto).
    eexists. split; reflexivity.
Qed.

End Filter1DOutput.

Lemma Py_Filter1DFunc_output_witness :
  exists w',
    Py_Filter1DFunc [1.5%float] 1 2 (callback_of (filling_callable 7%float) [] [])
      empty_world
    = Done (1, Some [7%float; 7%float]) w'.
Proof.
  destruct (proj1 (Py_Filter1DFunc_output
                     (callback_of (filling_callable 7%float) [] []) [] eq_refl
                     [1.5%float] 1 2 empty_world eq_refl eq_refl)
              Py_None _ _ [7%float; 7%float] eq_refl eq_refl eq_refl eq_refl)
    as (w' & E & _).
  exists w'. exact E.
Defined.

(** ** The extra arguments are checked first *)



(** ** find_objects, whatever the kernel *)

Lemma read_region_at (regions : list Z) (i : nat) :
  (i < length regions)%nat ->
  read_region (Some regions) (Z.of_nat i) = Some (nth i regions 0).
Proof.
  intros Hi. unfold read_region.
  replace (Z.of_nat i <? 0) with false by (symmetry; apply Z.ltb_ge; lia).
  rewrite Nat2Z.id. destruct (lookup_lt_is_Some_2 regions i Hi) as [x Hx].
  rewrite Hx. f_equal. symmetry. now apply nth_lookup_Some.
Qed.

Section FindObjectsAnyRegions.

Variable regions : list Z.
Variable ndim : nat.

Lemma Py_FindObjects_slices_of (w : World) (idx : nat) :
  mem w = [] ->
  (idx + 2 * ndim <= length regions)%nat ->
  forall (m j : nat), (j + m = ndim)%nat ->
  Py_FindObjects_slices (Some regions) (Z.of_nat ndim) (Z.of_nat idx) (Z.of_nat j) m w
  = Done (Some (slice_of regions ndim idx <$> seq j m)) w.
Proof.
  intros Hm Hlen. induction m as [|m IH]; intros j Hj; [reflexivity|].
  cbn [Py_FindObjects_slices].
  replace (Z.of_nat idx + Z.of_nat j) with (Z.of_nat (idx + j)) by lia.
  replace (Z.of_nat (idx + j) + Z.of_nat ndim)
    with (Z.of_nat (idx + j + ndim)) by lia.
  rewrite !read_region_at by lia.
  unfold PyLong_FromSsize_t, PySlice_New. open_bind.
  rewrite !allocate_quiet by assumption.
  specialize (IH (S j)).
  replace (Z.of_nat (S j)) with (Z.of_nat j + 1) in IH by lia.
  rewrite IH by lia. reflexivity.
Qed.

Lemma Py_FindObjects_items_of (w : World) (labels : nat) :
  mem w = [] ->
  (stride_of ndim * labels <= length regions)%nat ->
  forall (n i : nat), (i + n = labels)%nat ->
  Py_FindObjects_items (Some regions) (Z.of_nat ndim) (Z.of_nat i) n w
  = Done (Some ((fun ii : nat => entry_of regions ndim (stride_of ndim * ii))
                <$> seq i n)) w.
Proof.
  intros Hm Hlen. induction n as [|n IH]; intros i Hi; [reflexivity|].
  cbn [Py_FindObjects_items].
  assert (Hidx : (if 0 <? Z.of_nat ndim then 2 * Z.of_nat ndim * Z.of_nat i
                  else Z.of_nat i) = Z.of_nat (stride_of ndim * i)).
  { unfold stride_of. destruct ndim as [|r].
    - change (0 <? Z.of_nat 0) with false. cbv iota. lia.
    - replace (0 <? Z.of_nat (S r)) with true by (symmetry; apply Z.ltb_lt; lia).
      lia. }
  assert (Hs : (stride_of ndim * i + stride_of ndim <= length regions)%nat) by nia.
  assert (H1 : (1 <= stride_of ndim)%nat) by (unfold stride_of; destruct ndim; lia).
  assert (H2 : (2 * ndim <= stride_of ndim)%nat)
    by (unfold stride_of; destruct ndim; lia).
  rewrite Hidx, read_region_at by lia.
  specialize (IH (S i)).
  replace (Z.of_nat (S i)) with (Z.of_nat i + 1) in IH by lia.
  cbn [fmap list_fmap seq].
  assert (Hentry : entry_of regions ndim (stride_of ndim * i)
                   = if 0 <=? nth (stride_of ndim * i) regions 0
                     then PyTuple (slice_of regions ndim (stride_of ndim * i)
                                   <$> seq 0 ndim)
                     else Py_None) by reflexivity.
  destruct (0 <=? nth (stride_of ndim * i) regions 0) eqn:E; rewrite Hentry; open_bind.
  - rewrite PyTuple_New_quiet by (assumption || lia).
    rewrite Nat2Z.id.
    pose proof (Py_FindObjects_slices_of w (stride_of ndim * i) Hm ltac:(lia)
                  ndim 0%nat ltac:(lia)) as Hsl.
    change (Z.of_nat 0) with 0 in Hsl. rewrite Hsl.
    cbn [fmap option_fmap option_map].
    rewrite IH by lia. reflexivity.
  - rewrite IH by lia. reflexivity.
Qed.

End FindObjectsAnyRegions.

Lemma Py_FindObjects_slices_shape (regions : option (list Z)) (ndim idx : Z) (n : nat) :
  forall (jj : Z) (w w' : World) (slices : list PyObject),
  Py_FindObjects_slices regions ndim idx jj n w = Done (Some slices) w' ->
  length slices = n /\ Forall is_slice slices.
Proof.
  induction n as [|n IH]; intros jj w w' slices; cbn [Py_FindObjects_slices].
  - intros [= <- <-]. split; [reflexivity|constructor].
  - destruct (read_region regions (idx + jj)) as [s|]; [|discriminate].
    destruct (read_region regions (idx + jj + ndim)) as [e|]; [|discriminate].
    unfold PyLong_FromSsize_t, PySlice_New, allocate, request, PyErr_NoMemory,
      PyErr_SetString.
    open_bind.
    destruct (granted w); cbn; [|destruct (granted _); discriminate].
    destruct (granted _); cbn; [|discriminate].
    destruct (granted _); cbn; [|discriminate].
    destruct (Py_FindObjects_slices regions ndim idx (jj + 1) n _)
      as [[rest|] w2|w2] eqn:Er; cbn; try discriminate.
    intros [= <- <-]. destruct (IH _ _ _ _ Er) as [Hl Hf].
    split; [cbn; now rewrite Hl|]. constructor; [|exact Hf]. now exists s, e.
Qed.

Lemma Py_FindObjects_items_shape (regions : option (list Z)) (ndim : Z) (n : nat) :
  forall (ii : Z) (w w' : World) (items : list PyObject),
  Py_FindObjects_items regions ndim ii n w = Done (Some items) w' ->
  length items = n /\ Forall (is_entry (Z.to_nat ndim)) items.
Proof.
  induction n as [|n IH]; intros ii w w' items; cbn [Py_FindObjects_items].
  - intros [= <- <-]. split; [reflexivity|constructor].
  - cbv zeta.
    destruct (read_region regions (if 0 <? ndim then 2 * ndim * ii else ii))
      as [r|]; [|discriminate].
    open_bind.
    destruct (0 <=? r).
    + destruct (PyTuple_New ndim w) as [[|] w1|w1]; cbn; try discriminate.
      destruct (Py_FindObjects_slices regions ndim _ 0 (Z.to_nat ndim) w1)
        as [[slices|] w2|w2] eqn:Es; cbn; try discriminate.
      destruct (Py_FindObjects_items regions ndim (ii + 1) n w2)
        as [[rest|] w3|w3] eqn:Er; cbn; try discriminate.
      intros [= <- <-]. destruct (IH _ _ _ _ Er) as [Hl Hf].
      destruct (Py_FindObjects_slices_shape _ _ _ _ _ _ _ _ Es) as [Hsl Hsf].
      split; [cbn; now rewrite Hl|]. constructor; [|exact Hf].
      right. now exists slices.
    + destruct (Py_FindObjects_items regions ndim (ii + 1) n w)
        as [[rest|] w3|w3] eqn:Er; cbn; try discriminate.
      intros [= <- <-]. destruct (IH _ _ _ _ Er) as [Hl Hf].
      split; [cbn; now rewrite Hl|]. constructor; [|exact Hf]. now left.
Qed.

Section FindObjectsAnyKernel.

Context {np : NumPy}.

Variable NI_FindObjects : PyArrayObject -> Z -> Z * list Z.

(** X17.  Whatever the kernel is, [Py_FindObjects] turns what the kernel
    leaves in [regions] into the result list entry by entry: for a
    positive [max_label], with the input converted, no allocation refused
    and no error pending, the result has [max_label] entries; the entry
    of a label is [None] exactly when the first of its entries in
    [regions] is negative, and otherwise the tuple of one slice per axis
    from [regions[idx+jj]] to [regions[idx+jj+ndim]], where [idx] is
    [2*ndim*ii], or [ii] for an input of rank zero, for which the tuple
    is empty. *)
Theorem Py_FindObjects_entries (object : PyObject) (max_label : Z)
    (w w1 : World) (ip : loc) (inp : PyArrayObject) :
  0 < max_label ->
  NI_ObjectToInputArray object w = Done (Some ip) w1 ->
  heap w1 !! ip = Some inp ->
  mem w1 = [] ->
  err w1 = None ->
  let ndim := length (dimensions inp) in
  let regions := (NI_FindObjects inp max_label).2 in
  (NI_FindObjects inp max_label).1 <> 0 ->
  (stride_of ndim * Z.to_nat max_label <= length regions)%nat ->
  Py_FindObjects NI_FindObjects object max_label w
  = Done (Some (PyList (entries_of regions ndim max_label))) w1
  /\ Z.of_nat (length (entries_of regions ndim max_label)) = max_label
  /\ forall ii : nat,
       Z.of_nat ii < max_label ->
       entries_of regions ndim max_label !! ii
       = Some (entry_of regions ndim (stride_of ndim * ii))
       /\ (entry_of regions ndim (stride_of ndim * ii) = Py_None
           <-> nth (stride_of ndim * ii) regions 0 < 0).
Proof.
  intros Hpos Hin Hp Hm He ndim regions Hk Hlen. split; [|split].
  - unfold Py_FindObjects. open_bind.
    rewrite Hin, (deref_at _ _ _ Hp). cbv zeta.
    replace (max_label <? 0) with false by (symmetry; apply Z.ltb_ge; lia).
    replace (0 <? max_label) with true by (symmetry; apply Z.ltb_lt; lia).
    rewrite request_quiet by assumption.
    cbn [fmap option_fmap option_map].
    replace ((NI_FindObjects inp max_label).1 =? 0) with false
      by (symmetry; now apply Z.eqb_neq).
    unfold PyList_New. rewrite PyTuple_New_quiet by (assumption || lia).
    pose proof (Py_FindObjects_items_of regions ndim w1 (Z.to_nat max_label) Hm Hlen
                  (Z.to_nat max_label) 0%nat ltac:(lia)) as Hitems.
    unfold PyArray_NDIM. change (Z.of_nat 0) with 0 in Hitems.
    fold ndim. fold regions. rewrite Hitems. cbn [fmap option_fmap option_map].
    now rewrite PyErr_Occurred_clear.
  - unfold entries_of. rewrite length_fmap, length_seq. lia.
  - intros ii Hii. split.
    + unfold entries_of. now rewrite list_lookup_fmap, lookup_seq_lt by lia.
    + unfold entry_of.
      destruct (0 <=? nth (stride_of ndim * ii) regions 0) eqn:E.
      * apply Z.leb_le in E. split; [discriminate|lia].
      * apply Z.leb_gt in E. split; [lia|reflexivity].
Qed.

(** X18.  The failures of [Py_FindObjects] before the kernel: when the
    input cannot be converted the call returns [NULL] and leaves the
    world as the conversion left it; when the input is converted,
    [max_label] is positive and the buffer for the regions is refused,
    the call returns [NULL] with a memory error.  Both whatever the
    kernel is: it is not run. *)
Theorem Py_FindObjects_failures (object : PyObject) (max_label : Z) (w : World) :
  (forall w1,
     NI_ObjectToInputArray object w = Done None w1 ->
     Py_FindObjects NI_FindObjects object max_label w = Done None w1)
  /\ (forall ip inp w1,
        NI_ObjectToInputArray object w = Done (Some ip) w1 ->
        heap w1 !! ip = Some inp ->
        0 < max_label ->
        granted w1 = false ->
        Py_FindObjects NI_FindObjects object max_label w
        = Done None (set_err no_memory (set_mem (tl (mem w1)) w1))).
Proof.
  split.
  - intros w1 Hin. unfold Py_FindObjects. open_bind. rewrite Hin.
    unfold PyErr_Occurred. now destruct (bool_decide (is_Some (err w1))).
  - intros ip inp w1 Hin Hp Hpos Hg. unfold Py_FindObjects. open_bind.
    rewrite Hin, (deref_at _ _ _ Hp). cbv zeta.
    replace (max_label <? 0) with false by (symmetry; apply Z.ltb_ge; lia).
    replace (0 <? max_label) with true by (symmetry; apply Z.ltb_lt; lia).
    unfold request. rewrite Hg. reflexivity.
Qed.

(** X19.  [Py_FindObjects] never returns a partial result.  Whatever the
    kernel, the world and the allocations that are refused on the way,
    when the call returns a value, no error is pending, the value is a
    list with one entry for each label from 1 to [max_label] (none for a
    [max_label] below 1), and every entry is [None] or a tuple of as many
    slices as the input has axes. *)
Theorem Py_FindObjects_complete (object : PyObject) (max_label : Z)
    (w w' : World) (v : PyObject) :
  Py_FindObjects NI_FindObjects object max_label w = Done (Some v) w' ->
  err w' = None
  /\ exists (ip : loc) (inp : PyArrayObject) (w1 : World) (items : list PyObject),
       NI_ObjectToInputArray object w = Done (Some ip) w1
       /\ heap w1 !! ip = Some inp
       /\ v = PyList items
       /\ length items = Z.to_nat max_label
       /\ Forall (is_entry (length (dimensions inp))) items.
Proof.
  intros H. unfold Py_FindObjects in H.
  apply bind_done in H as (input & w1 & Hin & H).
  apply bind_done in H as (result & w2 & Hres & H).
  apply bind_done in H as (e & w3 & He & H).
  unfold PyErr_Occurred in He. injection He as <- <-.
  destruct (err w2) as [ex|] eqn:Ee; [discriminate H|].
  cbn in H. injection H as -> <-. split; [exact Ee|].
  destruct input as [ip|]; [|discriminate Hres].
  apply bind_done in Hres as (inp' & w1' & Hp & Hres).
  unfold deref in Hp. destruct (heap w1 !! ip) as [inp|] eqn:Hp'; [|discriminate Hp].
  injection Hp as <- <-. cbv zeta in Hres.
  set (ml := if max_label <? 0 then 0 else max_label) in Hres.
  assert (Hml : Z.to_nat ml = Z.to_nat max_label).
  { unfold ml. destruct (max_label <? 0) eqn:E; [|reflexivity].
    apply Z.ltb_lt in E. lia. }
  apply bind_done in Hres as (regions & w4 & _ & Hres).
  destruct regions as [regions|[]]; [|discriminate Hres].
  destruct ((NI_FindObjects inp ml).1 =? 0); [discriminate Hres|].
  apply bind_done in Hres as (ok & w5 & _ & Hres).
  destruct ok; [|apply bind_done in Hres as (? & ? & _ & Hres); discriminate Hres].
  apply bind_done in Hres as (items & w6 & Hitems & Hres).
  destruct items as [items|]; [|discriminate Hres].
  injection Hres as <- _.
  destruct (Py_FindObjects_items_shape _ _ _ _ _ _ _ Hitems) as [Hl Hf].
  exists ip, inp, w1, items. split; [exact Hin|]. split; [exact Hp'|].
  split; [reflexivity|]. split; [congruence|].
  unfold PyArray_NDIM in Hf. now rewrite Nat2Z.id in Hf.
Qed.

End FindObjectsAnyKernel.

Lemma Py_FindObjects_entries_witness :
  @Py_FindObjects numpy_lp64 (kernel_leaving [0; 1; 1; 3; -1; -1; -1; -1])
    (PyArrayRef 1) 2 (world_of labelled)
  = Done (Some (PyList [PyTuple [PySlice (PyLong 0) (PyLong 1) Py_None;
                                 PySlice (PyLong 1) (PyLong 3) Py_None];
                        Py_None]))
      (world_of labelled).
Proof.
  apply (@Py_FindObjects_entries numpy_lp64
           (kernel_leaving [0; 1; 1; 3; -1; -1; -1; -1]) (PyArrayRef 1) 2
           (world_of labelled) (world_of labelled) 1%positive labelled);
    (reflexivity || discriminate || (simpl; lia)).
Defined.

Lemma Py_FindObjects_failures_witness :
  @Py_FindObjects numpy_lp64 NI_FindObjects_spec (PyArrayRef 1) 2
    (set_mem [false] (world_of labelled))
  = Done None (set_err no_memory (world_of labelled)).
Proof.
  apply (proj2 (@Py_FindObjects_failures numpy_lp64 NI_FindObjects_spec (PyArrayRef 1) 2
                  (set_mem [false] (world_of labelled)))
           1%positive labelled (set_mem [false] (world_of labelled)));
    (reflexivity || lia).
Defined.

Lemma Py_FindObjects_complete_witness :
  err (world_of labelled) = None
  /\ exists (ip : loc) (inp : PyArrayObject) (w1 : World) (items : list PyObject),
       @NI_ObjectToInputArray numpy_lp64 (PyArrayRef 1) (world_of labelled)
       = Done (Some ip) w1
       /\ heap w1 !! ip = Some inp
       /\ PyList [PyTuple [PySlice (PyLong 0) (PyLong 1) Py_None;
                           PySlice (PyLong 1) (PyLong 3) Py_None];
                  Py_None]
          = PyList items
       /\ length items = Z.to_nat 2
       /\ Forall (is_entry (length (dimensions inp))) items.
Proof.
  apply (@Py_FindObjects_complete numpy_lp64
           (kernel_leaving [0; 1; 1; 3; -1; -1; -1; -1]) (PyArrayRef 1) 2
           (world_of labelled) (world_of labelled)).
  reflexivity.
Defined.

(** ** The error indicator and the result, once more *)

Section Contracts.

Context {np : NumPy}.

(** X20.  [NA_OutputArray] keeps to the convention of the host interface:
    whenever it returns [NULL], the world is the one it was called in
    with the type error "only writeable arrays work for output" set, and
    whenever it returns an array the error indicator is as it was. *)
Theorem NA_OutputArray_error_contract (a : PyObject) (t requires : Z)
    (w w' : World) (r : option loc) :
  NA_OutputArray a t requires w = Done r w' ->
  match r with
  | None => w' = set_err not_writable_output w
  | Some _ => err w' = err w
  end.
Proof.
  intros H.
  destruct a; try (injection H as <- <-; reflexivity).
  destruct (heap w !! p) as [arr|] eqn:Hp.
  2: { unfold NA_OutputArray, deref in H. revert H. open_bind.
       now rewrite Hp. }
  destruct (PyArray_ISWRITEABLE arr) eqn:Hw.
  2: { rewrite (NA_OutputArray_read_only _ _ _ _ _ Hp Hw) in H.
       now injection H as <- <-. }
  destruct (satisfies arr requires t) eqn:Hs.
  - unfold NA_OutputArray in H. revert H. run_bind.
    rewrite (deref_at _ _ _ Hp), Hw, Hs. cbn. now intros [= <- <-].
  - destruct (granted w) eqn:Hg.
    + destruct (NA_OutputArray_shadow w p arr t requires Hp Hw Hs Hg)
        as (q & shadow & w'' & E & Hsh & _).
      rewrite E in H. injection H as <- <-.
      now destruct Hsh as (_ & _ & _ & _ & _ & _ & _ & _ & _ & He).
    + destruct (NA_OutputArray_refused w p arr t requires Hp Hw Hs Hg) as (w'' & E).
      rewrite E in H. discriminate.
Qed.

Variable NI_BinaryErosion :
  loc -> loc -> option loc -> loc -> Z -> list Z -> Z -> Z -> bool ->
  M (Z * Z * option loc).

(** X21.  Asked for no coordinates, [Py_BinaryErosion] returns the integer
    [changed] as the kernel left it, and no handle, when the arguments
    are converted and no error is pending after the kernel.  Neither the
    status of the kernel nor a coordinate list it may have left is
    looked at. *)
Theorem Py_BinaryErosion_changed
    (input strct mask output origins : PyObject)
    (border_value invert center_is_true return_coordinates : Z)
    (w w1 w2 w3 w4 w5 wk : World) (i s out : loc) (m : option loc) (o : list Z)
    (st changed : Z) (cl : option loc) :
  NI_ObjectToInputArray input w = Done (Some i) w1 ->
  NI_ObjectToInputArray strct w1 = Done (Some s) w2 ->
  NI_ObjectToOptionalInputArray mask w2 = Done (true, m) w3 ->
  NI_ObjectToOutputArray output w3 = Done (Some out) w4 ->
  NI_ObjectToLongSequence origins w4 = Done (true, Some o) w5 ->
  return_coordinates = 0 ->
  NI_BinaryErosion i s m out border_value o invert center_is_true false w5
  = Done (st, changed, cl) wk ->
  err wk = None ->
  mem wk = [] ->
  Py_BinaryErosion NI_BinaryErosion input strct mask output border_value origins
    invert center_is_true return_coordinates w
  = Done (Some (PyLong changed)) wk.
Proof.
  intros H1 H2 H3 H4 H5 -> Hk He Hq.
  unfold Py_BinaryErosion. open_bind.
  rewrite H1, H2, H3. cbn [fst snd negb]. rewrite H4, H5.
  change (negb (0 =? 0)) with false. rewrite Hk. cbn [fst snd].
  assert (Hend : forall c : option PyObject,
            match PyErr_Occurred wk with
            | Done a w'0 =>
                (if a then fun w0 : World => Done None w0
                 else Py_BuildValue_i (changed, c).1) w'0
            | Crash w'0 => Crash w'0
            end = Done (Some (PyLong changed)) wk).
  { intros c. rewrite (PyErr_Occurred_clear _ He). cbn [fst].
    unfold Py_BuildValue_i. now rewrite allocate_quiet. }
  destruct (st =? 0); apply Hend.
Qed.

End Contracts.

Lemma NA_OutputArray_error_contract_witness :
  final (@NA_OutputArray numpy_lp64 (PyArrayRef 1) NPY_NOTYPE 0 (world_of read_only_long))
  = set_err not_writable_output (world_of read_only_long).
Proof.
  apply (@NA_OutputArray_error_contract numpy_lp64 (PyArrayRef 1) NPY_NOTYPE 0
           (world_of read_only_long)
           (final (@NA_OutputArray numpy_lp64 (PyArrayRef 1) NPY_NOTYPE 0
                     (world_of read_only_long)))
           None).
  reflexivity.
Defined.

Lemma Py_BinaryErosion_changed_witness :
  exists wk,
    @Py_BinaryErosion numpy_lp64 (listing_kernel 9) (PyArrayRef 1) (PyArrayRef 1) Py_None
      (PyArrayRef 1) 0 (PyList [PyLong 0]) 0 1 0 (world_of canonical_long)
    = Done (Some (PyLong 1)) wk.
Proof.
  eexists.
  eapply (@Py_BinaryErosion_changed numpy_lp64 (listing_kernel 9) (PyArrayRef 1)
            (PyArrayRef 1) Py_None (PyArrayRef 1) (PyList [PyLong 0]) 0 0 1 0
            (world_of canonical_long));
    reflexivity.
Defined.

(** ** Filtering in place *)

Section InPlace.

Context {np : NumPy}.

Variable kernel : loc -> loc -> Z -> loc -> Z -> double -> Z -> M Z.

(** X22.  No defensive copy is made between the arguments of a call: when
    the same writable array, aligned and in native byte order, is given to
    [Py_Correlate1D] both as input and as output, the kernel is run on
    that one object in both roles, in the world the conversion of the
    weights has left, and the result of the call is decided by the error
    indicator after the kernel. *)
Theorem Py_Correlate1D_in_place (p : loc) (arr : PyArrayObject) (weights : PyObject)
    (axis mode origin : Z) (cval : double) (w w2 : World) (wt : loc) :
  heap w !! p = Some arr ->
  PyArray_ISWRITEABLE arr = true ->
  PyArray_ISALIGNED arr = true ->
  PyArray_ISNOTSWAPPED arr = true ->
  PyArray_EquivTypenums (PyArray_TYPE arr) (PyArray_TYPE arr) = true ->
  NI_ObjectToInputArray weights w = Done (Some wt) w2 ->
  heap w2 !! p = Some arr ->
  Py_Correlate1D kernel (PyArrayRef p) weights axis (PyArrayRef p) mode cval origin w
  = (_ ← kernel p wt axis p mode cval origin; wrapper_exit) w2.
Proof.
  intros Hp Hw Ha Hn Ht Hwt Hp2.
  assert (Hin : NI_ObjectToInputArray (PyArrayRef p) w = Done (Some p) w).
  { unfold NI_ObjectToInputArray.
    rewrite (NA_InputArray_array _ _ _ _ _ Hp).
    apply (PyArray_FromArray_same _ _ arr); [exact Hp|].
    unfold needs_copy, target_descr, PyArray_EquivTypes, PyArray_ISBYTESWAPPED.
    change (NPY_NOTYPE =? NPY_NOTYPE) with true. cbv iota.
    rewrite Hn, Ha. cbn [negb andb].
    rewrite !andb_false_r. cbv iota. unfold PyArray_TYPE in Ht. rewrite Ht.
    rewrite eqb_reflx. reflexivity. }
  assert (Hout : NI_ObjectToOutputArray (PyArrayRef p) w2 = Done (Some p) w2).
  { unfold NI_ObjectToOutputArray, NA_OutputArray. run_bind.
    now rewrite (deref_at _ _ _ Hp2), Hw, satisfies_converter_request, Ha, Hn. }
  unfold Py_Correlate1D. open_bind. rewrite Hin, Hwt, Hout.
  destruct (kernel p wt axis p mode cval origin w2); reflexivity.
Qed.

End InPlace.

Lemma Py_Correlate1D_in_place_witness :
  @Py_Correlate1D numpy_lp64 (fun _ _ _ _ _ _ _ => mret 1) (PyArrayRef 1)
    (PyArrayRef 1) 0 (PyArrayRef 1) 0 0%float 0 (world_of canonical_long)
  = Done (Some Py_None) (world_of canonical_long).
Proof.
  refine (eq_trans
            (@Py_Correlate1D_in_place numpy_lp64 (fun _ _ _ _ _ _ _ => mret 1)
               1%positive canonical_long (PyArrayRef 1) 0 0 0 0%float
               (world_of canonical_long) (world_of canonical_long) 1%positive
               _ _ _ _ _ _ _) _);
    reflexivity.
Defined.
